(** * uncertain.py : parenthetical-digits rendering of a mean with an uncertainty

    A shallow embedding of [src/uncertain.py] ([_exponent], [Uncertain.__init__],
    [Uncertain.__str__], [Uncertain.__format__], [Uncertain.from_string]) and of
    the parts of Python these functions call ([str.split], [in], [re.search] on
    the two patterns used, [int], [float], and the [format] mini-language for
    [int] and [float] values with the specs the source builds).

    Modelling choices.
    - Numbers.  A Python [float] is modelled as an exact decimal [m * 10^e]
      ([Dec.t]); every binary64 value is such a decimal.  Arithmetic is exact:
      the IEEE rounding of [/], [*], [log10] is not modelled, and neither are
      [inf] and [nan].  The order on decimals is computed on integers and is
      the order of the rationals ([dec_compare_Q]).  A Python [int] keeps its
      own tag ([PyInt]), because it prints without a fractional part; it is
      unbounded, so the [int64] of NumPy and its wrap-around are not modelled.
      A statement that depends on the branch taken, on a digit or on a text
      being produced is made with the conditions of the last section of the
      definitions ([in_range], [small_int], [int64_safe], [clearly_below],
      [clear_of_next_power], [is_ascii]) and with margins of a billionth, far
      above the rounding errors of binary64: on these inputs the source,
      computing in binary64, takes the branch that exact arithmetic takes.
    - Strings.  A Python [str] is modelled as a [string] holding its UTF-8
      encoding, so the two non-ASCII characters of the source are two bytes
      each (the multiplication sign is C3 97, the plus-minus sign is C2 B1).
      [int] and [float] read ASCII literals (an optional sign, ASCII digits,
      a point, an exponent) between white space; the other Unicode digits
      that Python also accepts are not modelled.
    - Exceptions.  A call returns [Ret v] or [Raise e].
    - Recursion.  [__format__] and [from_string] call themselves; the model
      recurses on a counter that starts at Python's recursion limit and raises
      [RecursionError] at zero, which never happens
      ([format_no_recursion_error], [from_string_no_recursion_error]). *)

From Stdlib Require Import ZArith QArith Qpower Qabs Lia Lqa Bool List Ascii String.
Import ListNotations.

Local Open Scope string_scope.
Local Open Scope Z_scope.

(** ** Exact decimal numbers *)

Module Dec.

(** [dm * 10 ^ de] *)
Record t : Set := mk { dm : Z; de : Z }.

Definition of_Z (z : Z) : t := mk z 0.

(** The rational number that a decimal stands for. *)
Definition to_Q (a : t) : Q := (inject_Z (dm a) * 10 ^ de a)%Q.

(** Both mantissas over the smaller of the two exponents. *)
Definition align (a b : t) : Z * Z :=
  let e := Z.min (de a) (de b) in
  (dm a * 10 ^ (de a - e), dm b * 10 ^ (de b - e)).

Definition compare (a b : t) : comparison :=
  let '(x, y) := align a b in x ?= y.

Definition eqb (a b : t) : bool :=
  match compare a b with Eq => true | _ => false end.

Definition ltb (a b : t) : bool :=
  match compare a b with Lt => true | _ => false end.

Definition leb (a b : t) : bool :=
  match compare a b with Gt => false | _ => true end.

Definition eq (a b : t) : Prop := eqb a b = true.
Definition lt (a b : t) : Prop := ltb a b = true.
Definition le (a b : t) : Prop := leb a b = true.

Definition is_zero (a : t) : bool := dm a =? 0.

Definition abs (a : t) : t := mk (Z.abs (dm a)) (de a).

Definition opp (a : t) : t := mk (- dm a) (de a).

Definition add (a b : t) : t :=
  let '(x, y) := align a b in mk (x + y) (Z.min (de a) (de b)).

Definition sub (a b : t) : t := add a (opp b).

(** Multiplication by an integer. *)
Definition mulZ (k : Z) (a : t) : t := mk (k * dm a) (de a).

(** [a * 10 ^ k], for any integer [k]; [a / 10 ^ k] is [scale a (- k)]. *)
Definition scale (a : t) (k : Z) : t := mk (dm a) (de a + k).

(** Number of decimal digits of a positive integer. *)
Fixpoint ndigits_fuel (fuel : nat) (n : Z) : Z :=
  match fuel with
  | O => 1
  | S f => if n <? 10 then 1 else 1 + ndigits_fuel f (n / 10)
  end.

Definition ndigits (n : Z) : Z := ndigits_fuel (Z.to_nat (Z.log2 n)) n.

(** [floor (log10 a)] for [a > 0]. *)
Definition floor_log10 (a : t) : Z := ndigits (dm a) - 1 + de a.

(** [floor (a * 10 ^ k)], [ceil (a * 10 ^ k)], truncation towards zero and
    rounding to the nearest integer with ties to even. *)
Definition floor_scaled (a : t) (k : Z) : Z :=
  let x := de a + k in
  if 0 <=? x then dm a * 10 ^ x else dm a / 10 ^ (- x).

Definition ceil_scaled (a : t) (k : Z) : Z :=
  let x := de a + k in
  if 0 <=? x then dm a * 10 ^ x else - ((- dm a) / 10 ^ (- x)).

Definition trunc_scaled (a : t) (k : Z) : Z :=
  let x := de a + k in
  if 0 <=? x then dm a * 10 ^ x else Z.quot (dm a) (10 ^ (- x)).

Definition round_scaled (a : t) (k : Z) : Z :=
  let x := de a + k in
  if 0 <=? x then dm a * 10 ^ x
  else
    let p := 10 ^ (- x) in
    let q := dm a / p in
    let r := dm a mod p in
    match 2 * r ?= p with
    | Lt => q
    | Gt => q + 1
    | Eq => if Z.even q then q else q + 1
    end.

(** The mantissa without its trailing zeros, and the exponent moved along. *)
Fixpoint strip_zeros_fuel (fuel : nat) (m e : Z) : Z * Z :=
  match fuel with
  | O => (m, e)
  | S f => if (m mod 10 =? 0) && negb (m =? 0)
           then strip_zeros_fuel f (m / 10) (e + 1)
           else (m, e)
  end.

Definition strip_zeros (a : t) : t :=
  let '(m, e) := strip_zeros_fuel (Z.to_nat (Z.log2 (Z.abs (dm a)))) (dm a) (de a) in
  mk m e.

End Dec.

Declare Scope dec_scope.
Delimit Scope dec_scope with dec.
Bind Scope dec_scope with Dec.t.

Infix "==" := Dec.eq (at level 70, no associativity) : dec_scope.
Infix "<" := Dec.lt : dec_scope.
Infix "<=" := Dec.le : dec_scope.

(** Decimal literals: [0.51099895000], [9.1093837015e-31], [12]. *)
Definition dec_of_number (n : Number.number) : option Dec.t :=
  match n with
  | Number.Decimal (Decimal.Decimal i f) =>
      Some (Dec.mk (Z.of_int (Decimal.app_int i f))
                   (- Z.of_nat (Decimal.nb_digits f)))
  | Number.Decimal (Decimal.DecimalExp i f e) =>
      Some (Dec.mk (Z.of_int (Decimal.app_int i f))
                   (Z.of_int e - Z.of_nat (Decimal.nb_digits f)))
  | Number.Hexadecimal _ => None
  end.

Definition number_of_dec (d : Dec.t) : option Number.number :=
  Some (Number.Decimal
          (Decimal.DecimalExp (Z.to_int (Dec.dm d)) Decimal.Nil (Z.to_int (Dec.de d)))).

Number Notation Dec.t dec_of_number number_of_dec : dec_scope.

(** ** Exceptions *)

Inductive exn : Set :=
| ValueError (msg : string)
| IndexError (msg : string)
| OverflowError (msg : string)
| RecursionError.

Inductive result (A : Type) : Type :=
| Ret (a : A)
| Raise (e : exn).

Arguments Ret {A} a.
Arguments Raise {A} e.

Definition bind {A B : Type} (r : result A) (k : A -> result B) : result B :=
  match r with
  | Ret a => k a
  | Raise e => Raise e
  end.

Notation "x <- r ;; k" := (bind r (fun x => k))
  (at level 61, r at next level, right associativity).

(** Python's default [sys.getrecursionlimit()]. *)
Definition recursion_limit : nat := 1000.

(** ** Python strings *)

Module Str.

Fixpoint take (n : nat) (s : string) : string :=
  match n, s with
  | S n', String c s' => String c (take n' s')
  | _, _ => ""
  end.

Fixpoint drop (n : nat) (s : string) : string :=
  match n, s with
  | S n', String c s' => drop n' s'
  | _, _ => s
  end.

Fixpoint repeat (c : ascii) (n : nat) : string :=
  match n with
  | O => ""
  | S n' => String c (repeat c n')
  end.

Fixpoint all (p : ascii -> bool) (s : string) : bool :=
  match s with
  | "" => true
  | String c s' => p c && all p s'
  end.

(** [mem c s]: the byte [c] occurs in [s]. *)
Fixpoint mem (c : ascii) (s : string) : bool :=
  match s with
  | "" => false
  | String c' s' => Ascii.eqb c c' || mem c s'
  end.

(** [cut sep s]: the text before and after the first occurrence of [sep]. *)
Fixpoint cut (sep s : string) : option (string * string) :=
  if prefix sep s then Some ("", drop (String.length sep) s)
  else
    match s with
    | "" => None
    | String c s' =>
        match cut sep s' with
        | Some (a, b) => Some (String c a, b)
        | None => None
        end
    end.

(** [sep in s] *)
Definition contains (sep s : string) : bool :=
  match cut sep s with Some _ => true | None => false end.

(** [s.split(sep)] for a non-empty [sep] *)
Fixpoint split_fuel (fuel : nat) (sep s : string) : list string :=
  match fuel with
  | O => [s]
  | S f =>
      match cut sep s with
      | None => [s]
      | Some (a, b) => a :: split_fuel f sep b
      end
  end.

Definition split (sep s : string) : list string :=
  split_fuel (String.length s) sep s.

(** The last character, for [s[-1]]. *)
Fixpoint last (s : string) : option ascii :=
  match s with
  | "" => None
  | String c "" => Some c
  | String _ s' => last s'
  end.

(** [s[1:-1]] *)
Definition slice_1_m1 (s : string) : string :=
  take (String.length s - 2) (drop 1 s).

(** ASCII white space, as [str.strip], [int] and [float] skip it. *)
Definition is_space (c : ascii) : bool :=
  let n := N_of_ascii c in
  (((9 <=? n) && (n <=? 13)) || ((28 <=? n) && (n <=? 32)))%N.

Fixpoint lstrip (s : string) : string :=
  match s with
  | String c s' => if is_space c then lstrip s' else s
  | "" => ""
  end.

Fixpoint rstrip (s : string) : string :=
  match s with
  | "" => ""
  | String c s' =>
      match rstrip s' with
      | "" => if is_space c then "" else String c ""
      | r => String c r
      end
  end.

Definition strip (s : string) : string := rstrip (lstrip s).

Definition is_digit (c : ascii) : bool :=
  let n := N_of_ascii c in ((48 <=? n) && (n <=? 57))%N.

Definition digit_val (c : ascii) : Z := Z.of_N (N_of_ascii c) - 48.

Definition digit_char (d : Z) : ascii := ascii_of_N (Z.to_N (48 + d)).

(** The longest prefix of digits, and what follows it. *)
Fixpoint span_digits (s : string) : string * string :=
  match s with
  | String c s' =>
      if is_digit c then let '(d, r) := span_digits s' in (String c d, r)
      else ("", s)
  | "" => ("", "")
  end.

(** The value of a string of digits, most significant first. *)
Fixpoint digits_val_acc (acc : Z) (s : string) : Z :=
  match s with
  | "" => acc
  | String c s' => digits_val_acc (10 * acc + digit_val c) s'
  end.

Definition digits_val (s : string) : Z := digits_val_acc 0 s.

(** The decimal digits of [n >= 0], most significant first. *)
Fixpoint of_nat_fuel (fuel : nat) (n : Z) (acc : string) : string :=
  let acc' := String (digit_char (n mod 10)) acc in
  match fuel with
  | O => acc'
  | S f => if n <? 10 then acc' else of_nat_fuel f (n / 10) acc'
  end.

Definition of_nat (n : Z) : string :=
  of_nat_fuel (Z.to_nat (Z.log2 n)) n "".

(** [n] on exactly [w] digits, zero-padded on the left ([n < 10 ^ w]). *)
Fixpoint of_nat_width (w : nat) (n : Z) (acc : string) : string :=
  match w with
  | O => acc
  | S w' => of_nat_width w' (n / 10) (String (digit_char (n mod 10)) acc)
  end.

(** The longest prefix of characters that satisfy [p], and what follows. *)
Fixpoint span (p : ascii -> bool) (s : string) : string * string :=
  match s with
  | String c s' =>
      if p c then let '(a, r) := span p s' in (String c a, r)
      else ("", s)
  | "" => ("", "")
  end.

End Str.

(** ** Python numbers and their conversions to and from text *)

Inductive num : Set :=
| PyInt (z : Z)
| PyFloat (d : Dec.t).

Definition to_dec (x : num) : Dec.t :=
  match x with
  | PyInt z => Dec.of_Z z
  | PyFloat d => d
  end.

(** [np.abs] and [np.sign] keep the kind of their argument.  On an [int] this
    is the absolute value of the integers: [np.abs] works on [int64], where
    the smallest value, [- 2 ^ 63], has no absolute value and is returned
    unchanged. *)
Definition np_abs (x : num) : num :=
  match x with
  | PyInt z => PyInt (Z.abs z)
  | PyFloat d => PyFloat (Dec.abs d)
  end.

Definition np_sign (x : num) : Z := Z.sgn (Dec.dm (to_dec x)).

(** [int(np.floor(np.log10(x)))]: [log10 0] is [-inf] and the logarithm of a
    negative number is [nan]; [int] refuses both. *)
Definition int_floor_log10 (x : Dec.t) : result Z :=
  if Dec.is_zero x then
    Raise (OverflowError "cannot convert float infinity to integer")
  else if Dec.dm x <? 0 then
    Raise (ValueError "cannot convert float NaN to integer")
  else Ret (Dec.floor_log10 x).

(** An optional sign in front of a literal. *)
Definition split_sign (s : string) : bool * string :=
  match s with
  | String "-" r => (true, r)
  | String "+" r => (false, r)
  | _ => (false, s)
  end.

Definition apply_sign (neg : bool) (n : Z) : Z := if neg then - n else n.

(** [int(s)] on decimal literals (digit-group underscores are not modelled). *)
Definition py_int (s : string) : result Z :=
  let '(neg, body) := split_sign (Str.strip s) in
  match body with
  | "" => Raise (ValueError "invalid literal for int() with base 10")
  | _ =>
      if Str.all Str.is_digit body then Ret (apply_sign neg (Str.digits_val body))
      else Raise (ValueError "invalid literal for int() with base 10")
  end.

(** The exponent part of a float literal: nothing, or [e]/[E], an optional sign
    and at least one digit. *)
Definition float_exponent (s : string) : option Z :=
  match s with
  | "" => Some 0
  | String c r =>
      if Ascii.eqb c "e" || Ascii.eqb c "E" then
        let '(neg, body) := split_sign r in
        match body with
        | "" => None
        | _ => if Str.all Str.is_digit body
               then Some (apply_sign neg (Str.digits_val body))
               else None
        end
      else None
  end.

(** [float(s)] on decimal literals ([inf], [nan] and digit-group underscores
    are not modelled). *)
Definition py_float (s : string) : result Dec.t :=
  let '(neg, s1) := split_sign (Str.strip s) in
  let '(ip, s2) := Str.span_digits s1 in
  let '(fp, s3) :=
    match s2 with
    | String "." r => Str.span_digits r
    | _ => ("", s2)
    end in
  match ip ++ fp with
  | "" => Raise (ValueError "could not convert string to float")
  | ds =>
      match float_exponent s3 with
      | None => Raise (ValueError "could not convert string to float")
      | Some ex =>
          Ret (Dec.mk (apply_sign neg (Str.digits_val ds))
                      (ex - Z.of_nat (String.length fp)))
      end
  end.

(** The sign that [format] prints: [-] for a negative value, and [+] for the
    others when the spec asks for it. *)
Definition sign_str (neg : bool) (f_sign : string) : string :=
  if neg then "-" else if (f_sign =? "+")%string then "+" else "".

(** [format(z, f_sign)] for an [int]. *)
Definition format_int (z : Z) (f_sign : string) : string :=
  sign_str (z <? 0) f_sign ++ Str.of_nat (Z.abs z).

(** [repr] of a non-negative float: the shortest digits, in exponent notation
    when the decimal point would fall more than 16 places to the right of the
    first digit or more than 3 zeros to its left. *)
Definition repr_abs (d : Dec.t) : string :=
  if Dec.is_zero d then "0.0"
  else
    let n := Dec.strip_zeros (Dec.abs d) in
    let ds := Str.of_nat (Dec.dm n) in
    let k := Z.of_nat (String.length ds) in
    let decpt := k + Dec.de n in
    if (decpt <=? -4) || (16 <? decpt) then
      let x := decpt - 1 in
      Str.take 1 ds ++ (if 1 <? k then "." ++ Str.drop 1 ds else "")
        ++ "e" ++ (if x <? 0 then "-" else "+")
        ++ (if Z.abs x <? 10 then "0" else "") ++ Str.of_nat (Z.abs x)
    else if decpt <=? 0 then
      "0." ++ Str.repeat "0" (Z.to_nat (- decpt)) ++ ds
    else if decpt <? k then
      Str.take (Z.to_nat decpt) ds ++ "." ++ Str.drop (Z.to_nat decpt) ds
    else ds ++ Str.repeat "0" (Z.to_nat (decpt - k)) ++ ".0".

(** [format(d, f_sign)] for a [float]: [repr] with the sign rule. *)
Definition format_float (d : Dec.t) (f_sign : string) : string :=
  sign_str (Dec.dm d <? 0) f_sign ++ repr_abs d.

(** [format(x, f_sign)] *)
Definition format_num (x : num) (f_sign : string) : string :=
  match x with
  | PyInt z => format_int z f_sign
  | PyFloat d => format_float d f_sign
  end.

(** The digits of [format(d, '.{prec}f')]: [d] rounded to [prec] decimals. *)
Definition fixed_abs (d : Dec.t) (prec : Z) : string :=
  let a := Z.abs (Dec.round_scaled d prec) in
  let p := 10 ^ prec in
  Str.of_nat (a / p)
    ++ (if prec =? 0 then ""
        else "." ++ Str.of_nat_width (Z.to_nat prec) (a mod p) "").

(** [format(x, f'{f_sign}.{prec}f')]; a negative [prec] makes the spec
    ['.-1f'], which [format] refuses. *)
Definition format_f (x : num) (f_sign : string) (prec : Z) : result string :=
  if prec <? 0 then Raise (ValueError "Format specifier missing precision")
  else
    let d := to_dec x in
    Ret (sign_str (Dec.dm d <? 0) f_sign ++ fixed_abs d prec).

(** [re.search] for the character [c] followed by a greedy run of digits, and
    then [.group()[1:]]: the digits after the first [c], when there is one. *)
Definition re_search_digits (c format_spec : string) : option string :=
  match Str.cut c format_spec with
  | None => None
  | Some (_, rest) => Some (fst (Str.span_digits rest))
  end.

(** [int(m.group()[1:]) if m else 0] *)
Definition int_of_match (m : option string) : result Z :=
  match m with
  | Some ds => py_int ds
  | None => Ret 0
  end.

(** ** uncertain.py *)

(** [_exponent(e, sign='+', E=False)] *)
Definition _exponent (e : Z) (sign : string) (E : bool) : string :=
  if e =? 0 then ""
  else
    let exp := format_int e sign in
    if E then "e" ++ exp else " × 10^" ++ exp.

Module Uncertain.

Record t : Set := mk { mean : num; uncertainty : num }.

Definition __init__ (mean uncertainty : num) : t :=
  mk mean (np_abs uncertainty).

(** [f_sign], lines 150-153. *)
Definition f_sign_of (format_spec : string) : string :=
  if Str.contains "+" format_spec || (format_spec =? "")%string then "+" else "".

(** The message of the [ValueError] of line 207. *)
Definition both_msg (f_precision u_precision : Z) : string :=
  "Cannot specify both floating point precision ." ++ format_int f_precision ""
    ++ " and uncertainty specification u" ++ format_int u_precision "" ++ ".".

(** Lines 176-217 of [__format__]: the exponent of the mean is 0. *)
Definition format_base (self : t) (format_spec f_sign : string) : result string :=
  f_precision <- int_of_match (re_search_digits "." format_spec) ;;
  if Dec.leb (Dec.abs (to_dec (mean self))) (Dec.abs (to_dec (uncertainty self)))
  then
    if negb (f_precision =? 0) then
      m <- format_f (mean self) f_sign f_precision ;;
      u <- format_f (uncertainty self) "" f_precision ;;
      Ret ("(" ++ m ++ " ± " ++ u ++ ")")
    else
      Ret ("(" ++ format_num (mean self) f_sign ++ " ± "
               ++ format_num (uncertainty self) "" ++ ")")
  else
    precision <- int_floor_log10 (to_dec (uncertainty self)) ;;
    let digits := - precision in
    u_precision <- int_of_match (re_search_digits "u" format_spec) ;;
    if negb (f_precision =? 0) && negb (u_precision =? 0) then
      Raise (ValueError (both_msg f_precision u_precision))
    else
      let '(digits, uncertainty) :=
        if negb (f_precision =? 0) then
          (f_precision, Dec.trunc_scaled (to_dec (uncertainty self)) f_precision)
        else
          let digits := digits + (if negb (u_precision =? 0) then u_precision - 1 else 1) in
          (digits, Dec.ceil_scaled (to_dec (uncertainty self)) digits) in
      m <- format_f (mean self) f_sign digits ;;
      Ret (m ++ "(" ++ format_int uncertainty "" ++ ")").

(** [__format__], with the recursion counter. *)
Fixpoint format_fuel (fuel : nat) (self : t) (format_spec : string) : result string :=
  match fuel with
  | O => Raise RecursionError
  | S fuel' =>
      let sign := np_sign (mean self) in
      exponent <- int_floor_log10 (Dec.mulZ sign (to_dec (mean self))) ;;
      let mantissa := Dec.scale (to_dec (mean self)) (- exponent) in
      let f_sign := f_sign_of format_spec in
      let E := Str.contains "e" format_spec in
      if Dec.is_zero (to_dec (uncertainty self)) then
        Ret (format_float mantissa f_sign ++ _exponent exponent "+" E)
      else if 1 <=? Z.abs exponent then
        let normalized :=
          __init__ (PyFloat (Dec.scale (to_dec (mean self)) (- exponent)))
                   (PyFloat (Dec.scale (to_dec (uncertainty self)) (- exponent))) in
        stem <- format_fuel fuel' normalized format_spec ;;
        Ret (stem ++ _exponent exponent "+" E)
      else format_base self format_spec f_sign
  end.

Definition __format__ (self : t) (format_spec : string) : result string :=
  format_fuel recursion_limit self format_spec.

Definition __str__ (self : t) : result string := __format__ self "+u2".

(** [from_string], with the recursion counter. *)
Fixpoint from_string_fuel (fuel : nat) (string : string) : result t :=
  match fuel with
  | O => Raise RecursionError
  | S fuel' =>
      if Str.contains "E" string then
        match Str.split "E" string with
        | [mantissa; exponent] =>
            exponent <- py_int exponent ;;
            u <- from_string_fuel fuel' mantissa ;;
            Ret (__init__ (PyFloat (Dec.scale (to_dec (mean u)) exponent))
                          (PyFloat (Dec.scale (to_dec (uncertainty u)) exponent)))
        | [_] => Raise (ValueError "not enough values to unpack")
        | _ => Raise (ValueError "too many values to unpack")
        end
      else if Str.contains "×" string then
        match Str.split "×" string with
        | [mantissa; rest] =>
            match Str.split "^" rest with
            | _ :: exponent :: _ =>
                exponent <- py_int exponent ;;
                u <- from_string_fuel fuel' mantissa ;;
                Ret (__init__ (PyFloat (Dec.scale (to_dec (mean u)) exponent))
                              (PyFloat (Dec.scale (to_dec (uncertainty u)) exponent)))
            | _ => Raise (IndexError "list index out of range")
            end
        | [_] => Raise (ValueError "not enough values to unpack")
        | _ => Raise (ValueError "too many values to unpack")
        end
      else
        match string with
        | "" => Raise (IndexError "string index out of range")
        | String c0 _ =>
            if Ascii.eqb c0 "(" &&
               match Str.last string with Some c => Ascii.eqb c ")" | None => false end
            then
              match Str.split "±" (Str.slice_1_m1 string) with
              | [mean; uncertainty] =>
                  mean <- py_float mean ;;
                  uncertainty <- py_float uncertainty ;;
                  Ret (__init__ (PyFloat mean) (PyFloat uncertainty))
              | [_] => Raise (ValueError "not enough values to unpack")
              | _ => Raise (ValueError "too many values to unpack")
              end
            else
              match Str.split "(" string with
              | [mean; uncertainty] =>
                  match Str.split "." mean with
                  | _ :: frac1 :: _ =>
                      let precision := Z.of_nat (String.length frac1) in
                      let uncertainty := hd "" (Str.split ")" uncertainty) in
                      mean <- py_float mean ;;
                      uncertainty <- py_float uncertainty ;;
                      Ret (__init__ (PyFloat mean)
                                    (PyFloat (Dec.scale uncertainty (- precision))))
                  | _ => Raise (IndexError "list index out of range")
                  end
              | [_] => Raise (ValueError "not enough values to unpack")
              | _ => Raise (ValueError "too many values to unpack")
              end
        end
  end.

Definition from_string (string : string) : result t :=
  from_string_fuel recursion_limit string.

End Uncertain.

(** ** Auxiliary notions used in the statements *)

(** A character that [strip] keeps. *)
Definition nospace (c : ascii) : bool := negb (Str.is_space c).

(** [r] does not begin with a digit: [span_digits] stops in front of it. *)
Definition no_digit_head (r : string) : bool :=
  match r with
  | String c _ => negb (Str.is_digit c)
  | "" => true
  end.

(** The three signs [format] can print. *)
Definition is_sign (sg : string) : Prop := sg = "" \/ sg = "+" \/ sg = "-".


(** The exponent [__format__] factors out of a value with a non-zero mean, and
    the value it then formats (line 168). *)
Definition exponent_of (self : Uncertain.t) : Z :=
  Dec.floor_log10 (Dec.abs (to_dec (Uncertain.mean self))).

Definition normalized (self : Uncertain.t) : Uncertain.t :=
  Uncertain.__init__
    (PyFloat (Dec.scale (to_dec (Uncertain.mean self)) (- exponent_of self)))
    (PyFloat (Dec.scale (to_dec (Uncertain.uncertainty self)) (- exponent_of self))).

(** The error of [log10 0] followed by [int]. *)
Definition log10_zero_error : exn :=
  OverflowError "cannot convert float infinity to integer".

(** The characters of a rendered number, and those of a rendered number with
    its exponent suffix. *)
Definition is_numeric (c : ascii) : bool := Str.is_digit c || Str.mem c ".e+-".

Definition is_plain (c : ascii) : bool := is_numeric c || Str.mem c " ×^".

(** The mantissa of line 148. *)
Definition mantissa_of (self : Uncertain.t) : Dec.t :=
  Dec.scale (to_dec (Uncertain.mean self)) (- exponent_of self).

(** [spec_option c format_spec n]: the first [c] of the spec is followed by a
    non-empty run of digits, of value [n] (the option [.<n>] for [c = "."],
    [u<n>] for [c = "u"]). *)
Definition spec_option (c : ascii) (format_spec : string) (n : Z) : Prop :=
  exists before digits rest : string,
    format_spec = before ++ String c (digits ++ rest) /\
    Str.mem c before = false /\
    digits <> "" /\ Str.all Str.is_digit digits = true /\
    no_digit_head rest = true /\
    n = Str.digits_val digits.

(** The value that reaches lines 176-217: the value itself when its exponent
    is 0, the normalised one otherwise. *)
Definition base_of (self : Uncertain.t) : Uncertain.t :=
  if 1 <=? Z.abs (exponent_of self) then normalized self else self.

(** The number of decimals and the indicator that lines 196-215 compute from
    the value of [.<N>] and of [u<M>] (0 when the option is absent). *)
Definition digits_of (self : Uncertain.t) (N M : Z) : Z :=
  if N =? 0 then
    - Dec.floor_log10 (to_dec (Uncertain.uncertainty self))
    + (if M =? 0 then 1 else M - 1)
  else N.

Definition indicator_of (self : Uncertain.t) (N M : Z) : Z :=
  if N =? 0 then Dec.ceil_scaled (to_dec (Uncertain.uncertainty self)) (digits_of self N M)
  else Dec.trunc_scaled (to_dec (Uncertain.uncertainty self)) N.

(** The characters of an output of [__format__] without the plus-minus sign. *)
Definition is_digits_form (c : ascii) : bool := is_plain c || Str.mem c "()".

(** What may follow the digits of a float literal: nothing, or an exponent. *)
Definition float_tail (ex : string) (exv : Z) : Prop :=
  (ex = "" /\ exv = 0) \/
  exists sg ds : string,
    (sg = "+" \/ sg = "-") /\ ds <> "" /\ Str.all Str.is_digit ds = true /\
    ex = "e" ++ sg ++ ds /\ exv = apply_sign (sg =? "-")%string (Str.digits_val ds).

(** The number at the head of a rendering, as a reader takes it: an opening
    parenthesis is skipped and the text is read up to the first character
    that is not a sign, a digit or a decimal point. *)
Definition is_mantissa_char (c : ascii) : bool := Str.is_digit c || Str.mem c ".+-".

Definition displayed_mantissa (stem : string) : result Dec.t :=
  let body := match stem with String "(" r => r | _ => stem end in
  py_float (fst (Str.span is_mantissa_char body)).

(** [r] does not continue a number: it is empty or begins with a character
    that is not a sign, a digit or a decimal point. *)
Definition no_mantissa_head (r : string) : bool :=
  match r with
  | String c _ => negb (is_mantissa_char c)
  | "" => true
  end.

(** The quantity of the docstring: the mass of the electron in MeV/c^2. *)
Definition electron_mass : Uncertain.t :=
  Uncertain.__init__ (PyFloat 0.51099895000) (PyFloat 0.00000000015).

(** ** The inputs on which binary64 arithmetic and exact arithmetic agree

    The statements that depend on the branch [__format__] takes, or on a
    text being produced, carry the conditions below: outside them the
    rounding, the underflow and the overflow of binary64, or the conversions
    of NumPy on large integers, can send the source to another branch than
    exact arithmetic does. *)

(** A byte of an ASCII character.  The classes [\d] of [re] and the digits of
    [int] hold other Unicode digits as well, which the model does not read;
    an ASCII spec has none. *)
Definition is_ascii (c : ascii) : bool := (N_of_ascii c <? 128)%N.

(** A magnitude well inside the normal range of binary64, and far enough from
    its ends that the quotient of two of them is inside it as well. *)
Definition in_range (d : Dec.t) : Prop :=
  (Dec.mk 1 (-150) <= Dec.abs d)%dec /\ (Dec.abs d <= Dec.mk 1 150)%dec.

(** An [int] that binary64 and [np.int64] hold exactly. *)
Definition small_int (x : num) : Prop :=
  match x with
  | PyInt z => Z.abs z < 2 ^ 53
  | PyFloat _ => True
  end.

(** An [int] uncertainty is stored as an [np.int64], and [__format__] divides
    it by the power of ten of the mean, a Python [int]: NumPy needs that
    power to be in the range of [int64] as well. *)
Definition int64_safe (u : num) (m : Dec.t) : Prop :=
  match u with
  | PyInt z => Z.abs z < 2 ^ 53 /\ (Dec.abs m <= Dec.mk 1 18)%dec
  | PyFloat _ => True
  end.

(** [|u|] is below [|m|] by more than any rounding can close: a billionth of
    [|m|] at least. *)
Definition clearly_below (u m : Dec.t) : Prop :=
  (Dec.mulZ (10 ^ 9) (Dec.abs u) <= Dec.mulZ (10 ^ 9 - 1) (Dec.abs m))%dec.

(** [|d|] is below the next power of ten by more than any rounding can
    close: [log10] is then not rounded up to the next integer, and the
    mantissa is not rounded up to 10. *)
Definition clear_of_next_power (d : Dec.t) : Prop :=
  (Dec.mulZ (10 ^ 9) (Dec.abs d)
   <= Dec.mk (10 ^ 9 - 1) (Dec.floor_log10 (Dec.abs d) + 1))%dec.

(** The characters of a number printed without sign and without exponent. *)
Definition is_decimal_char (c : ascii) : bool := Str.is_digit c || Ascii.eqb c ".".

(** * Facts about the model *)

(** ** Strings *)

Lemma str_app_nil_r (s : string) : s ++ "" = s.
Proof. induction s as [|c s IH]; simpl; [reflexivity | now rewrite IH]. Qed.

Lemma str_app_assoc (a b c : string) : (a ++ b) ++ c = a ++ (b ++ c).
Proof. induction a as [|x a IH]; simpl; [reflexivity | now rewrite IH]. Qed.

Lemma str_length_app (a b : string) :
  String.length (a ++ b) = (String.length a + String.length b)%nat.
Proof. induction a as [|x a IH]; simpl; [reflexivity | now rewrite IH]. Qed.

(** Both sides of an equation between appended texts, right-nested. *)
Ltac str_norm := repeat (progress (rewrite ?str_app_assoc; cbn [append])).

Lemma str_all_app (p : ascii -> bool) (a b : string) :
  Str.all p (a ++ b) = Str.all p a && Str.all p b.
Proof.
  induction a as [|x a IH]; simpl; [reflexivity |].
  now rewrite IH, andb_assoc.
Qed.

Lemma str_mem_app (c : ascii) (a b : string) :
  Str.mem c (a ++ b) = Str.mem c a || Str.mem c b.
Proof.
  induction a as [|x a IH]; simpl; [reflexivity |].
  now rewrite IH, orb_assoc.
Qed.

Lemma str_all_not_mem (p : ascii -> bool) (c : ascii) (s : string) :
  Str.all p s = true -> p c = false -> Str.mem c s = false.
Proof.
  intros Hs Hc. induction s as [|x s IH]; simpl in *; [reflexivity |].
  apply andb_true_iff in Hs. destruct Hs as [Hx Hs].
  rewrite (IH Hs), orb_false_r.
  destruct (Ascii.eqb_spec c x) as [->|]; [congruence | reflexivity].
Qed.

Lemma str_all_impl (p q : ascii -> bool) (s : string) :
  (forall c, p c = true -> q c = true) -> Str.all p s = true -> Str.all q s = true.
Proof.
  intros Hpq. induction s as [|x s IH]; simpl; [reflexivity |].
  intros H. apply andb_true_iff in H. destruct H as [Hx Hs].
  now rewrite (Hpq _ Hx), (IH Hs).
Qed.

Lemma str_all_repeat (p : ascii -> bool) (c : ascii) (n : nat) :
  p c = true -> Str.all p (Str.repeat c n) = true.
Proof. intros Hc. induction n as [|n IH]; simpl; [reflexivity | now rewrite Hc, IH]. Qed.

Lemma str_length_repeat (c : ascii) (n : nat) : String.length (Str.repeat c n) = n.
Proof. induction n as [|n IH]; simpl; [reflexivity | now rewrite IH]. Qed.

Lemma str_take_drop (n : nat) (s : string) : Str.take n s ++ Str.drop n s = s.
Proof.
  revert s. induction n as [|n IH]; intros [|c s]; simpl; try reflexivity.
  now rewrite IH.
Qed.

Lemma str_length_take (n : nat) (s : string) :
  (n <= String.length s)%nat -> String.length (Str.take n s) = n.
Proof.
  revert s. induction n as [|n IH]; intros [|c s]; simpl; intros H; try reflexivity; try lia.
  rewrite IH; lia.
Qed.

Lemma str_take_app (a b : string) : Str.take (String.length a) (a ++ b) = a.
Proof. induction a as [|x a IH]; simpl; [now destruct b | now rewrite IH]. Qed.

Lemma str_drop_app (a b : string) : Str.drop (String.length a) (a ++ b) = b.
Proof. induction a as [|x a IH]; simpl; [reflexivity | exact IH]. Qed.

Lemma str_all_take (p : ascii -> bool) (n : nat) (s : string) :
  Str.all p s = true -> Str.all p (Str.take n s) = true.
Proof.
  revert s. induction n as [|n IH]; intros [|c s]; simpl; try reflexivity.
  intros H. apply andb_true_iff in H. destruct H as [Hc Hs].
  now rewrite Hc, (IH _ Hs).
Qed.

Lemma str_all_drop (p : ascii -> bool) (n : nat) (s : string) :
  Str.all p s = true -> Str.all p (Str.drop n s) = true.
Proof.
  revert s. induction n as [|n IH]; intros [|c s]; simpl; try reflexivity; try tauto.
  intros H. apply andb_true_iff in H. destruct H as [Hc Hs]. now apply IH.
Qed.

(** [prefix] and [cut] *)

Lemma str_prefix_app (sep b : string) : prefix sep (sep ++ b) = true.
Proof.
  induction sep as [|c sep IH]; simpl; [now destruct b |].
  destruct (ascii_dec c c); [exact IH | congruence].
Qed.

Lemma str_prefix_not_head (c x : ascii) (sep s : string) :
  c <> x -> prefix (String c sep) (String x s) = false.
Proof. intros H. simpl. destruct (ascii_dec c x); [contradiction | reflexivity]. Qed.

(** A separator whose first byte does not occur in [s] is not found in [s]. *)
Lemma str_cut_none (c : ascii) (sep s : string) :
  Str.mem c s = false -> Str.cut (String c sep) s = None.
Proof.
  induction s as [|x s IH]; intros H.
  - reflexivity.
  - simpl in H. apply orb_false_iff in H. destruct H as [Hx Hs].
    apply Ascii.eqb_neq in Hx.
    change (Str.cut (String c sep) (String x s))
      with (if prefix (String c sep) (String x s)
            then Some ("", Str.drop (String.length (String c sep)) (String x s))
            else match Str.cut (String c sep) s with
                 | Some (a, b) => Some (String x a, b)
                 | None => None
                 end).
    rewrite (str_prefix_not_head _ _ _ _ Hx), (IH Hs). reflexivity.
Qed.

(** The first occurrence of [sep] in [a ++ sep ++ b] is the one after [a],
    when the first byte of [sep] does not occur in [a]. *)
Lemma str_cut_app (c : ascii) (sep a b : string) :
  Str.mem c a = false ->
  Str.cut (String c sep) (a ++ String c sep ++ b) = Some (a, b).
Proof.
  induction a as [|x a IH]; intros H.
  - change ("" ++ String c sep ++ b) with (String c sep ++ b).
    destruct (String c sep ++ b) eqn:E; [discriminate E |].
    change (Str.cut (String c sep) (String a s))
      with (if prefix (String c sep) (String a s)
            then Some ("", Str.drop (String.length (String c sep)) (String a s))
            else match Str.cut (String c sep) s with
                 | Some (a0, b0) => Some (String a a0, b0)
                 | None => None
                 end).
    rewrite <- E, str_prefix_app, str_drop_app. reflexivity.
  - simpl in H. apply orb_false_iff in H. destruct H as [Hx Hs].
    apply Ascii.eqb_neq in Hx.
    change (Str.cut (String c sep) (String x a ++ String c sep ++ b))
      with (if prefix (String c sep) (String x (a ++ String c sep ++ b))
            then Some ("", Str.drop (String.length (String c sep))
                                    (String x (a ++ String c sep ++ b)))
            else match Str.cut (String c sep) (a ++ String c sep ++ b) with
                 | Some (a0, b0) => Some (String x a0, b0)
                 | None => None
                 end).
    rewrite (str_prefix_not_head _ _ _ _ Hx), (IH Hs). reflexivity.
Qed.

Lemma str_contains_none (c : ascii) (sep s : string) :
  Str.mem c s = false -> Str.contains (String c sep) s = false.
Proof. intros H. unfold Str.contains. now rewrite str_cut_none. Qed.

Lemma str_contains_app (c : ascii) (sep a b : string) :
  Str.mem c a = false -> Str.contains (String c sep) (a ++ String c sep ++ b) = true.
Proof. intros H. unfold Str.contains. now rewrite str_cut_app. Qed.

(** [split] of a text with exactly one separator, and with none. *)
Lemma str_split_fuel_S (f : nat) (sep s : string) :
  Str.split_fuel (S f) sep s =
  match Str.cut sep s with
  | None => [s]
  | Some (a, b) => a :: Str.split_fuel f sep b
  end.
Proof. reflexivity. Qed.

Lemma str_split_fuel_none (f : nat) (c : ascii) (sep s : string) :
  Str.mem c s = false -> Str.split_fuel f (String c sep) s = [s].
Proof.
  intros H. destruct f; [reflexivity |].
  now rewrite str_split_fuel_S, str_cut_none.
Qed.

Lemma str_split_none (c : ascii) (sep s : string) :
  Str.mem c s = false -> Str.split (String c sep) s = [s].
Proof. intros H. unfold Str.split. now apply str_split_fuel_none. Qed.

Lemma str_split_one (c : ascii) (sep a b : string) :
  Str.mem c a = false -> Str.mem c b = false ->
  Str.split (String c sep) (a ++ String c sep ++ b) = [a; b].
Proof.
  intros Ha Hb. unfold Str.split.
  rewrite str_length_app. simpl String.length.
  rewrite Nat.add_succ_r, str_split_fuel_S.
  rewrite (str_cut_app c sep a b Ha).
  now rewrite str_split_fuel_none.
Qed.

(** The head of [split] when the separator is there. *)
Lemma str_split_hd (c : ascii) (sep a b : string) :
  Str.mem c a = false ->
  hd "" (Str.split (String c sep) (a ++ String c sep ++ b)) = a.
Proof.
  intros Ha. unfold Str.split.
  rewrite str_length_app. simpl String.length.
  rewrite Nat.add_succ_r, str_split_fuel_S.
  now rewrite (str_cut_app c sep a b Ha).
Qed.

(** ** Decimal digits *)

Lemma digit_cases (d : Z) :
  0 <= d < 10 ->
  d = 0 \/ d = 1 \/ d = 2 \/ d = 3 \/ d = 4 \/ d = 5 \/ d = 6 \/ d = 7 \/ d = 8 \/ d = 9.
Proof. lia. Qed.

Ltac each_digit d H :=
  destruct (digit_cases d H) as [?|[?|[?|[?|[?|[?|[?|[?|[?|?]]]]]]]]]; subst d.

Lemma digit_val_char (d : Z) : 0 <= d < 10 -> Str.digit_val (Str.digit_char d) = d.
Proof. intros H. each_digit d H; reflexivity. Qed.

Lemma is_digit_char (d : Z) : 0 <= d < 10 -> Str.is_digit (Str.digit_char d) = true.
Proof. intros H. each_digit d H; reflexivity. Qed.

Lemma is_digit_mod10 (n : Z) : Str.is_digit (Str.digit_char (n mod 10)) = true.
Proof. apply is_digit_char. apply Z.mod_pos_bound. lia. Qed.

Lemma digit_val_mod10 (n : Z) : Str.digit_val (Str.digit_char (n mod 10)) = n mod 10.
Proof. apply digit_val_char. apply Z.mod_pos_bound. lia. Qed.

Lemma digits_val_acc_app (a : Z) (s r : string) :
  Str.digits_val_acc a (s ++ r) = Str.digits_val_acc (Str.digits_val_acc a s) r.
Proof. revert a. induction s as [|c s IH]; intros a; simpl; [reflexivity | apply IH]. Qed.

Lemma digits_val_acc_shift (a : Z) (s : string) :
  Str.digits_val_acc a s = a * 10 ^ Z.of_nat (String.length s) + Str.digits_val s.
Proof.
  unfold Str.digits_val. revert a.
  induction s as [|c s IH]; intros a.
  - simpl. lia.
  - cbn [Str.digits_val_acc String.length].
    rewrite IH, (IH (10 * 0 + Str.digit_val c)).
    rewrite Nat2Z.inj_succ, Z.pow_succ_r by lia. ring.
Qed.

Lemma digits_val_app (s r : string) :
  Str.digits_val (s ++ r) =
  Str.digits_val s * 10 ^ Z.of_nat (String.length r) + Str.digits_val r.
Proof.
  unfold Str.digits_val at 1. rewrite digits_val_acc_app.
  now rewrite digits_val_acc_shift.
Qed.

Lemma of_nat_fuel_acc (f : nat) (n : Z) (acc : string) :
  Str.of_nat_fuel f n acc = Str.of_nat_fuel f n "" ++ acc.
Proof.
  revert n acc. induction f as [|f IH]; intros n acc; simpl.
  - reflexivity.
  - destruct (n <? 10); [reflexivity |].
    rewrite IH, (IH _ (String _ "")), str_app_assoc. reflexivity.
Qed.

Lemma of_nat_fuel_S (f : nat) (n : Z) :
  Str.of_nat_fuel (S f) n "" =
  if n <? 10 then String (Str.digit_char (n mod 10)) ""
  else Str.of_nat_fuel f (n / 10) "" ++ String (Str.digit_char (n mod 10)) "".
Proof.
  simpl. destruct (n <? 10); [reflexivity |]. apply of_nat_fuel_acc.
Qed.

Lemma of_nat_fuel_O (n : Z) :
  Str.of_nat_fuel O n "" = String (Str.digit_char (n mod 10)) "".
Proof. reflexivity. Qed.

Lemma all_digit_of_nat_fuel (f : nat) (n : Z) :
  Str.all Str.is_digit (Str.of_nat_fuel f n "") = true.
Proof.
  revert n. induction f as [|f IH]; intros n.
  - rewrite of_nat_fuel_O. simpl. now rewrite is_digit_mod10.
  - rewrite of_nat_fuel_S. destruct (n <? 10).
    + simpl. now rewrite is_digit_mod10.
    + rewrite str_all_app, IH. simpl. now rewrite is_digit_mod10.
Qed.

Lemma length_of_nat_fuel (f : nat) (n : Z) :
  Z.of_nat (String.length (Str.of_nat_fuel f n "")) = Dec.ndigits_fuel f n.
Proof.
  revert n. induction f as [|f IH]; intros n.
  - reflexivity.
  - rewrite of_nat_fuel_S. cbn [Dec.ndigits_fuel]. destruct (n <? 10).
    + reflexivity.
    + rewrite str_length_app. cbn [String.length]. rewrite <- IH. lia.
Qed.

Lemma digits_val_of_nat_fuel (f : nat) (n : Z) :
  0 <= n < 10 ^ (Z.of_nat f + 1) ->
  Str.digits_val (Str.of_nat_fuel f n "") = n.
Proof.
  revert n. induction f as [|f IH]; intros n Hn.
  - rewrite of_nat_fuel_O. unfold Str.digits_val. simpl Str.digits_val_acc.
    rewrite digit_val_mod10. change (10 ^ (Z.of_nat 0 + 1)) with 10 in Hn.
    rewrite Z.mod_small; lia.
  - rewrite of_nat_fuel_S. destruct (Z.ltb_spec n 10) as [Hlt|Hge].
    + unfold Str.digits_val. simpl Str.digits_val_acc.
      rewrite digit_val_mod10, Z.mod_small; lia.
    + rewrite digits_val_app. cbn [String.length].
      unfold Str.digits_val at 2. simpl Str.digits_val_acc.
      rewrite digit_val_mod10, IH.
      * change (10 ^ Z.of_nat 1) with 10.
        pose proof (Z.div_mod n 10 ltac:(lia)). lia.
      * split; [apply Z.div_pos; lia |].
        apply Z.div_lt_upper_bound; [lia |].
        rewrite Nat2Z.inj_succ, <- Z.add_1_r in Hn.
        rewrite (Z.pow_add_r 10 (Z.of_nat f + 1) 1) in Hn by lia.
        change (10 ^ 1) with 10 in Hn. lia.
Qed.

Lemma ndigits_fuel_pos (f : nat) (n : Z) : 1 <= Dec.ndigits_fuel f n.
Proof.
  revert n. induction f as [|f IH]; intros n; cbn [Dec.ndigits_fuel]; [lia |].
  destruct (n <? 10); [lia |]. specialize (IH (n / 10)). lia.
Qed.

Lemma ndigits_fuel_spec (f : nat) (n : Z) :
  0 < n < 10 ^ (Z.of_nat f + 1) ->
  10 ^ (Dec.ndigits_fuel f n - 1) <= n < 10 ^ Dec.ndigits_fuel f n.
Proof.
  revert n. induction f as [|f IH]; intros n Hn.
  - simpl. change (10 ^ (Z.of_nat 0 + 1)) with 10 in Hn.
    change (10 ^ (1 - 1)) with 1. change (10 ^ 1) with 10. lia.
  - cbn [Dec.ndigits_fuel]. destruct (Z.ltb_spec n 10) as [Hlt|Hge].
    + change (10 ^ (1 - 1)) with 1. change (10 ^ 1) with 10. lia.
    + assert (Hq : 0 < n / 10 < 10 ^ (Z.of_nat f + 1)).
      { split.
        - apply Z.div_str_pos; lia.
        - apply Z.div_lt_upper_bound; [lia |].
          rewrite Nat2Z.inj_succ, <- Z.add_1_r in Hn.
          rewrite (Z.pow_add_r 10 (Z.of_nat f + 1) 1) in Hn by lia.
          change (10 ^ 1) with 10 in Hn. lia. }
      specialize (IH _ Hq).
      pose proof (ndigits_fuel_pos f (n / 10)) as Hk.
      replace (1 + Dec.ndigits_fuel f (n / 10) - 1)
        with ((Dec.ndigits_fuel f (n / 10) - 1) + 1) by lia.
      replace (1 + Dec.ndigits_fuel f (n / 10))
        with (Dec.ndigits_fuel f (n / 10) + 1) by lia.
      rewrite !Z.pow_add_r by lia. change (10 ^ 1) with 10.
      pose proof (Z.div_mod n 10 ltac:(lia)).
      pose proof (Z.mod_pos_bound n 10 ltac:(lia)). lia.
Qed.

Lemma log2_fuel_bound (n : Z) :
  0 <= n -> n < 10 ^ (Z.of_nat (Z.to_nat (Z.log2 n)) + 1).
Proof.
  intros Hn. rewrite Z2Nat.id by apply Z.log2_nonneg.
  destruct (Z.eq_dec n 0) as [->|Hz]; [reflexivity |].
  pose proof (Z.log2_spec n ltac:(lia)) as [_ H2].
  unfold Z.succ in H2.
  eapply Z.lt_le_trans; [exact H2 |].
  apply Z.pow_le_mono_l. lia.
Qed.

Lemma ndigits_spec (n : Z) :
  0 < n -> 10 ^ (Dec.ndigits n - 1) <= n < 10 ^ Dec.ndigits n.
Proof.
  intros Hn. apply ndigits_fuel_spec. split; [lia | apply log2_fuel_bound; lia].
Qed.

Lemma ndigits_pos (n : Z) : 1 <= Dec.ndigits n.
Proof. apply ndigits_fuel_pos. Qed.

(** [ndigits] is the only [k] with [10 ^ (k - 1) <= n < 10 ^ k]. *)
Lemma ndigits_unique (n k : Z) :
  10 ^ (k - 1) <= n < 10 ^ k -> 1 <= k -> Dec.ndigits n = k.
Proof.
  intros [Hlo Hhi] Hk.
  assert (Hn : 0 < n).
  { eapply Z.lt_le_trans; [| exact Hlo]. apply Z.pow_pos_nonneg; lia. }
  pose proof (ndigits_spec n Hn) as [Hlo' Hhi'].
  pose proof (ndigits_pos n) as Hp.
  destruct (Z.lt_trichotomy (Dec.ndigits n) k) as [Hlt|[Heq|Hgt]]; [| exact Heq |].
  - exfalso.
    assert (10 ^ Dec.ndigits n <= 10 ^ (k - 1)) by (apply Z.pow_le_mono_r; lia).
    lia.
  - exfalso.
    assert (10 ^ k <= 10 ^ (Dec.ndigits n - 1)) by (apply Z.pow_le_mono_r; lia).
    lia.
Qed.

Lemma all_digit_of_nat (n : Z) : Str.all Str.is_digit (Str.of_nat n) = true.
Proof. apply all_digit_of_nat_fuel. Qed.

Lemma length_of_nat (n : Z) : Z.of_nat (String.length (Str.of_nat n)) = Dec.ndigits n.
Proof. apply length_of_nat_fuel. Qed.

Lemma digits_val_of_nat (n : Z) : 0 <= n -> Str.digits_val (Str.of_nat n) = n.
Proof.
  intros Hn. apply digits_val_of_nat_fuel. split; [lia | now apply log2_fuel_bound].
Qed.

Lemma of_nat_nonempty (n : Z) : Str.of_nat n <> "".
Proof.
  intros H. pose proof (length_of_nat n) as HL. rewrite H in HL.
  pose proof (ndigits_pos n). simpl in HL. lia.
Qed.

(** Fixed-width digits. *)

Lemma of_nat_width_acc (w : nat) (n : Z) (acc : string) :
  Str.of_nat_width w n acc = Str.of_nat_width w n "" ++ acc.
Proof.
  revert n acc. induction w as [|w IH]; intros n acc; simpl.
  - reflexivity.
  - rewrite IH, (IH _ (String _ "")), str_app_assoc. reflexivity.
Qed.

Lemma of_nat_width_S (w : nat) (n : Z) :
  Str.of_nat_width (S w) n "" =
  Str.of_nat_width w (n / 10) "" ++ String (Str.digit_char (n mod 10)) "".
Proof. simpl. apply of_nat_width_acc. Qed.

Lemma length_of_nat_width (w : nat) (n : Z) :
  String.length (Str.of_nat_width w n "") = w.
Proof.
  revert n. induction w as [|w IH]; intros n; [reflexivity |].
  rewrite of_nat_width_S, str_length_app, IH. simpl. lia.
Qed.

Lemma all_digit_of_nat_width (w : nat) (n : Z) :
  Str.all Str.is_digit (Str.of_nat_width w n "") = true.
Proof.
  revert n. induction w as [|w IH]; intros n; [reflexivity |].
  rewrite of_nat_width_S, str_all_app, IH. simpl. now rewrite is_digit_mod10.
Qed.

Lemma digits_val_of_nat_width (w : nat) (n : Z) :
  0 <= n < 10 ^ Z.of_nat w -> Str.digits_val (Str.of_nat_width w n "") = n.
Proof.
  revert n. induction w as [|w IH]; intros n Hn.
  - change (10 ^ Z.of_nat 0) with 1 in Hn. simpl. unfold Str.digits_val. simpl. lia.
  - rewrite of_nat_width_S, digits_val_app. cbn [String.length].
    unfold Str.digits_val at 2. simpl Str.digits_val_acc.
    rewrite digit_val_mod10, IH.
    + change (10 ^ Z.of_nat 1) with 10.
      pose proof (Z.div_mod n 10 ltac:(lia)). lia.
    + split; [apply Z.div_pos; lia |].
      apply Z.div_lt_upper_bound; [lia |].
      rewrite Nat2Z.inj_succ, Z.pow_succ_r in Hn by lia. lia.
Qed.

(** ** Reading numbers back: [strip], [int], [float] *)

Lemma is_digit_nospace (c : ascii) : Str.is_digit c = true -> nospace c = true.
Proof.
  unfold Str.is_digit, nospace, Str.is_space. intros H.
  apply andb_true_iff in H. destruct H as [H1 H2].
  apply N.leb_le in H1. apply N.leb_le in H2.
  apply negb_true_iff, orb_false_iff. split; apply andb_false_iff.
  - right. apply N.leb_gt. lia.
  - right. apply N.leb_gt. lia.
Qed.

Lemma lstrip_nospace (s : string) :
  match s with String c _ => nospace c = true | "" => True end -> Str.lstrip s = s.
Proof.
  destruct s as [|c s]; [reflexivity |]. unfold nospace. intros H.
  apply negb_true_iff in H. simpl. now rewrite H.
Qed.

Lemma rstrip_nospace (s : string) : Str.all nospace s = true -> Str.rstrip s = s.
Proof.
  induction s as [|c s IH]; [reflexivity |]. cbn [Str.all]. intros H.
  apply andb_true_iff in H. destruct H as [Hc Hs].
  cbn [Str.rstrip]. rewrite (IH Hs).
  unfold nospace in Hc. apply negb_true_iff in Hc. rewrite Hc.
  now destruct s.
Qed.

Lemma rstrip_app_space (s : string) :
  Str.all nospace s = true -> Str.rstrip (s ++ " ") = s.
Proof.
  induction s as [|c s IH]; [reflexivity |]. cbn [Str.all]. intros H.
  apply andb_true_iff in H. destruct H as [Hc Hs].
  cbn [append Str.rstrip]. rewrite (IH Hs).
  unfold nospace in Hc. apply negb_true_iff in Hc. rewrite Hc.
  now destruct s.
Qed.

Lemma strip_nospace (s : string) : Str.all nospace s = true -> Str.strip s = s.
Proof.
  intros H. unfold Str.strip. rewrite lstrip_nospace.
  - now apply rstrip_nospace.
  - destruct s as [|c s]; [exact I |]. cbn [Str.all] in H.
    now apply andb_true_iff in H.
Qed.

Lemma strip_app_space (s : string) :
  Str.all nospace s = true -> Str.strip (s ++ " ") = s.
Proof.
  intros H. destruct s as [|c s]; [reflexivity |].
  unfold Str.strip. rewrite lstrip_nospace.
  - now apply rstrip_app_space.
  - cbn [Str.all] in H. apply andb_true_iff in H. apply H.
Qed.

Lemma strip_space_app (s : string) :
  Str.all nospace s = true -> Str.strip (" " ++ s) = s.
Proof.
  intros H. unfold Str.strip.
  change (Str.lstrip (" " ++ s)) with (Str.lstrip s).
  now apply strip_nospace.
Qed.

Lemma span_digits_app (ds r : string) :
  Str.all Str.is_digit ds = true -> no_digit_head r = true ->
  Str.span_digits (ds ++ r) = (ds, r).
Proof.
  intros Hds Hr. induction ds as [|c ds IH].
  - destruct r as [|c r]; [reflexivity |]. simpl in *.
    apply negb_true_iff in Hr. now rewrite Hr.
  - cbn [Str.all] in Hds. apply andb_true_iff in Hds. destruct Hds as [Hc Hds].
    cbn [append Str.span_digits]. now rewrite Hc, (IH Hds).
Qed.

Lemma span_digits_all (ds : string) :
  Str.all Str.is_digit ds = true -> Str.span_digits ds = (ds, "").
Proof.
  intros H. rewrite <- (str_app_nil_r ds) at 1. now apply span_digits_app.
Qed.

Lemma sign_str_is_sign (neg : bool) (f_sign : string) : is_sign (sign_str neg f_sign).
Proof.
  unfold sign_str, is_sign. destruct neg; [tauto |].
  destruct (f_sign =? "+")%string; tauto.
Qed.

Lemma split_sign_app (sg body : string) :
  is_sign sg ->
  match body with String c _ => Str.is_digit c = true | "" => False end ->
  split_sign (sg ++ body) = ((sg =? "-")%string, body).
Proof.
  intros [-> | [-> | ->]] Hb; try reflexivity.
  destruct body as [|c body]; [contradiction |].
  change ("" ++ String c body) with (String c body).
  unfold split_sign.
  destruct (Ascii.eqb_spec c "-") as [->|Hm]; [discriminate Hb |].
  destruct (Ascii.eqb_spec c "+") as [->|Hp]; [discriminate Hb |].
  destruct c as [[] [] [] [] [] [] [] []]; try reflexivity; congruence.
Qed.

Lemma split_sign_digits (sg ds r : string) :
  is_sign sg -> ds <> "" -> Str.all Str.is_digit ds = true ->
  split_sign (sg ++ ds ++ r) = ((sg =? "-")%string, ds ++ r).
Proof.
  intros Hsg Hne Hds. apply split_sign_app; [exact Hsg |].
  destruct ds as [|c ds]; [congruence |]. cbn [Str.all] in Hds.
  apply andb_true_iff in Hds. apply Hds.
Qed.

Lemma all_nospace_digits (ds : string) :
  Str.all Str.is_digit ds = true -> Str.all nospace ds = true.
Proof. apply str_all_impl. exact is_digit_nospace. Qed.

Lemma all_nospace_sign (sg : string) : is_sign sg -> Str.all nospace sg = true.
Proof. intros [-> | [-> | ->]]; reflexivity. Qed.

(** [int] reads back a signed run of digits. *)
Lemma py_int_literal (sg ds : string) :
  is_sign sg -> ds <> "" -> Str.all Str.is_digit ds = true ->
  py_int (sg ++ ds) = Ret (apply_sign (sg =? "-")%string (Str.digits_val ds)).
Proof.
  intros Hsg Hne Hds. unfold py_int.
  rewrite strip_nospace
    by (rewrite str_all_app, all_nospace_sign, all_nospace_digits; auto).
  rewrite <- (str_app_nil_r ds) at 1.
  rewrite split_sign_digits by assumption.
  rewrite str_app_nil_r. destruct ds as [|c ds]; [congruence |].
  now rewrite Hds.
Qed.

(** [float] reads back [sg ip . fp], and [sg ip] when there is no fraction. *)
Lemma py_float_fraction (sg ip fp : string) :
  is_sign sg -> ip <> "" ->
  Str.all Str.is_digit ip = true -> Str.all Str.is_digit fp = true ->
  py_float (sg ++ ip ++ "." ++ fp) =
  Ret (Dec.mk (apply_sign (sg =? "-")%string (Str.digits_val (ip ++ fp)))
              (- Z.of_nat (String.length fp))).
Proof.
  intros Hsg Hne Hip Hfp. unfold py_float.
  rewrite strip_nospace.
  2:{ rewrite !str_all_app, all_nospace_sign by assumption.
      rewrite (all_nospace_digits ip), (all_nospace_digits fp) by assumption.
      reflexivity. }
  rewrite split_sign_digits by assumption.
  rewrite span_digits_app by (auto).
  change ("." ++ fp) with (String "." fp). cbv iota beta.
  rewrite span_digits_all by auto.
  destruct (ip ++ fp) eqn:E.
  - destruct ip; [congruence | discriminate E].
  - reflexivity.
Qed.

Lemma py_float_integer (sg ip : string) :
  is_sign sg -> ip <> "" -> Str.all Str.is_digit ip = true ->
  py_float (sg ++ ip) =
  Ret (Dec.mk (apply_sign (sg =? "-")%string (Str.digits_val ip)) 0).
Proof.
  intros Hsg Hne Hip. unfold py_float.
  rewrite strip_nospace
    by (rewrite !str_all_app, all_nospace_sign, (all_nospace_digits ip) by assumption;
        reflexivity).
  rewrite <- (str_app_nil_r ip) at 1.
  rewrite split_sign_digits by assumption.
  rewrite str_app_nil_r, span_digits_all by auto.
  cbv iota beta. rewrite str_app_nil_r.
  destruct ip; [congruence | reflexivity].
Qed.

(** ** The recursion of [__format__] *)

Lemma mulZ_sign (x : num) : Dec.mulZ (np_sign x) (to_dec x) = Dec.abs (to_dec x).
Proof.
  unfold Dec.mulZ, np_sign, Dec.abs. f_equal.
  destruct (Dec.dm (to_dec x)); reflexivity.
Qed.

Lemma int_floor_log10_abs (d : Dec.t) :
  int_floor_log10 (Dec.abs d) =
  if Dec.is_zero d then Raise log10_zero_error
  else Ret (Dec.floor_log10 (Dec.abs d)).
Proof.
  unfold int_floor_log10, Dec.is_zero, Dec.abs. cbn [Dec.dm].
  destruct (Z.eqb_spec (Dec.dm d) 0) as [E|E].
  - rewrite E. reflexivity.
  - destruct (Z.eqb_spec (Z.abs (Dec.dm d)) 0) as [E'|E']; [lia |].
    destruct (Z.ltb_spec (Z.abs (Dec.dm d)) 0); [lia | reflexivity].
Qed.

Lemma format_fuel_S (n : nat) (self : Uncertain.t) (format_spec : string) :
  Uncertain.format_fuel (S n) self format_spec =
  if Dec.is_zero (to_dec (Uncertain.mean self)) then Raise log10_zero_error
  else if Dec.is_zero (to_dec (Uncertain.uncertainty self)) then
    Ret (format_float (Dec.scale (to_dec (Uncertain.mean self)) (- exponent_of self))
                      (Uncertain.f_sign_of format_spec)
         ++ _exponent (exponent_of self) "+" (Str.contains "e" format_spec))
  else if 1 <=? Z.abs (exponent_of self) then
    stem <- Uncertain.format_fuel n (normalized self) format_spec ;;
    Ret (stem ++ _exponent (exponent_of self) "+" (Str.contains "e" format_spec))
  else Uncertain.format_base self format_spec (Uncertain.f_sign_of format_spec).
Proof.
  cbn [Uncertain.format_fuel]. rewrite mulZ_sign, int_floor_log10_abs.
  destruct (Dec.is_zero (to_dec (Uncertain.mean self))); reflexivity.
Qed.

Lemma exponent_of_normalized (self : Uncertain.t) : exponent_of (normalized self) = 0.
Proof.
  unfold normalized, Uncertain.__init__.
  unfold exponent_of, Dec.floor_log10, Dec.scale, Dec.abs.
  cbn [Uncertain.mean to_dec Dec.dm Dec.de]. lia.
Qed.

Lemma format_fuel_normalized (n : nat) (self : Uncertain.t) (format_spec : string) :
  Dec.is_zero (to_dec (Uncertain.mean self)) = false ->
  Dec.is_zero (to_dec (Uncertain.uncertainty self)) = false ->
  Uncertain.format_fuel (S n) (normalized self) format_spec =
  Uncertain.format_base (normalized self) format_spec (Uncertain.f_sign_of format_spec).
Proof.
  intros Hm Hu. rewrite format_fuel_S, exponent_of_normalized.
  replace (Dec.is_zero (to_dec (Uncertain.mean (normalized self)))) with false
    by (symmetry; exact Hm).
  replace (Dec.is_zero (to_dec (Uncertain.uncertainty (normalized self)))) with false.
  - reflexivity.
  - symmetry. revert Hu. unfold normalized, Uncertain.__init__, Dec.is_zero, Dec.scale.
    cbn [Uncertain.uncertainty np_abs to_dec Dec.abs Dec.dm].
    intros Hu. apply Z.eqb_neq in Hu. apply Z.eqb_neq. lia.
Qed.

(** [__format__] without its recursion: at most one nested call is made, and it
    goes straight to lines 176-217. *)
Lemma format_unfold (self : Uncertain.t) (format_spec : string) :
  Uncertain.__format__ self format_spec =
  if Dec.is_zero (to_dec (Uncertain.mean self)) then Raise log10_zero_error
  else if Dec.is_zero (to_dec (Uncertain.uncertainty self)) then
    Ret (format_float (Dec.scale (to_dec (Uncertain.mean self)) (- exponent_of self))
                      (Uncertain.f_sign_of format_spec)
         ++ _exponent (exponent_of self) "+" (Str.contains "e" format_spec))
  else if 1 <=? Z.abs (exponent_of self) then
    stem <- Uncertain.format_base (normalized self) format_spec
                                  (Uncertain.f_sign_of format_spec) ;;
    Ret (stem ++ _exponent (exponent_of self) "+" (Str.contains "e" format_spec))
  else Uncertain.format_base self format_spec (Uncertain.f_sign_of format_spec).
Proof.
  unfold Uncertain.__format__.
  change recursion_limit with (S (S 998)).
  rewrite format_fuel_S.
  destruct (Dec.is_zero (to_dec (Uncertain.mean self))) eqn:Hm; [reflexivity |].
  destruct (Dec.is_zero (to_dec (Uncertain.uncertainty self))) eqn:Hu; [reflexivity |].
  now rewrite format_fuel_normalized.
Qed.

(** The counter is never exhausted. *)
Lemma bind_no_recursion_error {A B : Type} (r : result A) (k : A -> result B) :
  r <> Raise RecursionError ->
  (forall a, k a <> Raise RecursionError) ->
  bind r k <> Raise RecursionError.
Proof.
  intros Hr Hk. destruct r as [a|e]; simpl; [apply Hk |].
  intros H. apply Hr. congruence.
Qed.

Lemma py_int_no_recursion_error (s : string) : py_int s <> Raise RecursionError.
Proof.
  unfold py_int. destruct (split_sign (Str.strip s)) as [neg body].
  destruct body; [discriminate |].
  destruct (Str.all Str.is_digit (String a body)); discriminate.
Qed.

Lemma int_of_match_no_recursion_error (m : option string) :
  int_of_match m <> Raise RecursionError.
Proof. destruct m; simpl; [apply py_int_no_recursion_error | discriminate]. Qed.

Lemma format_f_no_recursion_error (x : num) (f_sign : string) (prec : Z) :
  format_f x f_sign prec <> Raise RecursionError.
Proof. unfold format_f. destruct (prec <? 0); discriminate. Qed.

Lemma int_floor_log10_no_recursion_error (d : Dec.t) :
  int_floor_log10 d <> Raise RecursionError.
Proof.
  unfold int_floor_log10. destruct (Dec.is_zero d); [discriminate |].
  destruct (Dec.dm d <? 0); discriminate.
Qed.

Lemma format_base_no_recursion_error (self : Uncertain.t) (format_spec f_sign : string) :
  Uncertain.format_base self format_spec f_sign <> Raise RecursionError.
Proof.
  unfold Uncertain.format_base.
  apply bind_no_recursion_error; [apply int_of_match_no_recursion_error |].
  intros f_precision.
  destruct (Dec.leb _ _).
  - destruct (negb (f_precision =? 0)); [| discriminate].
    apply bind_no_recursion_error; [apply format_f_no_recursion_error |]. intros m.
    apply bind_no_recursion_error; [apply format_f_no_recursion_error |]. intros u.
    discriminate.
  - apply bind_no_recursion_error; [apply int_floor_log10_no_recursion_error |].
    intros precision.
    apply bind_no_recursion_error; [apply int_of_match_no_recursion_error |].
    intros u_precision.
    destruct (negb (f_precision =? 0) && negb (u_precision =? 0)); [discriminate |].
    destruct (negb (f_precision =? 0));
      (apply bind_no_recursion_error; [apply format_f_no_recursion_error |]);
      intros m; discriminate.
Qed.

Lemma format_no_recursion_error (self : Uncertain.t) (format_spec : string) :
  Uncertain.__format__ self format_spec <> Raise RecursionError.
Proof.
  rewrite format_unfold.
  destruct (Dec.is_zero (to_dec (Uncertain.mean self))); [discriminate |].
  destruct (Dec.is_zero (to_dec (Uncertain.uncertainty self))); [discriminate |].
  destruct (1 <=? Z.abs (exponent_of self)); [| apply format_base_no_recursion_error].
  apply bind_no_recursion_error; [apply format_base_no_recursion_error |].
  intros stem. discriminate.
Qed.

(** ** The order on decimals *)

Lemma pow10_pos (k : Z) : 0 <= k -> 0 < 10 ^ k.
Proof. intros H. apply Z.pow_pos_nonneg; lia. Qed.

Lemma Zcompare_mul_r (n m p : Z) : 0 < p -> (n * p ?= m * p) = (n ?= m).
Proof.
  intros Hp. destruct (Z.compare_spec n m) as [E|L|G].
  - subst. apply Z.compare_refl.
  - apply Z.compare_lt_iff. nia.
  - apply Z.compare_gt_iff. nia.
Qed.

(** Comparing over any common exponent gives the same answer. *)
Lemma dec_compare_at (a b : Dec.t) (c : Z) :
  c <= Dec.de a -> c <= Dec.de b ->
  Dec.compare a b =
  (Dec.dm a * 10 ^ (Dec.de a - c) ?= Dec.dm b * 10 ^ (Dec.de b - c)).
Proof.
  intros Ha Hb. unfold Dec.compare, Dec.align.
  set (e := Z.min (Dec.de a) (Dec.de b)).
  assert (He : c <= e) by (unfold e; lia).
  assert (Hea : e <= Dec.de a) by (unfold e; lia).
  assert (Heb : e <= Dec.de b) by (unfold e; lia).
  replace (Dec.de a - c) with ((Dec.de a - e) + (e - c)) by lia.
  replace (Dec.de b - c) with ((Dec.de b - e) + (e - c)) by lia.
  rewrite !Z.pow_add_r by lia. rewrite !Z.mul_assoc.
  symmetry. apply Zcompare_mul_r. apply pow10_pos. lia.
Qed.

Lemma dec_compare_scale (a b : Dec.t) (k : Z) :
  Dec.compare (Dec.scale a k) (Dec.scale b k) = Dec.compare a b.
Proof.
  unfold Dec.compare, Dec.align, Dec.scale. cbn [Dec.dm Dec.de].
  rewrite Z.add_min_distr_r.
  replace (Dec.de a + k - (Z.min (Dec.de a) (Dec.de b) + k))
    with (Dec.de a - Z.min (Dec.de a) (Dec.de b)) by lia.
  replace (Dec.de b + k - (Z.min (Dec.de a) (Dec.de b) + k))
    with (Dec.de b - Z.min (Dec.de a) (Dec.de b)) by lia.
  reflexivity.
Qed.

Lemma dec_leb_scale (a b : Dec.t) (k : Z) :
  Dec.leb (Dec.scale a k) (Dec.scale b k) = Dec.leb a b.
Proof. unfold Dec.leb. now rewrite dec_compare_scale. Qed.

Lemma dec_ltb_scale (a b : Dec.t) (k : Z) :
  Dec.ltb (Dec.scale a k) (Dec.scale b k) = Dec.ltb a b.
Proof. unfold Dec.ltb. now rewrite dec_compare_scale. Qed.

Lemma dec_compare_antisym (a b : Dec.t) :
  Dec.compare b a = CompOpp (Dec.compare a b).
Proof.
  unfold Dec.compare, Dec.align. rewrite (Z.min_comm (Dec.de b)).
  apply Z.compare_antisym.
Qed.

Lemma dec_leb_ltb (a b : Dec.t) : Dec.leb a b = negb (Dec.ltb b a).
Proof.
  unfold Dec.leb, Dec.ltb. rewrite (dec_compare_antisym a b).
  destruct (Dec.compare a b); reflexivity.
Qed.

(** An integer against a decimal. *)
Lemma dec_le_0 (d : Dec.t) : (0 <= d)%dec <-> 0 <= Dec.dm d.
Proof.
  unfold Dec.le, Dec.leb.
  rewrite (dec_compare_at 0%dec d (Z.min 0 (Dec.de d)))
    by (cbn [Dec.de dec_of_number]; lia).
  change (Dec.dm 0%dec) with 0. rewrite Z.mul_0_l.
  pose proof (pow10_pos (Dec.de d - Z.min 0 (Dec.de d)) ltac:(lia)) as Hp.
  destruct (Z.compare_spec 0 (Dec.dm d * 10 ^ (Dec.de d - Z.min 0 (Dec.de d))));
    split; intros H'; try reflexivity; try discriminate; nia.
Qed.

Lemma dec_abs_nonneg (d : Dec.t) : (0 <= Dec.abs d)%dec.
Proof. apply dec_le_0. unfold Dec.abs. cbn [Dec.dm]. lia. Qed.

Lemma dec_abs_scale (d : Dec.t) (k : Z) : Dec.abs (Dec.scale d k) = Dec.scale (Dec.abs d) k.
Proof. reflexivity. Qed.

Lemma dec_abs_abs (d : Dec.t) : Dec.abs (Dec.abs d) = Dec.abs d.
Proof. unfold Dec.abs. cbn [Dec.dm Dec.de]. f_equal. lia. Qed.

Lemma np_abs_to_dec (x : num) : to_dec (np_abs x) = Dec.abs (to_dec x).
Proof. destruct x; reflexivity. Qed.

(** The mantissa of a non-zero number lies in [[1, 10)]. *)
Lemma mantissa_range (d : Dec.t) :
  Dec.is_zero d = false ->
  let m := Dec.abs (Dec.scale d (- Dec.floor_log10 (Dec.abs d))) in
  (1 <= m)%dec /\ (m < 10)%dec.
Proof.
  intros Hz m. unfold Dec.is_zero in Hz. apply Z.eqb_neq in Hz.
  pose proof (ndigits_spec (Z.abs (Dec.dm d)) ltac:(lia)) as [Hlo Hhi].
  pose proof (ndigits_pos (Z.abs (Dec.dm d))) as Hk.
  set (k := Dec.ndigits (Z.abs (Dec.dm d))) in *.
  assert (Hde : Dec.de m = 1 - k).
  { unfold m, Dec.abs, Dec.scale, Dec.floor_log10. cbn [Dec.dm Dec.de]. fold k. lia. }
  assert (Hdm : Dec.dm m = Z.abs (Dec.dm d)) by reflexivity.
  split.
  - unfold Dec.le, Dec.leb.
    rewrite (dec_compare_at 1%dec m (1 - k)) by (cbn [Dec.de dec_of_number]; lia).
    rewrite Hde, Hdm. change (Dec.dm 1%dec) with 1. change (Dec.de 1%dec) with 0.
    replace (0 - (1 - k)) with (k - 1) by lia.
    replace (1 - k - (1 - k)) with 0 by lia.
    rewrite Z.pow_0_r, Z.mul_1_l, Z.mul_1_r.
    destruct (Z.compare_spec (10 ^ (k - 1)) (Z.abs (Dec.dm d))); try reflexivity; lia.
  - unfold Dec.lt, Dec.ltb.
    rewrite (dec_compare_at m 10%dec (1 - k)) by (cbn [Dec.de dec_of_number]; lia).
    rewrite Hde, Hdm. change (Dec.dm 10%dec) with 10. change (Dec.de 10%dec) with 0.
    replace (0 - (1 - k)) with (k - 1) by lia.
    replace (1 - k - (1 - k)) with 0 by lia.
    rewrite Z.pow_0_r, Z.mul_1_r.
    replace (10 * 10 ^ (k - 1)) with (10 ^ k)
      by (replace k with ((k - 1) + 1) at 1 by lia;
          rewrite Z.pow_add_r by lia; change (10 ^ 1) with 10; ring).
    destruct (Z.compare_spec (Z.abs (Dec.dm d)) (10 ^ k)); try reflexivity; lia.
Qed.

(** ** Equal decimals *)

Lemma dec_eq_intro (a b : Dec.t) (c : Z) :
  c <= Dec.de a -> c <= Dec.de b ->
  Dec.dm a * 10 ^ (Dec.de a - c) = Dec.dm b * 10 ^ (Dec.de b - c) ->
  (a == b)%dec.
Proof.
  intros Ha Hb H. unfold Dec.eq, Dec.eqb.
  rewrite (dec_compare_at a b c Ha Hb), H, Z.compare_refl. reflexivity.
Qed.

Lemma dec_eq_elim (a b : Dec.t) (c : Z) :
  c <= Dec.de a -> c <= Dec.de b -> (a == b)%dec ->
  Dec.dm a * 10 ^ (Dec.de a - c) = Dec.dm b * 10 ^ (Dec.de b - c).
Proof.
  intros Ha Hb H. unfold Dec.eq, Dec.eqb in H.
  rewrite (dec_compare_at a b c Ha Hb) in H.
  destruct (Z.compare_spec (Dec.dm a * 10 ^ (Dec.de a - c))
              (Dec.dm b * 10 ^ (Dec.de b - c))); [assumption | discriminate | discriminate].
Qed.

Lemma dec_eq_refl (a : Dec.t) : (a == a)%dec.
Proof. apply (dec_eq_intro a a (Dec.de a)); lia. Qed.

Lemma dec_eq_sym (a b : Dec.t) : (a == b)%dec -> (b == a)%dec.
Proof.
  intros H. apply (dec_eq_intro b a (Z.min (Dec.de a) (Dec.de b))); try lia.
  symmetry. apply dec_eq_elim; [lia | lia | exact H].
Qed.

Lemma dec_eq_trans (a b c : Dec.t) : (a == b)%dec -> (b == c)%dec -> (a == c)%dec.
Proof.
  intros Hab Hbc.
  set (x := Z.min (Dec.de a) (Z.min (Dec.de b) (Dec.de c))).
  apply (dec_eq_intro a c x); try (unfold x; lia).
  rewrite (dec_eq_elim a b x) by (try assumption; unfold x; lia).
  apply dec_eq_elim; try assumption; unfold x; lia.
Qed.

(** Comparison does not see the representation. *)
Lemma dec_compare_eq_l (a a' b : Dec.t) :
  (a == a')%dec -> Dec.compare a b = Dec.compare a' b.
Proof.
  intros H. set (x := Z.min (Dec.de a) (Z.min (Dec.de a') (Dec.de b))).
  rewrite (dec_compare_at a b x), (dec_compare_at a' b x) by (unfold x; lia).
  now rewrite (dec_eq_elim a a' x) by (try assumption; unfold x; lia).
Qed.

Lemma dec_compare_eq_r (a b b' : Dec.t) :
  (b == b')%dec -> Dec.compare a b = Dec.compare a b'.
Proof.
  intros H. set (x := Z.min (Dec.de a) (Z.min (Dec.de b) (Dec.de b'))).
  rewrite (dec_compare_at a b x), (dec_compare_at a b' x) by (unfold x; lia).
  now rewrite (dec_eq_elim b b' x) by (try assumption; unfold x; lia).
Qed.

Lemma dec_abs_eq (a b : Dec.t) : (a == b)%dec -> (Dec.abs a == Dec.abs b)%dec.
Proof.
  intros H. set (x := Z.min (Dec.de a) (Dec.de b)).
  apply (dec_eq_intro _ _ x); try (unfold x, Dec.abs; cbn [Dec.de]; lia).
  pose proof (dec_eq_elim a b x ltac:(unfold x; lia) ltac:(unfold x; lia) H) as E.
  unfold Dec.abs. cbn [Dec.dm Dec.de].
  pose proof (pow10_pos (Dec.de a - x) ltac:(unfold x; lia)).
  pose proof (pow10_pos (Dec.de b - x) ltac:(unfold x; lia)).
  rewrite <- (Z.abs_eq (10 ^ (Dec.de a - x))) by lia.
  rewrite <- (Z.abs_eq (10 ^ (Dec.de b - x))) by lia.
  rewrite <- !Z.abs_mul. now rewrite E.
Qed.

Lemma dec_scale_eq (a b : Dec.t) (k : Z) :
  (a == b)%dec -> (Dec.scale a k == Dec.scale b k)%dec.
Proof.
  unfold Dec.eq, Dec.eqb. now rewrite dec_compare_scale.
Qed.

Lemma dec_scale_scale (a : Dec.t) (j k : Z) :
  Dec.scale (Dec.scale a j) k = Dec.scale a (j + k).
Proof. unfold Dec.scale. cbn [Dec.dm Dec.de]. f_equal. lia. Qed.

Lemma dec_scale_inv (a : Dec.t) (k : Z) : Dec.scale (Dec.scale a (- k)) k = a.
Proof.
  rewrite dec_scale_scale. destruct a. unfold Dec.scale. cbn [Dec.dm Dec.de].
  f_equal. lia.
Qed.

(** ** The order on decimals is the order on the rationals *)

Lemma to_Q_at (a : Dec.t) (c : Z) :
  c <= Dec.de a ->
  (Dec.to_Q a == inject_Z (Dec.dm a * 10 ^ (Dec.de a - c)) * 10 ^ c)%Q.
Proof.
  intros Hc. unfold Dec.to_Q.
  rewrite inject_Z_mult, Zpower_Qpower by lia.
  replace (Dec.de a) with ((Dec.de a - c) + c) at 1 by lia.
  rewrite Qpower_plus by discriminate.
  change (inject_Z 10) with 10%Q. ring.
Qed.

Lemma Qcompare_inject_scaled (x y : Z) (r : Q) :
  (0 < r)%Q -> Qcompare (inject_Z x * r) (inject_Z y * r) = (x ?= y).
Proof.
  intros Hr. destruct (Z.compare_spec x y) as [E|L|G].
  - subst. apply Qeq_alt. reflexivity.
  - apply Qlt_alt. apply Qmult_lt_compat_r; [exact Hr |]. now rewrite <- Zlt_Qlt.
  - apply Qgt_alt. apply Qmult_lt_compat_r; [exact Hr |]. now rewrite <- Zlt_Qlt.
Qed.

Theorem dec_compare_Q (a b : Dec.t) :
  Dec.compare a b = Qcompare (Dec.to_Q a) (Dec.to_Q b).
Proof.
  set (c := Z.min (Dec.de a) (Dec.de b)).
  rewrite (dec_compare_at a b c) by (unfold c; lia).
  rewrite (Qcompare_comp _ _ (to_Q_at a c ltac:(unfold c; lia))
                         _ _ (to_Q_at b c ltac:(unfold c; lia))).
  symmetry. apply Qcompare_inject_scaled. now apply Qpower_0_lt.
Qed.

Corollary dec_le_Q (a b : Dec.t) : (a <= b)%dec <-> (Dec.to_Q a <= Dec.to_Q b)%Q.
Proof.
  unfold Dec.le, Dec.leb. rewrite dec_compare_Q, Qle_alt.
  destruct (Dec.to_Q a ?= Dec.to_Q b)%Q; split; congruence.
Qed.

Corollary dec_lt_Q (a b : Dec.t) : (a < b)%dec <-> (Dec.to_Q a < Dec.to_Q b)%Q.
Proof.
  unfold Dec.lt, Dec.ltb. rewrite dec_compare_Q, Qlt_alt.
  destruct (Dec.to_Q a ?= Dec.to_Q b)%Q; split; congruence.
Qed.

Corollary dec_eq_Q (a b : Dec.t) : (a == b)%dec <-> (Dec.to_Q a == Dec.to_Q b)%Q.
Proof.
  unfold Dec.eq, Dec.eqb. rewrite dec_compare_Q, Qeq_alt.
  destruct (Dec.to_Q a ?= Dec.to_Q b)%Q; split; congruence.
Qed.

(** Scaling multiplies by a power of ten, and the other operations are those
    of the rationals. *)
Lemma to_Q_scale (a : Dec.t) (k : Z) : (Dec.to_Q (Dec.scale a k) == Dec.to_Q a * 10 ^ k)%Q.
Proof.
  unfold Dec.to_Q, Dec.scale. cbn [Dec.dm Dec.de].
  rewrite Qpower_plus by discriminate. ring.
Qed.

Lemma to_Q_opp (a : Dec.t) : (Dec.to_Q (Dec.opp a) == - Dec.to_Q a)%Q.
Proof.
  unfold Dec.to_Q, Dec.opp. cbn [Dec.dm Dec.de].
  rewrite inject_Z_opp. ring.
Qed.

Lemma to_Q_add (a b : Dec.t) : (Dec.to_Q (Dec.add a b) == Dec.to_Q a + Dec.to_Q b)%Q.
Proof.
  set (c := Z.min (Dec.de a) (Dec.de b)).
  rewrite (to_Q_at a c), (to_Q_at b c) by (unfold c; lia).
  unfold Dec.add, Dec.align, Dec.to_Q. fold c. cbn [Dec.dm Dec.de].
  rewrite inject_Z_plus. ring.
Qed.

Lemma to_Q_sub (a b : Dec.t) : (Dec.to_Q (Dec.sub a b) == Dec.to_Q a - Dec.to_Q b)%Q.
Proof. unfold Dec.sub. rewrite to_Q_add, to_Q_opp. ring. Qed.

Lemma to_Q_abs (a : Dec.t) : (Dec.to_Q (Dec.abs a) == Qabs (Dec.to_Q a))%Q.
Proof.
  unfold Dec.to_Q, Dec.abs. cbn [Dec.dm Dec.de].
  rewrite Qabs_Qmult.
  rewrite (Qabs_pos (10 ^ Dec.de a)) by (apply Qlt_le_weak; now apply Qpower_0_lt).
  reflexivity.
Qed.

(** [floor_log10] is the integer part of the decimal logarithm:
    [10 ^ x <= |d| < 10 * 10 ^ x] for [x = floor_log10 |d|]. *)
Lemma floor_log10_spec (d : Dec.t) :
  Dec.is_zero d = false ->
  (Dec.mk 1 (Dec.floor_log10 (Dec.abs d)) <= Dec.abs d)%dec /\
  (Dec.abs d < Dec.mk 10 (Dec.floor_log10 (Dec.abs d)))%dec.
Proof.
  intros Hd. pose proof (mantissa_range d Hd) as [Hlo Hhi].
  unfold Dec.le in *. unfold Dec.lt in *.
  rewrite <- (dec_leb_scale _ _ (Dec.floor_log10 (Dec.abs d))) in Hlo.
  rewrite <- (dec_ltb_scale _ _ (Dec.floor_log10 (Dec.abs d))) in Hhi.
  rewrite dec_abs_scale, dec_scale_inv in Hlo, Hhi.
  split; [exact Hlo | exact Hhi].
Qed.

Lemma floor_log10_Q (d : Dec.t) :
  Dec.is_zero d = false ->
  (10 ^ Dec.floor_log10 (Dec.abs d) <= Qabs (Dec.to_Q d))%Q /\
  (Qabs (Dec.to_Q d) < 10 ^ (Dec.floor_log10 (Dec.abs d) + 1))%Q.
Proof.
  intros Hd. destruct (floor_log10_spec d Hd) as [Hlo Hhi].
  apply dec_le_Q in Hlo. apply dec_lt_Q in Hhi.
  rewrite to_Q_abs in Hlo, Hhi. unfold Dec.to_Q in Hlo at 1. unfold Dec.to_Q in Hhi at 2.
  cbn [Dec.dm Dec.de] in Hlo, Hhi. split.
  - eapply Qle_trans; [| exact Hlo].
    change (inject_Z 1) with 1%Q. rewrite Qmult_1_l. apply Qle_refl.
  - eapply Qlt_le_trans; [exact Hhi |].
    rewrite Qpower_plus by discriminate. change (inject_Z 10) with (10 ^ 1)%Q.
    rewrite Qmult_comm. apply Qle_refl.
Qed.

(** ** The characters of rendered numbers *)

Lemma is_digit_numeric (c : ascii) : Str.is_digit c = true -> is_numeric c = true.
Proof. intros H. unfold is_numeric. now rewrite H. Qed.

Lemma is_numeric_plain (c : ascii) : is_numeric c = true -> is_plain c = true.
Proof. intros H. unfold is_plain. now rewrite H. Qed.

Lemma is_numeric_nospace (c : ascii) : is_numeric c = true -> nospace c = true.
Proof.
  unfold is_numeric. intros H. apply orb_true_iff in H. destruct H as [H|H].
  - now apply is_digit_nospace.
  - cbn [Str.mem] in H. rewrite orb_false_r in H.
    repeat (apply orb_true_iff in H; destruct H as [H|H]);
      apply Ascii.eqb_eq in H; subst c; reflexivity.
Qed.

Lemma all_numeric_digits (ds : string) :
  Str.all Str.is_digit ds = true -> Str.all is_numeric ds = true.
Proof. apply str_all_impl. exact is_digit_numeric. Qed.

Lemma all_plain_numeric (s : string) :
  Str.all is_numeric s = true -> Str.all is_plain s = true.
Proof. apply str_all_impl. exact is_numeric_plain. Qed.

Lemma all_nospace_numeric (s : string) :
  Str.all is_numeric s = true -> Str.all nospace s = true.
Proof. apply str_all_impl. exact is_numeric_nospace. Qed.

Lemma all_numeric_sign_str (neg : bool) (f_sign : string) :
  Str.all is_numeric (sign_str neg f_sign) = true.
Proof.
  unfold sign_str. destruct neg; [reflexivity |].
  destruct (f_sign =? "+")%string; reflexivity.
Qed.

Lemma all_numeric_format_int (z : Z) (f_sign : string) :
  Str.all is_numeric (format_int z f_sign) = true.
Proof.
  unfold format_int.
  now rewrite str_all_app, all_numeric_sign_str, all_numeric_digits
    by apply all_digit_of_nat.
Qed.

Lemma all_numeric_fixed_abs (d : Dec.t) (prec : Z) :
  Str.all is_numeric (fixed_abs d prec) = true.
Proof.
  unfold fixed_abs. rewrite str_all_app.
  rewrite all_numeric_digits by apply all_digit_of_nat.
  destruct (prec =? 0); [reflexivity |].
  change ("." ++ ?x) with (String "." x). cbn [Str.all].
  now rewrite all_numeric_digits by apply all_digit_of_nat_width.
Qed.

Lemma all_numeric_repr_abs (d : Dec.t) : Str.all is_numeric (repr_abs d) = true.
Proof.
  unfold repr_abs. destruct (Dec.is_zero d); [reflexivity |].
  set (ds := Str.of_nat (Dec.dm (Dec.strip_zeros (Dec.abs d)))).
  assert (Hds : Str.all is_numeric ds = true)
    by (apply all_numeric_digits, all_digit_of_nat).
  set (k := Z.of_nat (String.length ds)).
  set (decpt := k + Dec.de (Dec.strip_zeros (Dec.abs d))).
  destruct ((decpt <=? -4) || (16 <? decpt)).
  - rewrite !str_all_app.
    rewrite (str_all_take _ _ _ Hds).
    rewrite (all_numeric_digits (Str.of_nat _)) by apply all_digit_of_nat.
    assert (H1 : Str.all is_numeric (if 1 <? k then "." ++ Str.drop 1 ds else "") = true).
    { destruct (1 <? k); [| reflexivity].
      change ("." ++ ?x) with (String "." x). cbn [Str.all].
      now rewrite (str_all_drop _ _ _ Hds). }
    rewrite H1.
    destruct (decpt - 1 <? 0); destruct (Z.abs (decpt - 1) <? 10); reflexivity.
  - destruct (decpt <=? 0); [| destruct (decpt <? k)].
    + rewrite !str_all_app, Hds, str_all_repeat by reflexivity. reflexivity.
    + rewrite !str_all_app, (str_all_take _ _ _ Hds), (str_all_drop _ _ _ Hds).
      reflexivity.
    + rewrite !str_all_app, Hds, str_all_repeat by reflexivity. reflexivity.
Qed.

Lemma all_numeric_format_float (d : Dec.t) (f_sign : string) :
  Str.all is_numeric (format_float d f_sign) = true.
Proof.
  unfold format_float.
  now rewrite str_all_app, all_numeric_sign_str, all_numeric_repr_abs.
Qed.

Lemma all_numeric_format_num (x : num) (f_sign : string) :
  Str.all is_numeric (format_num x f_sign) = true.
Proof.
  destruct x; [apply all_numeric_format_int | apply all_numeric_format_float].
Qed.

Lemma all_numeric_format_f (x : num) (f_sign : string) (prec : Z) (s : string) :
  format_f x f_sign prec = Ret s -> Str.all is_numeric s = true.
Proof.
  unfold format_f. destruct (prec <? 0); [discriminate |].
  intros H. injection H as <-.
  now rewrite str_all_app, all_numeric_sign_str, all_numeric_fixed_abs.
Qed.

Lemma all_plain_exponent (e : Z) (E : bool) :
  Str.all is_plain (_exponent e "+" E) = true.
Proof.
  unfold _exponent. destruct (e =? 0); [reflexivity |].
  pose proof (all_plain_numeric _ (all_numeric_format_int e "+")) as H.
  destruct E.
  - change ("e" ++ ?x) with (String "e" x). cbn [Str.all]. now rewrite H.
  - rewrite str_all_app, H. reflexivity.
Qed.

(** ** Reading the options of a format spec *)

Lemma digit_val_nonneg (c : ascii) : Str.is_digit c = true -> 0 <= Str.digit_val c < 10.
Proof.
  unfold Str.is_digit, Str.digit_val. intros H.
  apply andb_true_iff in H. destruct H as [H1 H2].
  apply N.leb_le in H1. apply N.leb_le in H2. lia.
Qed.

Lemma digits_val_acc_nonneg (a : Z) (ds : string) :
  0 <= a -> Str.all Str.is_digit ds = true -> 0 <= Str.digits_val_acc a ds.
Proof.
  revert a. induction ds as [|c ds IH]; intros a Ha H; [exact Ha |].
  cbn [Str.all] in H. apply andb_true_iff in H. destruct H as [Hc Hds].
  cbn [Str.digits_val_acc]. apply IH; [| exact Hds].
  pose proof (digit_val_nonneg c Hc). lia.
Qed.

Lemma digits_val_nonneg (ds : string) :
  Str.all Str.is_digit ds = true -> 0 <= Str.digits_val ds.
Proof. apply digits_val_acc_nonneg. lia. Qed.

Lemma all_digit_span (s : string) : Str.all Str.is_digit (fst (Str.span_digits s)) = true.
Proof.
  induction s as [|c s IH]; [reflexivity |]. cbn [Str.span_digits].
  destruct (Str.is_digit c) eqn:Hc; [| reflexivity].
  destruct (Str.span_digits s) as [d r]. cbn [fst Str.all] in *. now rewrite Hc, IH.
Qed.

Lemma py_int_digits (ds : string) :
  ds <> "" -> Str.all Str.is_digit ds = true -> py_int ds = Ret (Str.digits_val ds).
Proof.
  intros Hne Hds. change ds with ("" ++ ds) at 1.
  rewrite py_int_literal; [reflexivity | left; reflexivity | assumption | assumption].
Qed.

(** The value read for an option is never negative. *)
Lemma int_of_match_nonneg (c format_spec : string) (n : Z) :
  int_of_match (re_search_digits c format_spec) = Ret n -> 0 <= n.
Proof.
  unfold int_of_match, re_search_digits.
  destruct (Str.cut c format_spec) as [[a rest]|]; [| intros H; injection H as <-; lia].
  pose proof (all_digit_span rest) as Hd.
  destruct (fst (Str.span_digits rest)) as [|x ds] eqn:E.
  - discriminate.
  - rewrite py_int_digits by (congruence || assumption).
    intros H. injection H as <-. now apply digits_val_nonneg.
Qed.

Lemma spec_option_read (c : ascii) (format_spec : string) (n : Z) :
  spec_option c format_spec n ->
  int_of_match (re_search_digits (String c "") format_spec) = Ret n.
Proof.
  intros (before & digits & rest & -> & Hb & Hne & Hd & Hr & ->).
  unfold re_search_digits.
  change (String c (digits ++ rest)) with (String c "" ++ (digits ++ rest)).
  rewrite str_cut_app by exact Hb.
  rewrite span_digits_app by assumption. cbn [fst int_of_match].
  now apply py_int_digits.
Qed.

Lemma spec_option_absent (c : ascii) (format_spec : string) :
  Str.mem c format_spec = false ->
  int_of_match (re_search_digits (String c "") format_spec) = Ret 0.
Proof. intros H. unfold re_search_digits. now rewrite str_cut_none. Qed.

(** ** Floor, ceiling and truncation *)

Lemma floor_scaled_spec (d : Dec.t) (k : Z) :
  (Dec.mk (Dec.floor_scaled d k) (- k) <= d)%dec /\
  (d < Dec.mk (Dec.floor_scaled d k + 1) (- k))%dec.
Proof.
  unfold Dec.le, Dec.leb, Dec.lt, Dec.ltb, Dec.floor_scaled.
  destruct (Z.leb_spec 0 (Dec.de d + k)) as [Hx|Hx].
  - rewrite (dec_compare_at _ d (- k)), (dec_compare_at d _ (- k))
      by (cbn [Dec.de]; lia).
    cbn [Dec.dm Dec.de]. replace (- k - - k) with 0 by lia.
    replace (Dec.de d - - k) with (Dec.de d + k) by lia.
    rewrite Z.pow_0_r, !Z.mul_1_r, Z.compare_refl.
    split; [reflexivity |].
    destruct (Z.compare_spec (Dec.dm d * 10 ^ (Dec.de d + k))
                (Dec.dm d * 10 ^ (Dec.de d + k) + 1)); try reflexivity; lia.
  - rewrite (dec_compare_at _ d (Dec.de d)), (dec_compare_at d _ (Dec.de d))
      by (cbn [Dec.de]; lia).
    cbn [Dec.dm Dec.de]. replace (Dec.de d - Dec.de d) with 0 by lia.
    replace (- k - Dec.de d) with (- (Dec.de d + k)) by lia.
    rewrite Z.pow_0_r, !Z.mul_1_r.
    pose proof (pow10_pos (- (Dec.de d + k)) ltac:(lia)) as Hp.
    set (p := 10 ^ (- (Dec.de d + k))) in *.
    pose proof (Z.div_mod (Dec.dm d) p ltac:(lia)) as Hdm.
    pose proof (Z.mod_pos_bound (Dec.dm d) p Hp) as Hr.
    split.
    + destruct (Z.compare_spec (Dec.dm d / p * p) (Dec.dm d)); try reflexivity; nia.
    + destruct (Z.compare_spec (Dec.dm d) ((Dec.dm d / p + 1) * p)); try reflexivity; nia.
Qed.

Lemma ceil_scaled_spec (d : Dec.t) (k : Z) :
  (Dec.mk (Dec.ceil_scaled d k - 1) (- k) < d)%dec /\
  (d <= Dec.mk (Dec.ceil_scaled d k) (- k))%dec.
Proof.
  unfold Dec.le, Dec.leb, Dec.lt, Dec.ltb, Dec.ceil_scaled.
  destruct (Z.leb_spec 0 (Dec.de d + k)) as [Hx|Hx].
  - rewrite (dec_compare_at _ d (- k)), (dec_compare_at d _ (- k))
      by (cbn [Dec.de]; lia).
    cbn [Dec.dm Dec.de]. replace (- k - - k) with 0 by lia.
    replace (Dec.de d - - k) with (Dec.de d + k) by lia.
    rewrite Z.pow_0_r, !Z.mul_1_r, Z.compare_refl.
    split; [| reflexivity].
    destruct (Z.compare_spec (Dec.dm d * 10 ^ (Dec.de d + k) - 1)
                (Dec.dm d * 10 ^ (Dec.de d + k))); try reflexivity; lia.
  - rewrite (dec_compare_at _ d (Dec.de d)), (dec_compare_at d _ (Dec.de d))
      by (cbn [Dec.de]; lia).
    cbn [Dec.dm Dec.de]. replace (Dec.de d - Dec.de d) with 0 by lia.
    replace (- k - Dec.de d) with (- (Dec.de d + k)) by lia.
    rewrite Z.pow_0_r, !Z.mul_1_r.
    pose proof (pow10_pos (- (Dec.de d + k)) ltac:(lia)) as Hp.
    set (p := 10 ^ (- (Dec.de d + k))) in *.
    pose proof (Z.div_mod (- Dec.dm d) p ltac:(lia)) as Hdm.
    pose proof (Z.mod_pos_bound (- Dec.dm d) p Hp) as Hr.
    split.
    + destruct (Z.compare_spec ((- (- Dec.dm d / p) - 1) * p) (Dec.dm d));
        try reflexivity; nia.
    + destruct (Z.compare_spec (Dec.dm d) (- (- Dec.dm d / p) * p));
        try reflexivity; nia.
Qed.

(** [int] truncates towards zero, which is the floor of a non-negative number. *)
Lemma trunc_scaled_floor (d : Dec.t) (k : Z) :
  0 <= Dec.dm d -> Dec.trunc_scaled d k = Dec.floor_scaled d k.
Proof.
  intros Hd. unfold Dec.trunc_scaled, Dec.floor_scaled.
  destruct (Z.leb_spec 0 (Dec.de d + k)) as [Hx|Hx]; [reflexivity |].
  apply Z.quot_div_nonneg; [exact Hd |]. apply pow10_pos. lia.
Qed.

(** ** Lines 176-217 *)

Lemma bind_ret_app_nil (r : result string) :
  (stem <- r ;; Ret (stem ++ "")) = r.
Proof. destruct r; cbn [bind]; [now rewrite str_app_nil_r | reflexivity]. Qed.

Lemma dec_scale_0 (d : Dec.t) : Dec.scale d (- 0) = d.
Proof. destruct d. unfold Dec.scale. cbn [Dec.dm Dec.de]. f_equal. lia. Qed.

(** [__format__] as one call of lines 176-217 on [base_of self]. *)
Lemma format_unfold_base (self : Uncertain.t) (format_spec : string) :
  Dec.is_zero (to_dec (Uncertain.mean self)) = false ->
  Dec.is_zero (to_dec (Uncertain.uncertainty self)) = false ->
  Uncertain.__format__ self format_spec =
  stem <- Uncertain.format_base (base_of self) format_spec
                                (Uncertain.f_sign_of format_spec) ;;
  Ret (stem ++ _exponent (exponent_of self) "+" (Str.contains "e" format_spec)).
Proof.
  intros Hm Hu. rewrite format_unfold, Hm, Hu. unfold base_of.
  destruct (Z.leb_spec 1 (Z.abs (exponent_of self))) as [Hx|Hx]; [reflexivity |].
  replace (exponent_of self) with 0 by lia.
  change (_exponent 0 "+" _) with "". now rewrite bind_ret_app_nil.
Qed.

Lemma base_of_mean (self : Uncertain.t) :
  to_dec (Uncertain.mean (base_of self)) = mantissa_of self.
Proof.
  unfold base_of, mantissa_of.
  destruct (Z.leb_spec 1 (Z.abs (exponent_of self))) as [Hx|Hx]; [reflexivity |].
  replace (exponent_of self) with 0 by lia. now rewrite dec_scale_0.
Qed.

Lemma base_of_uncertainty (m u : num) :
  let self := Uncertain.__init__ m u in
  to_dec (Uncertain.uncertainty (base_of self))
  = Dec.scale (Dec.abs (to_dec u)) (- exponent_of self).
Proof.
  intros self. unfold base_of.
  destruct (Z.leb_spec 1 (Z.abs (exponent_of self))) as [Hx|Hx].
  - unfold normalized, Uncertain.__init__. cbn [Uncertain.uncertainty np_abs to_dec].
    unfold self, Uncertain.__init__. cbn [Uncertain.uncertainty].
    rewrite np_abs_to_dec, dec_abs_scale, dec_abs_abs. reflexivity.
  - replace (exponent_of self) with 0 by lia. rewrite dec_scale_0.
    unfold self, Uncertain.__init__. cbn [Uncertain.uncertainty].
    apply np_abs_to_dec.
Qed.

Lemma exponent_of_base (self : Uncertain.t) : exponent_of (base_of self) = 0.
Proof.
  unfold base_of.
  destruct (Z.leb_spec 1 (Z.abs (exponent_of self))) as [Hx|Hx];
    [apply exponent_of_normalized | lia].
Qed.

(** The test of line 186 on [base_of self] is the test on [self]. *)
Lemma base_of_dominant (m u : num) :
  let self := Uncertain.__init__ m u in
  Dec.leb (Dec.abs (to_dec (Uncertain.mean (base_of self))))
          (Dec.abs (to_dec (Uncertain.uncertainty (base_of self))))
  = Dec.leb (Dec.abs (to_dec m)) (Dec.abs (to_dec u)).
Proof.
  intros self. rewrite base_of_mean. unfold self. rewrite base_of_uncertainty.
  unfold mantissa_of. cbn [Uncertain.mean Uncertain.__init__].
  rewrite !dec_abs_scale, dec_abs_abs. apply dec_leb_scale.
Qed.

Lemma format_f_ok (x : num) (f_sign : string) (prec : Z) :
  0 <= prec ->
  format_f x f_sign prec =
  Ret (sign_str (Dec.dm (to_dec x) <? 0) f_sign ++ fixed_abs (to_dec x) prec).
Proof.
  intros H. unfold format_f. destruct (Z.ltb_spec prec 0); [lia | reflexivity].
Qed.

(** Line 186 onwards, when the uncertainty dominates. *)
Lemma format_base_dominant (self : Uncertain.t) (format_spec f_sign : string) (N : Z) :
  int_of_match (re_search_digits "." format_spec) = Ret N ->
  Dec.leb (Dec.abs (to_dec (Uncertain.mean self)))
          (Dec.abs (to_dec (Uncertain.uncertainty self))) = true ->
  Uncertain.format_base self format_spec f_sign =
  Ret ("("
       ++ (if N =? 0 then format_num (Uncertain.mean self) f_sign
           else sign_str (Dec.dm (to_dec (Uncertain.mean self)) <? 0) f_sign
                  ++ fixed_abs (to_dec (Uncertain.mean self)) N)
       ++ " ± "
       ++ (if N =? 0 then format_num (Uncertain.uncertainty self) ""
           else sign_str (Dec.dm (to_dec (Uncertain.uncertainty self)) <? 0) ""
                  ++ fixed_abs (to_dec (Uncertain.uncertainty self)) N)
       ++ ")").
Proof.
  intros HN Hle. pose proof (int_of_match_nonneg _ _ _ HN) as H0.
  unfold Uncertain.format_base. rewrite HN. cbn [bind]. rewrite Hle.
  destruct (Z.eqb_spec N 0) as [->|Hn]; [reflexivity |].
  cbn [negb]. rewrite !format_f_ok by lia. reflexivity.
Qed.

(** Line 196 onwards, when the mean dominates. *)
Lemma format_base_normal (self : Uncertain.t) (format_spec f_sign : string) (N M : Z) :
  int_of_match (re_search_digits "." format_spec) = Ret N ->
  int_of_match (re_search_digits "u" format_spec) = Ret M ->
  Dec.leb (Dec.abs (to_dec (Uncertain.mean self)))
          (Dec.abs (to_dec (Uncertain.uncertainty self))) = false ->
  0 < Dec.dm (to_dec (Uncertain.uncertainty self)) ->
  Uncertain.format_base self format_spec f_sign =
  if negb (N =? 0) && negb (M =? 0) then Raise (ValueError (Uncertain.both_msg N M))
  else
    m <- format_f (Uncertain.mean self) f_sign (digits_of self N M) ;;
    Ret (m ++ "(" ++ format_int (indicator_of self N M) "" ++ ")").
Proof.
  intros HN HM Hle Hu.
  unfold Uncertain.format_base. rewrite HN. cbn [bind]. rewrite Hle.
  unfold int_floor_log10, Dec.is_zero.
  destruct (Z.eqb_spec (Dec.dm (to_dec (Uncertain.uncertainty self))) 0); [lia |].
  destruct (Z.ltb_spec (Dec.dm (to_dec (Uncertain.uncertainty self))) 0); [lia |].
  cbn [bind]. rewrite HM. cbn [bind].
  unfold digits_of, indicator_of, digits_of.
  destruct (N =? 0), (M =? 0); reflexivity.
Qed.

Lemma base_of_uncertainty_pos (m u : num) :
  Dec.is_zero (to_dec u) = false ->
  0 < Dec.dm (to_dec (Uncertain.uncertainty (base_of (Uncertain.__init__ m u)))).
Proof.
  intros Hu. rewrite base_of_uncertainty. unfold Dec.scale, Dec.abs. cbn [Dec.dm].
  unfold Dec.is_zero in Hu. apply Z.eqb_neq in Hu. lia.
Qed.

Lemma init_uncertainty_is_zero (m u : num) :
  Dec.is_zero (to_dec (Uncertain.uncertainty (Uncertain.__init__ m u)))
  = Dec.is_zero (to_dec u).
Proof.
  unfold Uncertain.__init__. cbn [Uncertain.uncertainty]. rewrite np_abs_to_dec.
  unfold Dec.is_zero, Dec.abs. cbn [Dec.dm].
  destruct (Z.eqb_spec (Dec.dm (to_dec u)) 0), (Z.eqb_spec (Z.abs (Dec.dm (to_dec u))) 0);
    try reflexivity; lia.
Qed.

(** The suffix of a non-zero exponent. *)
Lemma exponent_suffix (e : Z) (E : bool) :
  e <> 0 ->
  _exponent e "+" E =
  (if E then "e" else " × 10^") ++ (if 0 <? e then "+" else "-") ++ Str.of_nat (Z.abs e).
Proof.
  intros He. unfold _exponent, format_int, sign_str.
  destruct (Z.eqb_spec e 0) as [|_]; [contradiction |].
  destruct (Z.ltb_spec e 0), (Z.ltb_spec 0 e); try lia; destruct E; reflexivity.
Qed.

(** ** The exponent of the uncertainty *)

Lemma ndigits_mul_pow (n j : Z) :
  0 < n -> 0 <= j -> Dec.ndigits (n * 10 ^ j) = Dec.ndigits n + j.
Proof.
  intros Hn Hj. pose proof (ndigits_spec n Hn) as [Hlo Hhi].
  pose proof (ndigits_pos n) as Hk.
  pose proof (pow10_pos j Hj) as Hp.
  apply ndigits_unique; [| lia].
  replace (Dec.ndigits n + j - 1) with ((Dec.ndigits n - 1) + j) by lia.
  rewrite !Z.pow_add_r by lia. nia.
Qed.

Lemma ndigits_mono (a b : Z) : 0 < a -> a <= b -> Dec.ndigits a <= Dec.ndigits b.
Proof.
  intros Ha Hab.
  pose proof (ndigits_spec a Ha) as [Hlo _].
  pose proof (ndigits_spec b ltac:(lia)) as [_ Hhi].
  destruct (Z.le_gt_cases (Dec.ndigits a) (Dec.ndigits b)) as [H|H]; [exact H |].
  exfalso.
  assert (10 ^ Dec.ndigits b <= 10 ^ (Dec.ndigits a - 1))
    by (apply Z.pow_le_mono_r; lia).
  lia.
Qed.

Lemma floor_log10_le (a b : Dec.t) :
  0 < Dec.dm a -> (a <= b)%dec -> Dec.floor_log10 a <= Dec.floor_log10 b.
Proof.
  intros Ha Hab. unfold Dec.le, Dec.leb in Hab.
  set (c := Z.min (Dec.de a) (Dec.de b)).
  rewrite (dec_compare_at a b c) in Hab by (unfold c; lia).
  pose proof (pow10_pos (Dec.de a - c) ltac:(unfold c; lia)) as Hpa.
  pose proof (pow10_pos (Dec.de b - c) ltac:(unfold c; lia)) as Hpb.
  assert (HAB : Dec.dm a * 10 ^ (Dec.de a - c) <= Dec.dm b * 10 ^ (Dec.de b - c)).
  { destruct (Z.compare_spec (Dec.dm a * 10 ^ (Dec.de a - c))
                (Dec.dm b * 10 ^ (Dec.de b - c)));
      first [lia | discriminate Hab]. }
  assert (HA : 0 < Dec.dm a * 10 ^ (Dec.de a - c)) by nia.
  assert (Hb : 0 < Dec.dm b) by nia.
  pose proof (ndigits_mono _ _ HA HAB) as Hm.
  rewrite !ndigits_mul_pow in Hm by (try assumption; unfold c; lia).
  unfold Dec.floor_log10. lia.
Qed.

Lemma dec_lt_le (a b : Dec.t) : (a < b)%dec -> (a <= b)%dec.
Proof.
  unfold Dec.lt, Dec.ltb, Dec.le, Dec.leb.
  destruct (Dec.compare a b); congruence.
Qed.

(** In the parenthetical-digits case the number of decimals is not negative. *)
Lemma base_floor_log10_uncertainty (m u : num) :
  Dec.is_zero (to_dec u) = false ->
  (Dec.abs (to_dec u) < Dec.abs (to_dec m))%dec ->
  Dec.floor_log10 (to_dec (Uncertain.uncertainty (base_of (Uncertain.__init__ m u)))) <= 0.
Proof.
  intros Hu Hlt.
  pose proof (exponent_of_base (Uncertain.__init__ m u)) as He.
  unfold exponent_of in He.
  assert (H : Dec.floor_log10
                (to_dec (Uncertain.uncertainty (base_of (Uncertain.__init__ m u))))
              <= Dec.floor_log10
                   (Dec.abs (to_dec (Uncertain.mean (base_of (Uncertain.__init__ m u)))))).
  { apply floor_log10_le; [now apply base_of_uncertainty_pos |].
    apply dec_lt_le. rewrite base_of_mean. pose proof (base_of_uncertainty m u) as Hbu.
    cbv zeta in Hbu. rewrite Hbu. unfold mantissa_of.
    cbn [Uncertain.mean Uncertain.__init__]. rewrite dec_abs_scale.
    unfold Dec.lt. now rewrite dec_ltb_scale. }
  lia.
Qed.

Lemma digits_of_nonneg (m u : num) (N M : Z) :
  Dec.is_zero (to_dec u) = false ->
  (Dec.abs (to_dec u) < Dec.abs (to_dec m))%dec ->
  0 <= N -> 0 <= M ->
  0 <= digits_of (base_of (Uncertain.__init__ m u)) N M.
Proof.
  intros Hu Hlt HN HM. pose proof (base_floor_log10_uncertainty m u Hu Hlt).
  unfold digits_of. destruct (Z.eqb_spec N 0); [| lia].
  destruct (Z.eqb_spec M 0); lia.
Qed.

Lemma ceil_scaled_nonneg (d : Dec.t) (k : Z) : 0 <= Dec.dm d -> 0 <= Dec.ceil_scaled d k.
Proof.
  intros Hd. unfold Dec.ceil_scaled.
  destruct (Z.leb_spec 0 (Dec.de d + k)) as [Hx|Hx].
  - pose proof (pow10_pos _ Hx). nia.
  - pose proof (pow10_pos (- (Dec.de d + k)) ltac:(lia)) as Hp.
    set (p := 10 ^ (- (Dec.de d + k))) in *.
    pose proof (Z.div_mod (- Dec.dm d) p ltac:(lia)).
    pose proof (Z.mod_pos_bound (- Dec.dm d) p Hp). nia.
Qed.

Lemma trunc_scaled_nonneg (d : Dec.t) (k : Z) : 0 <= Dec.dm d -> 0 <= Dec.trunc_scaled d k.
Proof.
  intros Hd. rewrite trunc_scaled_floor by exact Hd. unfold Dec.floor_scaled.
  destruct (Z.leb_spec 0 (Dec.de d + k)) as [Hx|Hx].
  - pose proof (pow10_pos _ Hx). nia.
  - apply Z.div_pos; [exact Hd | apply pow10_pos; lia].
Qed.

Lemma indicator_of_nonneg (self : Uncertain.t) (N M : Z) :
  0 <= Dec.dm (to_dec (Uncertain.uncertainty self)) -> 0 <= indicator_of self N M.
Proof.
  intros H. unfold indicator_of.
  destruct (N =? 0); [now apply ceil_scaled_nonneg | now apply trunc_scaled_nonneg].
Qed.

Lemma format_int_nonneg (z : Z) : 0 <= z -> format_int z "" = Str.of_nat z.
Proof.
  intros H. unfold format_int, sign_str.
  destruct (Z.ltb_spec z 0); [lia |]. cbn [String.eqb append].
  now rewrite Z.abs_eq.
Qed.

(** ** Reading back what [format] prints *)

Lemma float_exponent_literal (sg ds : string) :
  sg = "+" \/ sg = "-" -> ds <> "" -> Str.all Str.is_digit ds = true ->
  float_exponent ("e" ++ sg ++ ds)
  = Some (apply_sign (sg =? "-")%string (Str.digits_val ds)).
Proof.
  intros Hsg Hne Hds.
  change ("e" ++ sg ++ ds) with (String "e" (sg ++ ds)).
  cbn [float_exponent]. change (Ascii.eqb "e" "e") with true. cbn [orb].
  rewrite <- (str_app_nil_r ds) at 1.
  rewrite split_sign_digits by (try assumption; unfold is_sign; tauto).
  rewrite str_app_nil_r. destruct ds as [|c ds]; [congruence |]. now rewrite Hds.
Qed.

Lemma float_tail_exponent (ex : string) (exv : Z) :
  float_tail ex exv -> float_exponent ex = Some exv.
Proof.
  intros [[-> ->] | (sg & ds & Hsg & Hne & Hds & -> & ->)]; [reflexivity |].
  now apply float_exponent_literal.
Qed.

Lemma float_tail_no_digit_head (ex : string) (exv : Z) :
  float_tail ex exv -> no_digit_head ex = true.
Proof. intros [[-> ->] | (sg & ds & _ & _ & _ & -> & _)]; reflexivity. Qed.

Lemma float_tail_nospace (ex : string) (exv : Z) :
  float_tail ex exv -> Str.all nospace ex = true.
Proof.
  intros [[-> ->] | (sg & ds & Hsg & Hne & Hds & -> & _)]; [reflexivity |].
  change ("e" ++ sg ++ ds) with (String "e" (sg ++ ds)). cbn [Str.all].
  rewrite str_all_app, (all_nospace_digits ds Hds).
  destruct Hsg as [-> | ->]; reflexivity.
Qed.

Lemma float_tail_no_dot (ex : string) (exv : Z) (r : string) :
  float_tail ex exv -> ex <> String "." r.
Proof. intros [[-> ->] | (sg & ds & _ & _ & _ & -> & _)]; discriminate. Qed.

Lemma py_float_frac_gen (sg ip fp ex : string) (exv : Z) :
  is_sign sg -> ip <> "" ->
  Str.all Str.is_digit ip = true -> Str.all Str.is_digit fp = true ->
  float_tail ex exv ->
  py_float (sg ++ ip ++ "." ++ fp ++ ex) =
  Ret (Dec.mk (apply_sign (sg =? "-")%string (Str.digits_val (ip ++ fp)))
              (exv - Z.of_nat (String.length fp))).
Proof.
  intros Hsg Hne Hip Hfp Hex. unfold py_float.
  rewrite strip_nospace.
  2:{ rewrite !str_all_app, all_nospace_sign by assumption.
      rewrite (all_nospace_digits ip), (all_nospace_digits fp) by assumption.
      rewrite (float_tail_nospace _ _ Hex). reflexivity. }
  rewrite split_sign_digits by assumption.
  rewrite span_digits_app by (auto).
  change ("." ++ fp ++ ex) with (String "." (fp ++ ex)). cbv iota beta.
  rewrite span_digits_app by (eauto using float_tail_no_digit_head).
  rewrite (float_tail_exponent _ _ Hex).
  destruct (ip ++ fp) eqn:E.
  - destruct ip; [congruence | discriminate E].
  - reflexivity.
Qed.

Lemma py_float_int_gen (sg ip ex : string) (exv : Z) :
  is_sign sg -> ip <> "" -> Str.all Str.is_digit ip = true ->
  float_tail ex exv ->
  py_float (sg ++ ip ++ ex) =
  Ret (Dec.mk (apply_sign (sg =? "-")%string (Str.digits_val ip)) exv).
Proof.
  intros Hsg Hne Hip Hex. unfold py_float.
  rewrite strip_nospace.
  2:{ rewrite !str_all_app, all_nospace_sign by assumption.
      rewrite (all_nospace_digits ip) by assumption.
      rewrite (float_tail_nospace _ _ Hex). reflexivity. }
  rewrite split_sign_digits by assumption.
  rewrite span_digits_app by (eauto using float_tail_no_digit_head).
  assert (Hs : (let '(fp, s3) :=
                  match ex with
                  | String "." r => Str.span_digits r
                  | _ => ("", ex)
                  end in
                match ip ++ fp with
                | "" => Raise (ValueError "could not convert string to float")
                | ds =>
                    match float_exponent s3 with
                    | None => Raise (ValueError "could not convert string to float")
                    | Some ex0 =>
                        Ret (Dec.mk (apply_sign (sg =? "-")%string (Str.digits_val ds))
                                    (ex0 - Z.of_nat (String.length fp)))
                    end
                end)
               = Ret (Dec.mk (apply_sign (sg =? "-")%string (Str.digits_val ip)) exv)).
  { destruct Hex as [[-> ->] | (sg' & ds & Hsg' & Hne' & Hds & -> & ->)].
    - rewrite str_app_nil_r. destruct ip; [congruence | reflexivity].
    - change ("e" ++ sg' ++ ds) with (String "e" (sg' ++ ds)). cbv iota beta.
      rewrite str_app_nil_r.
      change (String "e" (sg' ++ ds)) with ("e" ++ sg' ++ ds).
      rewrite float_exponent_literal by assumption.
      destruct ip; [congruence |]. cbn [String.length Z.of_nat].
      rewrite Z.sub_0_r. reflexivity. }
  exact Hs.
Qed.

Lemma py_float_with_spaces (s : string) :
  Str.all nospace s = true ->
  py_float (s ++ " ") = py_float s /\ py_float (" " ++ s) = py_float s.
Proof.
  intros H. unfold py_float.
  now rewrite strip_app_space, strip_space_app, strip_nospace.
Qed.

(** ** Rounding to a number of decimals *)

Lemma round_scaled_cases (d : Dec.t) (k : Z) :
  Dec.de d + k < 0 ->
  let p := 10 ^ (- (Dec.de d + k)) in
  let q := Dec.round_scaled d k in
  (q = Dec.dm d / p /\ 2 * (Dec.dm d mod p) <= p) \/
  (q = Dec.dm d / p + 1 /\ p <= 2 * (Dec.dm d mod p)).
Proof.
  intros Hx p q. unfold q, Dec.round_scaled.
  destruct (Z.leb_spec 0 (Dec.de d + k)); [lia |]. fold p.
  destruct (Z.compare_spec (2 * (Dec.dm d mod p)) p).
  - destruct (Z.even (Dec.dm d / p)); [left | right]; lia.
  - left. lia.
  - right. lia.
Qed.

(** The rounded value has the sign of the number, or is 0. *)
Lemma round_scaled_sign (d : Dec.t) (k : Z) :
  apply_sign (Dec.dm d <? 0) (Z.abs (Dec.round_scaled d k)) = Dec.round_scaled d k.
Proof.
  assert (H : (Dec.dm d < 0 -> Dec.round_scaled d k <= 0) /\
              (0 <= Dec.dm d -> 0 <= Dec.round_scaled d k)).
  { destruct (Z.le_gt_cases 0 (Dec.de d + k)) as [Hx|Hx].
    - unfold Dec.round_scaled. destruct (Z.leb_spec 0 (Dec.de d + k)); [| lia].
      pose proof (pow10_pos _ Hx). split; nia.
    - pose proof (round_scaled_cases d k Hx) as Hc. cbv zeta in Hc.
      pose proof (pow10_pos (- (Dec.de d + k)) ltac:(lia)) as Hp.
      set (p := 10 ^ (- (Dec.de d + k))) in *.
      pose proof (Z.div_mod (Dec.dm d) p ltac:(lia)) as Hdm.
      pose proof (Z.mod_pos_bound (Dec.dm d) p Hp) as Hr.
      split; intros Hs; destruct Hc as [[-> Hc] | [-> Hc]]; nia. }
  unfold apply_sign. destruct (Z.ltb_spec (Dec.dm d) 0); lia.
Qed.

(** A number with exponent 0 rounds into [[10 ^ k, 10 ^ (k + 1)]]. *)
Lemma round_scaled_range (d : Dec.t) (k : Z) :
  0 <= k -> Dec.dm d <> 0 -> Dec.floor_log10 (Dec.abs d) = 0 ->
  10 ^ k <= Z.abs (Dec.round_scaled d k) <= 10 ^ (k + 1).
Proof.
  intros Hk Hd Hfl. unfold Dec.floor_log10, Dec.abs in Hfl. cbn [Dec.dm Dec.de] in Hfl.
  pose proof (ndigits_spec (Z.abs (Dec.dm d)) ltac:(lia)) as [Hlo Hhi].
  pose proof (ndigits_pos (Z.abs (Dec.dm d))) as Hn.
  set (nd := Dec.ndigits (Z.abs (Dec.dm d))) in *.
  pose proof (pow10_pos k Hk) as HA.
  rewrite (Z.pow_add_r 10 k 1) by lia. change (10 ^ 1) with 10.
  destruct (Z.le_gt_cases 0 (Dec.de d + k)) as [Hx|Hx].
  - unfold Dec.round_scaled. destruct (Z.leb_spec 0 (Dec.de d + k)); [| lia].
    rewrite Z.abs_mul, (Z.abs_eq (10 ^ _)) by (apply Z.lt_le_incl, pow10_pos; lia).
    pose proof (pow10_pos _ Hx) as Hp.
    assert (E1 : 10 ^ k = 10 ^ (nd - 1) * 10 ^ (Dec.de d + k))
      by (rewrite <- Z.pow_add_r by lia; f_equal; lia).
    assert (E2 : 10 ^ k * 10 = 10 ^ nd * 10 ^ (Dec.de d + k)).
    { rewrite <- Z.pow_add_r by lia.
      replace (nd + (Dec.de d + k)) with (k + 1) by lia.
      rewrite Z.pow_add_r by lia. reflexivity. }
    nia.
  - pose proof (round_scaled_cases d k Hx) as Hc. cbv zeta in Hc.
    pose proof (pow10_pos (- (Dec.de d + k)) ltac:(lia)) as Hp.
    set (p := 10 ^ (- (Dec.de d + k))) in *.
    assert (E1 : 10 ^ (nd - 1) = 10 ^ k * p).
    { unfold p. rewrite <- Z.pow_add_r by lia. f_equal. lia. }
    assert (E2 : 10 ^ nd = 10 ^ k * 10 * p).
    { replace nd with ((nd - 1) + 1) at 1 by lia.
      rewrite Z.pow_add_r by lia. rewrite E1. change (10 ^ 1) with 10. ring. }
    rewrite E1 in Hlo. rewrite E2 in Hhi.
    pose proof (Z.div_mod (Dec.dm d) p ltac:(lia)) as Hdm.
    pose proof (Z.mod_pos_bound (Dec.dm d) p Hp) as Hr.
    set (A := 10 ^ k) in *. set (qf := Dec.dm d / p) in *.
    set (r := Dec.dm d mod p) in *.
    destruct (Z.le_gt_cases 0 (Dec.dm d)) as [Hs|Hs].
    + rewrite Z.abs_eq in Hlo, Hhi by lia.
      assert (A <= qf) by nia. assert (qf < A * 10) by nia.
      destruct Hc as [[-> Hc] | [-> Hc]]; lia.
    + rewrite Z.abs_neq in Hlo, Hhi by lia.
      assert (qf <= - A) by nia. assert (- (A * 10) <= qf) by nia.
      destruct Hc as [[-> Hc] | [-> Hc]]; [lia |].
      assert (qf < - A) by nia. lia.
Qed.

(** The rounded value is within half a unit of the last decimal. *)
Lemma round_scaled_error (d : Dec.t) (k : Z) :
  Dec.de d + k < 0 ->
  2 * Z.abs (Dec.round_scaled d k * 10 ^ (- (Dec.de d + k)) - Dec.dm d)
  <= 10 ^ (- (Dec.de d + k)).
Proof.
  intros Hx. pose proof (round_scaled_cases d k Hx) as Hc. cbv zeta in Hc.
  pose proof (pow10_pos (- (Dec.de d + k)) ltac:(lia)) as Hp.
  set (p := 10 ^ (- (Dec.de d + k))) in *.
  pose proof (Z.div_mod (Dec.dm d) p ltac:(lia)) as Hdm.
  pose proof (Z.mod_pos_bound (Dec.dm d) p Hp) as Hr.
  destruct Hc as [[-> Hc] | [-> Hc]]; lia.
Qed.

Lemma sign_str_is_minus (neg : bool) (f_sign : string) :
  (sign_str neg f_sign =? "-")%string = neg.
Proof.
  unfold sign_str. destruct neg; [reflexivity |].
  destruct (f_sign =? "+")%string; reflexivity.
Qed.

(** [float] reads back the rounded value that ['.{prec}f'] prints. *)
Lemma py_float_fixed (d : Dec.t) (f_sign : string) (prec : Z) :
  0 <= prec ->
  py_float (sign_str (Dec.dm d <? 0) f_sign ++ fixed_abs d prec)
  = Ret (Dec.mk (Dec.round_scaled d prec) (- prec)).
Proof.
  intros Hp. unfold fixed_abs.
  set (a := Z.abs (Dec.round_scaled d prec)).
  pose proof (pow10_pos prec Hp) as Hpow.
  destruct (Z.eqb_spec prec 0) as [->|Hne].
  - rewrite str_app_nil_r.
    rewrite <- (str_app_nil_r (Str.of_nat _)).
    rewrite (py_float_int_gen _ _ "" 0)
      by (first [apply sign_str_is_sign | apply of_nat_nonempty
                | apply all_digit_of_nat | left; split; reflexivity]).
    rewrite sign_str_is_minus, digits_val_of_nat
      by (apply Z.div_pos; [unfold a; lia | lia]).
    change (10 ^ 0) with 1. rewrite Z.div_1_r. unfold a.
    now rewrite round_scaled_sign.
  - rewrite <- (str_app_nil_r (Str.of_nat_width _ _ _)).
    rewrite (py_float_frac_gen _ _ _ "" 0)
      by (first [apply sign_str_is_sign | apply of_nat_nonempty
                | apply all_digit_of_nat | apply all_digit_of_nat_width
                | left; split; reflexivity]).
    rewrite sign_str_is_minus, digits_val_app, length_of_nat_width.
    rewrite Z2Nat.id by exact Hp.
    rewrite digits_val_of_nat by (apply Z.div_pos; [unfold a; lia | lia]).
    rewrite digits_val_of_nat_width
      by (rewrite Z2Nat.id by exact Hp; apply Z.mod_pos_bound; lia).
    replace (a / 10 ^ prec * 10 ^ prec + a mod 10 ^ prec) with a
      by (pose proof (Z.div_mod a (10 ^ prec) ltac:(lia)); lia).
    unfold a. rewrite round_scaled_sign. f_equal.
Qed.

(** ** [repr] and back *)

Lemma strip_zeros_fuel_spec (f : nat) (m e : Z) :
  0 < m ->
  0 < fst (Dec.strip_zeros_fuel f m e) /\
  e <= snd (Dec.strip_zeros_fuel f m e) /\
  m = fst (Dec.strip_zeros_fuel f m e) * 10 ^ (snd (Dec.strip_zeros_fuel f m e) - e).
Proof.
  revert m e. induction f as [|f IH]; intros m e Hm.
  - cbn [Dec.strip_zeros_fuel fst snd]. rewrite Z.sub_diag. cbn. lia.
  - cbn [Dec.strip_zeros_fuel].
    destruct (Z.eqb_spec (m mod 10) 0) as [H0|H0];
      [| cbn [andb fst snd]; rewrite Z.sub_diag; cbn; lia].
    destruct (Z.eqb_spec m 0) as [Hz|Hz]; [lia |]. cbn [andb negb].
    pose proof (Z.div_mod m 10 ltac:(lia)) as Hdm.
    destruct (IH (m / 10) (e + 1) ltac:(lia)) as (H1 & H2 & H3).
    split; [exact H1 |]. split; [lia |].
    set (m' := fst (Dec.strip_zeros_fuel f (m / 10) (e + 1))) in *.
    set (e' := snd (Dec.strip_zeros_fuel f (m / 10) (e + 1))) in *.
    replace (e' - e) with ((e' - (e + 1)) + 1) by lia.
    rewrite Z.pow_add_r by lia. change (10 ^ 1) with 10. lia.
Qed.

Lemma strip_zeros_spec (d : Dec.t) :
  0 < Dec.dm d ->
  0 < Dec.dm (Dec.strip_zeros d) /\
  Dec.de d <= Dec.de (Dec.strip_zeros d) /\
  Dec.dm d = Dec.dm (Dec.strip_zeros d) * 10 ^ (Dec.de (Dec.strip_zeros d) - Dec.de d).
Proof.
  intros Hd. unfold Dec.strip_zeros.
  pose proof (strip_zeros_fuel_spec
                (Z.to_nat (Z.log2 (Z.abs (Dec.dm d)))) (Dec.dm d) (Dec.de d) Hd) as H.
  destruct (Dec.strip_zeros_fuel _ _ _) as [m e]. exact H.
Qed.

Lemma digits_val_zeros (n : nat) (s : string) :
  Str.digits_val (Str.repeat "0" n ++ s) = Str.digits_val s.
Proof.
  rewrite digits_val_app.
  assert (H : Str.digits_val (Str.repeat "0" n) = 0).
  { induction n as [|n IH]; [reflexivity |].
    change (Str.repeat "0" (S n)) with ("0" ++ Str.repeat "0" n).
    rewrite digits_val_app, IH. reflexivity. }
  rewrite H. lia.
Qed.

Lemma digits_val_app_zeros (s : string) (n : nat) :
  Str.digits_val (s ++ Str.repeat "0" n) = Str.digits_val s * 10 ^ Z.of_nat n.
Proof.
  rewrite digits_val_app, str_length_repeat.
  rewrite <- (str_app_nil_r (Str.repeat "0" n)), digits_val_zeros.
  change (Str.digits_val "") with 0. lia.
Qed.

Lemma str_length_drop (n : nat) (s : string) :
  String.length (Str.drop n s) = (String.length s - n)%nat.
Proof.
  revert s. induction n as [|n IH]; intros [|c s]; cbn [Str.drop String.length];
    try lia. apply IH.
Qed.

Lemma str_take_nonempty (n : nat) (s : string) :
  (0 < n)%nat -> s <> "" -> Str.take n s <> "".
Proof. destruct n; [lia |]. destruct s; [congruence | discriminate]. Qed.

Lemma apply_sign_abs (z : Z) : apply_sign (z <? 0) (Z.abs z) = z.
Proof. unfold apply_sign. destruct (Z.ltb_spec z 0); lia. Qed.

(** The exponent part that [repr] prints reads back as the exponent. *)
Lemma repr_exponent_tail (x : Z) :
  float_tail ("e" ++ (if x <? 0 then "-" else "+")
                  ++ (if Z.abs x <? 10 then "0" else "") ++ Str.of_nat (Z.abs x)) x.
Proof.
  right. exists (if x <? 0 then "-" else "+"),
    ((if Z.abs x <? 10 then "0" else "") ++ Str.of_nat (Z.abs x)).
  split; [destruct (x <? 0); tauto |]. split.
  { destruct (Z.abs x <? 10); [discriminate |]. apply of_nat_nonempty. }
  split.
  { rewrite str_all_app, all_digit_of_nat. now destruct (Z.abs x <? 10). }
  split; [reflexivity |].
  assert (Hv : Str.digits_val ((if Z.abs x <? 10 then "0" else "") ++ Str.of_nat (Z.abs x))
               = Z.abs x).
  { destruct (Z.abs x <? 10).
    - change "0" with (Str.repeat "0" 1). rewrite digits_val_zeros.
      apply digits_val_of_nat. lia.
    - apply digits_val_of_nat. lia. }
  rewrite Hv. unfold apply_sign. destruct (Z.ltb_spec x 0); cbn; lia.
Qed.

(** [float] reads back the digits of [repr] with their exponent; the value is
    that of the number printed. *)
Lemma py_float_repr (d : Dec.t) (sg : string) :
  is_sign sg -> Dec.dm d <> 0 ->
  exists v : Dec.t,
    py_float (sg ++ repr_abs d) = Ret v /\
    (v == Dec.mk (apply_sign (sg =? "-")%string (Z.abs (Dec.dm d))) (Dec.de d))%dec.
Proof.
  intros Hsg Hd. unfold repr_abs.
  unfold Dec.is_zero. destruct (Z.eqb_spec (Dec.dm d) 0) as [|_]; [contradiction |].
  pose proof (strip_zeros_spec (Dec.abs d) ltac:(unfold Dec.abs; cbn [Dec.dm]; lia))
    as (Hm' & He' & Hval).
  set (n := Dec.strip_zeros (Dec.abs d)) in *.
  set (m' := Dec.dm n) in *. set (e' := Dec.de n) in *.
  change (Dec.dm (Dec.abs d)) with (Z.abs (Dec.dm d)) in Hval.
  change (Dec.de (Dec.abs d)) with (Dec.de d) in He', Hval.
  set (ds := Str.of_nat m').
  assert (Hds : Str.all Str.is_digit ds = true) by apply all_digit_of_nat.
  assert (Hne : ds <> "") by apply of_nat_nonempty.
  assert (Hdv : Str.digits_val ds = m') by (apply digits_val_of_nat; lia).
  pose proof (length_of_nat m') as Hlen. fold ds in Hlen.
  pose proof (ndigits_pos m') as Hk.
  set (k := Z.of_nat (String.length ds)) in *.
  set (neg := (sg =? "-")%string).
  (* the value every layout reads back *)
  assert (Htarget : (Dec.mk (apply_sign neg m') e'
                     == Dec.mk (apply_sign neg (Z.abs (Dec.dm d))) (Dec.de d))%dec).
  { apply (dec_eq_intro _ _ (Dec.de d)); cbn [Dec.dm Dec.de]; try lia.
    rewrite Z.sub_diag, Z.pow_0_r, Z.mul_1_r, Hval.
    unfold apply_sign. destruct neg; lia. }
  assert (Hk1 : (1 <= String.length ds)%nat) by lia.
  destruct ((k + e' <=? -4) || (16 <? k + e')).
  { (* exponent notation *)
    pose proof (repr_exponent_tail (k + e' - 1)) as Htail.
    destruct (Z.ltb_spec 1 k) as [Hk2|Hk2].
    - exists (Dec.mk (apply_sign neg m') e'). split; [| exact Htarget].
      replace (sg ++ Str.take 1 ds ++ ("." ++ Str.drop 1 ds) ++ _)
        with (sg ++ Str.take 1 ds ++ "." ++ Str.drop 1 ds
                 ++ ("e" ++ (if k + e' - 1 <? 0 then "-" else "+")
                         ++ (if Z.abs (k + e' - 1) <? 10 then "0" else "")
                         ++ Str.of_nat (Z.abs (k + e' - 1))))
        by (str_norm; reflexivity).
      rewrite (py_float_frac_gen _ _ _ _ _ Hsg) by
        (first [apply str_take_nonempty; [lia | assumption]
               | now apply str_all_take | now apply str_all_drop | exact Htail]).
      rewrite str_take_drop, Hdv, str_length_drop. fold neg.
      f_equal. f_equal. lia.
    - exists (Dec.mk (apply_sign neg m') e'). split; [| exact Htarget].
      assert (Hds1 : Str.take 1 ds = ds).
      { destruct ds as [|c [|c' r]]; [congruence | reflexivity |].
        cbn [String.length] in k. lia. }
      rewrite Hds1.
      replace (sg ++ ds ++ "" ++ _)
        with (sg ++ ds
                 ++ ("e" ++ (if k + e' - 1 <? 0 then "-" else "+")
                         ++ (if Z.abs (k + e' - 1) <? 10 then "0" else "")
                         ++ Str.of_nat (Z.abs (k + e' - 1))))
        by (str_norm; reflexivity).
      rewrite (py_float_int_gen _ _ _ _ Hsg Hne Hds Htail), Hdv. fold neg.
      f_equal. f_equal. lia. }
  destruct (Z.leb_spec (k + e') 0) as [Hd0|Hd0].
  { (* 0.000ddd *)
    exists (Dec.mk (apply_sign neg m') e'). split; [| exact Htarget].
    replace (sg ++ "0." ++ Str.repeat "0" (Z.to_nat (- (k + e'))) ++ ds)
      with (sg ++ "0" ++ "." ++ (Str.repeat "0" (Z.to_nat (- (k + e'))) ++ ds) ++ "")
      by (str_norm; now rewrite str_app_nil_r).
    rewrite (py_float_frac_gen _ _ _ "" 0 Hsg)
      by (first [discriminate | reflexivity | left; split; reflexivity
                | rewrite str_all_app, Hds, str_all_repeat by reflexivity; reflexivity]).
    change ("0" ++ ?x) with (Str.repeat "0" 1 ++ x).
    rewrite digits_val_zeros, digits_val_zeros, Hdv, str_length_app, str_length_repeat.
    fold neg. f_equal. f_equal. lia. }
  destruct (Z.ltb_spec (k + e') k) as [Hd1|Hd1].
  { (* ddd.ddd *)
    exists (Dec.mk (apply_sign neg m') e'). split; [| exact Htarget].
    replace (sg ++ Str.take (Z.to_nat (k + e')) ds ++ "." ++ Str.drop (Z.to_nat (k + e')) ds)
      with (sg ++ Str.take (Z.to_nat (k + e')) ds ++ "."
               ++ Str.drop (Z.to_nat (k + e')) ds ++ "")
      by (now rewrite str_app_nil_r).
    rewrite (py_float_frac_gen _ _ _ "" 0 Hsg) by
      (first [apply str_take_nonempty; [lia | assumption]
             | now apply str_all_take | now apply str_all_drop
             | left; split; reflexivity]).
    rewrite str_take_drop, Hdv, str_length_drop. fold neg.
    f_equal. f_equal. lia. }
  (* ddd000.0 *)
  exists (Dec.mk (apply_sign neg (m' * 10 ^ (e' + 1))) (- 1)). split.
  - replace (sg ++ ds ++ Str.repeat "0" (Z.to_nat (k + e' - k)) ++ ".0")
      with (sg ++ (ds ++ Str.repeat "0" (Z.to_nat (k + e' - k))) ++ "." ++ "0" ++ "")
      by (str_norm; reflexivity).
    rewrite (py_float_frac_gen _ _ _ "" 0 Hsg)
      by (first [ intros E; destruct ds; [congruence | discriminate E]
                | reflexivity | left; split; reflexivity
                | rewrite str_all_app, Hds, str_all_repeat by reflexivity; reflexivity]).
    change ((ds ++ Str.repeat "0" (Z.to_nat (k + e' - k))) ++ "0")
      with ((ds ++ Str.repeat "0" (Z.to_nat (k + e' - k))) ++ Str.repeat "0" 1).
    rewrite digits_val_app_zeros, digits_val_app_zeros, Hdv. fold neg.
    rewrite Z2Nat.id by lia. change (Z.of_nat 1) with 1.
    rewrite <- Z.mul_assoc, <- Z.pow_add_r by lia.
    replace (k + e' - k + 1) with (e' + 1) by lia. reflexivity.
  - eapply dec_eq_trans; [| exact Htarget].
    apply (dec_eq_intro _ _ (- 1)); cbn [Dec.dm Dec.de]; try lia.
    replace (-1 - -1) with 0 by lia.
    replace (e' - -1) with (e' + 1) by lia.
    rewrite Z.pow_0_r, Z.mul_1_r. unfold apply_sign. destruct neg; lia.
Qed.

(** ** The mantissa as displayed *)

Lemma span_mantissa_app (a r : string) :
  Str.all is_mantissa_char a = true -> no_mantissa_head r = true ->
  Str.span is_mantissa_char (a ++ r) = (a, r).
Proof.
  intros Ha Hr. induction a as [|c a IH].
  - destruct r as [|c r]; [reflexivity |]. simpl in *.
    apply negb_true_iff in Hr. now rewrite Hr.
  - cbn [Str.all] in Ha. apply andb_true_iff in Ha. destruct Ha as [Hc Ha].
    cbn [append Str.span]. now rewrite Hc, (IH Ha).
Qed.

Lemma displayed_mantissa_plain (a r : string) :
  Str.all is_mantissa_char a = true -> a <> "" -> no_mantissa_head r = true ->
  displayed_mantissa (a ++ r) = py_float a.
Proof.
  intros Ha Hne Hr. unfold displayed_mantissa.
  assert (Hb : match a ++ r with String "(" r0 => r0 | _ => a ++ r end = a ++ r).
  { destruct a as [|c a]; [congruence |]. cbn [Str.all] in Ha.
    apply andb_true_iff in Ha. destruct Ha as [Hc _]. cbn [append].
    destruct (Ascii.eqb_spec c "(") as [->|Hn]; [discriminate Hc |].
    destruct c as [[] [] [] [] [] [] [] []]; try reflexivity; congruence. }
  rewrite Hb, span_mantissa_app by assumption. reflexivity.
Qed.

Lemma displayed_mantissa_paren (a r : string) :
  Str.all is_mantissa_char a = true -> no_mantissa_head r = true ->
  displayed_mantissa ("(" ++ a ++ r) = py_float a.
Proof.
  intros Ha Hr. unfold displayed_mantissa.
  change ("(" ++ a ++ r) with (String "(" (a ++ r)). cbv iota beta.
  rewrite span_mantissa_app by assumption. reflexivity.
Qed.

Lemma is_digit_mantissa (c : ascii) : Str.is_digit c = true -> is_mantissa_char c = true.
Proof. intros H. unfold is_mantissa_char. now rewrite H. Qed.

Lemma all_mantissa_digits (ds : string) :
  Str.all Str.is_digit ds = true -> Str.all is_mantissa_char ds = true.
Proof. apply str_all_impl. exact is_digit_mantissa. Qed.

Lemma all_mantissa_sign_str (neg : bool) (f_sign : string) :
  Str.all is_mantissa_char (sign_str neg f_sign) = true.
Proof.
  unfold sign_str. destruct neg; [reflexivity |].
  destruct (f_sign =? "+")%string; reflexivity.
Qed.

Lemma all_mantissa_fixed_abs (d : Dec.t) (prec : Z) :
  Str.all is_mantissa_char (fixed_abs d prec) = true.
Proof.
  unfold fixed_abs. rewrite str_all_app.
  rewrite all_mantissa_digits by apply all_digit_of_nat.
  destruct (prec =? 0); [reflexivity |].
  change ("." ++ ?x) with (String "." x). cbn [Str.all].
  now rewrite all_mantissa_digits by apply all_digit_of_nat_width.
Qed.

Lemma fixed_abs_nonempty (d : Dec.t) (prec : Z) : fixed_abs d prec <> "".
Proof.
  unfold fixed_abs. intros H.
  destruct (Str.of_nat _) eqn:E; [now apply of_nat_nonempty in E | discriminate H].
Qed.

Lemma sign_app_nonempty (sg a : string) : a <> "" -> sg ++ a <> "".
Proof. destruct sg; [auto | discriminate]. Qed.

(** The position of the decimal point in [repr]. *)
Lemma repr_abs_decpt (d : Dec.t) :
  Dec.dm d <> 0 ->
  Z.of_nat (String.length (Str.of_nat (Dec.dm (Dec.strip_zeros (Dec.abs d)))))
  + Dec.de (Dec.strip_zeros (Dec.abs d))
  = Dec.floor_log10 (Dec.abs d) + 1.
Proof.
  intros Hd.
  pose proof (strip_zeros_spec (Dec.abs d) ltac:(unfold Dec.abs; cbn [Dec.dm]; lia))
    as (Hm' & He' & Hval).
  rewrite length_of_nat. unfold Dec.floor_log10. rewrite Hval.
  rewrite ndigits_mul_pow by lia. lia.
Qed.

Lemma all_mantissa_repr_abs (d : Dec.t) :
  Dec.dm d <> 0 -> -5 < Dec.floor_log10 (Dec.abs d) < 16 ->
  Str.all is_mantissa_char (repr_abs d) = true.
Proof.
  intros Hd Hfl. unfold repr_abs, Dec.is_zero.
  destruct (Z.eqb_spec (Dec.dm d) 0) as [|_]; [contradiction |].
  rewrite (repr_abs_decpt d Hd).
  set (ds := Str.of_nat (Dec.dm (Dec.strip_zeros (Dec.abs d)))).
  assert (Hds : Str.all is_mantissa_char ds = true)
    by (apply all_mantissa_digits, all_digit_of_nat).
  destruct (Z.leb_spec (Dec.floor_log10 (Dec.abs d) + 1) (-4)); [lia |].
  destruct (Z.ltb_spec 16 (Dec.floor_log10 (Dec.abs d) + 1)); [lia |].
  cbn [orb].
  destruct (_ <=? 0); [| destruct (_ <? _)].
  - rewrite !str_all_app, Hds, str_all_repeat by reflexivity. reflexivity.
  - rewrite !str_all_app, (str_all_take _ _ _ Hds), (str_all_drop _ _ _ Hds).
    reflexivity.
  - rewrite !str_all_app, Hds, str_all_repeat by reflexivity. reflexivity.
Qed.

Lemma repr_abs_nonempty (d : Dec.t) : repr_abs d <> "".
Proof.
  unfold repr_abs. destruct (Dec.is_zero d); [discriminate |].
  set (ds := Str.of_nat _). assert (Hne : ds <> "") by apply of_nat_nonempty.
  destruct (_ || _).
  - destruct ds as [|c ds]; [congruence | discriminate].
  - destruct (_ <=? 0); [discriminate |]. destruct (_ <? _).
    + intros H'. destruct (Str.take _ ds); discriminate H'.
    + destruct ds as [|c ds]; [congruence | discriminate].
Qed.

(** A number whose exponent is 0 lies in [[1, 10)]. *)
Lemma unit_range (d : Dec.t) :
  Dec.dm d <> 0 -> Dec.floor_log10 (Dec.abs d) = 0 ->
  (1 <= Dec.abs d)%dec /\ (Dec.abs d < 10)%dec.
Proof.
  intros Hd Hfl.
  pose proof (mantissa_range d ltac:(unfold Dec.is_zero; now apply Z.eqb_neq)) as H.
  cbv zeta in H. rewrite Hfl, dec_scale_0 in H. exact H.
Qed.

Lemma dec_le_eq_r (a b b' : Dec.t) : (b == b')%dec -> (a <= b)%dec -> (a <= b')%dec.
Proof. unfold Dec.le, Dec.leb. intros H. now rewrite (dec_compare_eq_r a b b' H). Qed.

Lemma dec_le_eq_l (a a' b : Dec.t) : (a == a')%dec -> (a <= b)%dec -> (a' <= b)%dec.
Proof. unfold Dec.le, Dec.leb. intros H. now rewrite (dec_compare_eq_l a a' b H). Qed.

Lemma dec_lt_eq_l (a a' b : Dec.t) : (a == a')%dec -> (a < b)%dec -> (a' < b)%dec.
Proof. unfold Dec.lt, Dec.ltb. intros H. now rewrite (dec_compare_eq_l a a' b H). Qed.

Lemma dec_lt_eq_r (a b b' : Dec.t) : (b == b')%dec -> (a < b)%dec -> (a < b')%dec.
Proof. unfold Dec.lt, Dec.ltb. intros H. now rewrite (dec_compare_eq_r a b b' H). Qed.

(** The text of a mean with exponent 0, printed by [repr]: what a reader takes
    from it is the mean. *)
Lemma shown_repr (d : Dec.t) (f_sign : string) :
  Dec.dm d <> 0 -> Dec.floor_log10 (Dec.abs d) = 0 ->
  Str.all is_mantissa_char (format_float d f_sign) = true /\
  format_float d f_sign <> "" /\
  exists v : Dec.t, py_float (format_float d f_sign) = Ret v /\ (v == d)%dec.
Proof.
  intros Hd Hfl. unfold format_float. split; [| split].
  - rewrite str_all_app, all_mantissa_sign_str, all_mantissa_repr_abs by (auto; lia).
    reflexivity.
  - apply sign_app_nonempty, repr_abs_nonempty.
  - destruct (py_float_repr d (sign_str (Dec.dm d <? 0) f_sign)
                (sign_str_is_sign _ _) Hd) as (v & Hv & Heq).
    exists v. split; [exact Hv |].
    rewrite sign_str_is_minus, apply_sign_abs in Heq.
    now destruct d.
Qed.

(** The text of a mean with exponent 0, printed with [prec] decimals: what a
    reader takes from it is the mean rounded, between 1 and 10 inclusive. *)
Lemma shown_fixed (d : Dec.t) (f_sign : string) (prec : Z) :
  0 <= prec -> Dec.dm d <> 0 -> Dec.floor_log10 (Dec.abs d) = 0 ->
  let a := sign_str (Dec.dm d <? 0) f_sign ++ fixed_abs d prec in
  let v := Dec.mk (Dec.round_scaled d prec) (- prec) in
  Str.all is_mantissa_char a = true /\ a <> "" /\
  py_float a = Ret v /\ (1 <= Dec.abs v)%dec /\ (Dec.abs v <= 10)%dec.
Proof.
  intros Hp Hd Hfl a v. split; [| split; [| split]].
  - unfold a. now rewrite str_all_app, all_mantissa_sign_str, all_mantissa_fixed_abs.
  - apply sign_app_nonempty, fixed_abs_nonempty.
  - now apply py_float_fixed.
  - pose proof (round_scaled_range d prec Hp Hd Hfl) as [Hlo Hhi].
    pose proof (pow10_pos prec Hp) as Hpow.
    unfold Dec.le, Dec.leb, v, Dec.abs. cbn [Dec.dm Dec.de]. split.
    + rewrite (dec_compare_at _ _ (- prec)) by (cbn [Dec.de dec_of_number]; lia).
      cbn [Dec.dm Dec.de]. change (Dec.dm 1%dec) with 1. change (Dec.de 1%dec) with 0.
      replace (0 - - prec) with prec by lia. replace (- prec - - prec) with 0 by lia.
      rewrite Z.pow_0_r, Z.mul_1_l, Z.mul_1_r.
      destruct (Z.compare_spec (10 ^ prec) (Z.abs (Dec.round_scaled d prec)));
        try reflexivity; lia.
    + rewrite (dec_compare_at _ _ (- prec)) by (cbn [Dec.de dec_of_number]; lia).
      cbn [Dec.dm Dec.de]. change (Dec.dm 10%dec) with 10. change (Dec.de 10%dec) with 0.
      replace (0 - - prec) with prec by lia. replace (- prec - - prec) with 0 by lia.
      rewrite Z.pow_0_r, Z.mul_1_r.
      rewrite (Z.pow_add_r 10 prec 1) in Hhi by lia. change (10 ^ 1) with 10 in Hhi.
      destruct (Z.compare_spec (Z.abs (Dec.round_scaled d prec)) (10 * 10 ^ prec));
        try reflexivity; lia.
Qed.

Lemma format_f_inv (x : num) (f_sign : string) (prec : Z) (a : string) :
  format_f x f_sign prec = Ret a ->
  0 <= prec /\ a = sign_str (Dec.dm (to_dec x) <? 0) f_sign ++ fixed_abs (to_dec x) prec.
Proof.
  unfold format_f. destruct (Z.ltb_spec prec 0) as [Hp|Hp]; [discriminate |].
  intros Hr. injection Hr as <-. split; [lia | reflexivity].
Qed.

(** The text of the mean at the head of an output of lines 176-217. *)
Lemma format_base_mean_text (m u : num) (format_spec f_sign stem : string) :
  Dec.is_zero (to_dec u) = false ->
  Uncertain.format_base (base_of (Uncertain.__init__ m u)) format_spec f_sign = Ret stem ->
  exists a r : string,
    (stem = "(" ++ a ++ r \/ stem = a ++ r) /\
    no_mantissa_head r = true /\
    (a = format_num (Uncertain.mean (base_of (Uncertain.__init__ m u))) f_sign \/
     exists prec : Z,
       0 <= prec /\
       a = sign_str (Dec.dm (to_dec (Uncertain.mean (base_of (Uncertain.__init__ m u)))) <? 0)
                    f_sign
           ++ fixed_abs (to_dec (Uncertain.mean (base_of (Uncertain.__init__ m u)))) prec).
Proof.
  intros Hu H.
  pose proof (base_of_uncertainty_pos m u Hu) as Hpos.
  set (self := base_of (Uncertain.__init__ m u)) in *.
  destruct (int_of_match (re_search_digits "." format_spec)) as [N|e] eqn:HN.
  2:{ unfold Uncertain.format_base in H. rewrite HN in H. discriminate H. }
  pose proof (int_of_match_nonneg _ _ _ HN) as HN0.
  destruct (Dec.leb (Dec.abs (to_dec (Uncertain.mean self)))
              (Dec.abs (to_dec (Uncertain.uncertainty self)))) eqn:Hle.
  - rewrite (format_base_dominant _ _ _ N HN Hle) in H. injection H as <-.
    eexists. eexists. split; [left; reflexivity |]. split; [reflexivity |].
    destruct (Z.eqb_spec N 0); [left; reflexivity |].
    right. exists N. split; [lia | reflexivity].
  - destruct (int_of_match (re_search_digits "u" format_spec)) as [M|e] eqn:HM.
    2:{ unfold Uncertain.format_base in H. rewrite HN in H. cbn [bind] in H.
        rewrite Hle in H. unfold int_floor_log10, Dec.is_zero in H.
        destruct (Z.eqb_spec (Dec.dm (to_dec (Uncertain.uncertainty self))) 0); [lia |].
        destruct (Z.ltb_spec (Dec.dm (to_dec (Uncertain.uncertainty self))) 0); [lia |].
        cbn [bind] in H. rewrite HM in H. discriminate H. }
    rewrite (format_base_normal _ _ _ N M HN HM Hle Hpos) in H.
    destruct (negb (N =? 0) && negb (M =? 0)); [discriminate H |].
    destruct (format_f (Uncertain.mean self) f_sign (digits_of self N M))
      as [a|] eqn:Hf; [| discriminate H].
    cbn [bind] in H. injection H as <-.
    apply format_f_inv in Hf. destruct Hf as [Hp ->].
    eexists. eexists. split; [right; reflexivity |]. split; [reflexivity |].
    right. eexists. split; [exact Hp | reflexivity].
Qed.

(** ** [from_string] on the outputs of [__format__] *)

Lemma from_string_fuel_S (n : nat) (s : string) :
  Uncertain.from_string_fuel (S n) s =
  if Str.contains "E" s then
    match Str.split "E" s with
    | [mantissa; exponent] =>
        exponent <- py_int exponent ;;
        u <- Uncertain.from_string_fuel n mantissa ;;
        Ret (Uncertain.__init__
               (PyFloat (Dec.scale (to_dec (Uncertain.mean u)) exponent))
               (PyFloat (Dec.scale (to_dec (Uncertain.uncertainty u)) exponent)))
    | [_] => Raise (ValueError "not enough values to unpack")
    | _ => Raise (ValueError "too many values to unpack")
    end
  else if Str.contains "×" s then
    match Str.split "×" s with
    | [mantissa; rest] =>
        match Str.split "^" rest with
        | _ :: exponent :: _ =>
            exponent <- py_int exponent ;;
            u <- Uncertain.from_string_fuel n mantissa ;;
            Ret (Uncertain.__init__
                   (PyFloat (Dec.scale (to_dec (Uncertain.mean u)) exponent))
                   (PyFloat (Dec.scale (to_dec (Uncertain.uncertainty u)) exponent)))
        | _ => Raise (IndexError "list index out of range")
        end
    | [_] => Raise (ValueError "not enough values to unpack")
    | _ => Raise (ValueError "too many values to unpack")
    end
  else
    match s with
    | "" => Raise (IndexError "string index out of range")
    | String c0 _ =>
        if Ascii.eqb c0 "(" &&
           match Str.last s with Some c => Ascii.eqb c ")" | None => false end
        then
          match Str.split "±" (Str.slice_1_m1 s) with
          | [mean; uncertainty] =>
              mean <- py_float mean ;;
              uncertainty <- py_float uncertainty ;;
              Ret (Uncertain.__init__ (PyFloat mean) (PyFloat uncertainty))
          | [_] => Raise (ValueError "not enough values to unpack")
          | _ => Raise (ValueError "too many values to unpack")
          end
        else
          match Str.split "(" s with
          | [mean; uncertainty] =>
              match Str.split "." mean with
              | _ :: frac1 :: _ =>
                  let precision := Z.of_nat (String.length frac1) in
                  let uncertainty := hd "" (Str.split ")" uncertainty) in
                  mean <- py_float mean ;;
                  uncertainty <- py_float uncertainty ;;
                  Ret (Uncertain.__init__ (PyFloat mean)
                         (PyFloat (Dec.scale uncertainty (- precision))))
              | _ => Raise (IndexError "list index out of range")
              end
          | [_] => Raise (ValueError "not enough values to unpack")
          | _ => Raise (ValueError "too many values to unpack")
          end
    end.
Proof. reflexivity. Qed.

Lemma mem_digits (c : ascii) (ds : string) :
  Str.all Str.is_digit ds = true -> Str.is_digit c = false -> Str.mem c ds = false.
Proof. apply str_all_not_mem. Qed.

(** The parenthetical-digits dialect on [sg ip . fp ( w )], possibly followed
    by the space that the split at the multiplication sign leaves. *)
Lemma from_string_digits_form (n : nat) (sg ip fp w tail : string) :
  sg = "+" \/ sg = "-" ->
  ip <> "" -> Str.all Str.is_digit ip = true -> Str.all Str.is_digit fp = true ->
  w <> "" -> Str.all Str.is_digit w = true ->
  tail = "" \/ tail = " " ->
  Uncertain.from_string_fuel (S n) (sg ++ ip ++ "." ++ fp ++ "(" ++ w ++ ")" ++ tail) =
  Ret (Uncertain.__init__
         (PyFloat (Dec.mk (apply_sign (sg =? "-")%string (Str.digits_val (ip ++ fp)))
                          (- Z.of_nat (String.length fp))))
         (PyFloat (Dec.scale (Dec.mk (Str.digits_val w) 0)
                             (- Z.of_nat (String.length fp))))).
Proof.
  intros Hsg Hipne Hip Hfp Hwne Hw Htail.
  assert (Hsgs : is_sign sg) by (unfold is_sign; tauto).
  set (a := sg ++ ip ++ "." ++ fp).
  set (b := w ++ ")" ++ tail).
  assert (Hs : sg ++ ip ++ "." ++ fp ++ "(" ++ b = a ++ "(" ++ b)
    by (unfold a; str_norm; reflexivity).
  rewrite Hs.
  assert (Hmem_a : forall c, Str.is_digit c = false -> Str.mem c sg = false ->
                             Ascii.eqb c "." = false -> Str.mem c a = false).
  { intros c Hc Hcs Hcd. unfold a.
    change ("." ++ fp) with (String "." fp).
    rewrite !str_mem_app, Hcs, (mem_digits c ip Hip Hc). cbn [Str.mem].
    now rewrite Hcd, (mem_digits c fp Hfp Hc). }
  assert (Hsgmem : forall c, Ascii.eqb c "+" = false -> Ascii.eqb c "-" = false ->
                             Str.mem c sg = false).
  { intros c H1 H2. destruct Hsg as [-> | ->]; cbn [Str.mem]; now rewrite ?H1, ?H2. }
  assert (Hmem_b : forall c, Str.is_digit c = false -> Ascii.eqb c ")" = false ->
                             Ascii.eqb c " " = false -> Str.mem c b = false).
  { intros c Hc H1 H2. unfold b. change (")" ++ tail) with (String ")" tail).
    rewrite str_mem_app, (mem_digits c w Hw Hc). cbn [Str.mem]. rewrite H1.
    destruct Htail as [-> | ->]; cbn [Str.mem]; now rewrite ?H2. }
  assert (HE : Str.contains "E" (a ++ "(" ++ b) = false).
  { apply str_contains_none. change ("(" ++ b) with (String "(" b).
    rewrite str_mem_app. cbn [Str.mem].
    rewrite Hmem_a, Hmem_b by (try reflexivity; now apply Hsgmem). reflexivity. }
  assert (HX : Str.contains "×" (a ++ "(" ++ b) = false).
  { apply str_contains_none. change ("(" ++ b) with (String "(" b).
    rewrite str_mem_app. cbn [Str.mem].
    rewrite Hmem_a, Hmem_b by (try reflexivity; now apply Hsgmem). reflexivity. }
  rewrite from_string_fuel_S, HE, HX.
  assert (Hhead : exists r, a ++ "(" ++ b = String (if (sg =? "-")%string then "-" else "+") r).
  { unfold a. destruct Hsg as [-> | ->]; eexists; reflexivity. }
  destruct Hhead as [r Hr]. rewrite Hr.
  replace (Ascii.eqb (if (sg =? "-")%string then "-" else "+") "(") with false
    by (destruct (sg =? "-")%string; reflexivity).
  cbn [andb]. rewrite <- Hr.
  change (a ++ "(" ++ b) with (a ++ String "(" "" ++ b).
  rewrite str_split_one
    by (first [apply Hmem_a; first [reflexivity | now apply Hsgmem]
              | apply Hmem_b; reflexivity]).
  assert (Hsplit : Str.split "." a = [sg ++ ip; fp]).
  { unfold a. replace (sg ++ ip ++ "." ++ fp) with ((sg ++ ip) ++ String "." "" ++ fp)
      by (str_norm; reflexivity).
    apply str_split_one.
    - rewrite str_mem_app, (mem_digits "." ip Hip eq_refl).
      destruct Hsg as [-> | ->]; reflexivity.
    - apply (mem_digits "." fp Hfp eq_refl). }
  rewrite Hsplit.
  assert (Hhd : hd "" (Str.split ")" b) = w).
  { unfold b. change (w ++ ")" ++ tail) with (w ++ String ")" "" ++ tail).
    apply str_split_hd. apply (mem_digits ")" w Hw eq_refl). }
  cbv zeta. rewrite Hhd.
  unfold a. rewrite <- (str_app_nil_r fp) at 1.
  rewrite (py_float_frac_gen sg ip fp "" 0) by (auto; left; split; reflexivity).
  cbn [bind].
  assert (Hpw : py_float w = Ret (Dec.mk (Str.digits_val w) 0)).
  { pose proof (py_float_int_gen "" w "" 0) as Hg.
    change ("" ++ w ++ "") with (w ++ "") in Hg. rewrite str_app_nil_r in Hg.
    apply Hg; first [assumption | left; reflexivity | left; split; reflexivity]. }
  rewrite Hpw. cbn [bind]. rewrite Z.sub_0_l. reflexivity.
Qed.

(** The multiplication-sign dialect: the exponent is read after the caret and
    the text before the sign is parsed again. *)
Lemma from_string_times (n : nat) (stem xsg xd : string) :
  Str.mem "E" stem = false -> Str.mem "195" stem = false ->
  xsg = "+" \/ xsg = "-" -> xd <> "" -> Str.all Str.is_digit xd = true ->
  Uncertain.from_string_fuel (S n) (stem ++ " × 10^" ++ xsg ++ xd) =
  u <- Uncertain.from_string_fuel n (stem ++ " ") ;;
  Ret (Uncertain.__init__
         (PyFloat (Dec.scale (to_dec (Uncertain.mean u))
                             (apply_sign (xsg =? "-")%string (Str.digits_val xd))))
         (PyFloat (Dec.scale (to_dec (Uncertain.uncertainty u))
                             (apply_sign (xsg =? "-")%string (Str.digits_val xd))))).
Proof.
  intros HE HX Hxsg Hxne Hxd.
  assert (Hsgmem : forall c, Ascii.eqb c "+" = false -> Ascii.eqb c "-" = false ->
                             Str.mem c xsg = false).
  { intros c H1 H2. destruct Hxsg as [-> | ->]; cbn [Str.mem]; now rewrite ?H1, ?H2. }
  set (rest := " 10^" ++ xsg ++ xd).
  assert (Hs : stem ++ " × 10^" ++ xsg ++ xd = (stem ++ " ") ++ "×" ++ rest)
    by (unfold rest; str_norm; reflexivity).
  assert (Hrest : forall c, Str.is_digit c = false -> Ascii.eqb c " " = false ->
                            Ascii.eqb c "^" = false -> Str.mem c xsg = false ->
                            Str.mem c rest = false).
  { intros c Hc H1 H2 H3. unfold rest.
    change (" 10^" ++ xsg ++ xd) with (String " " (String "1" (String "0" (String "^" (xsg ++ xd))))).
    cbn [Str.mem]. rewrite H1, H2, str_mem_app, H3, (mem_digits c xd Hxd Hc).
    assert (Ascii.eqb c "1" = false /\ Ascii.eqb c "0" = false) as [-> ->].
    { split; apply Ascii.eqb_neq; intros ->; discriminate Hc. }
    reflexivity. }
  rewrite from_string_fuel_S.
  assert (HcE : Str.contains "E" (stem ++ " × 10^" ++ xsg ++ xd) = false).
  { apply str_contains_none. rewrite Hs, !str_mem_app, HE. cbn [Str.mem orb Ascii.eqb].
    rewrite Hrest by (try reflexivity; now apply Hsgmem). reflexivity. }
  rewrite HcE, Hs.
  assert (Hpre : Str.mem "195" (stem ++ " ") = false)
    by (rewrite str_mem_app, HX; reflexivity).
  assert (Hpost : Str.mem "195" rest = false)
    by (apply Hrest; try reflexivity; now apply Hsgmem).
  rewrite (str_contains_app "195" (String "151" "") (stem ++ " ") rest Hpre).
  rewrite (str_split_one "195" (String "151" "") (stem ++ " ") rest Hpre Hpost).
  assert (Hcaret : Str.split "^" rest = [" 10"; xsg ++ xd]).
  { unfold rest. change (" 10^" ++ xsg ++ xd) with (" 10" ++ String "^" "" ++ (xsg ++ xd)).
    apply str_split_one; [reflexivity |].
    rewrite str_mem_app, (mem_digits "^" xd Hxd eq_refl).
    destruct Hxsg as [-> | ->]; reflexivity. }
  rewrite Hcaret.
  rewrite py_int_literal by (try assumption; unfold is_sign; tauto).
  reflexivity.
Qed.

Lemma str_last_app (s : string) (c : ascii) : Str.last (s ++ String c "") = Some c.
Proof.
  induction s as [|x s IH]; [reflexivity |].
  cbn [append Str.last]. rewrite IH.
  destruct (s ++ String c "") eqn:E; [| reflexivity].
  destruct s; discriminate E.
Qed.

Lemma str_slice_parens (mid : string) : Str.slice_1_m1 ("(" ++ mid ++ ")") = mid.
Proof.
  unfold Str.slice_1_m1. change ("(" ++ mid ++ ")") with (String "(" (mid ++ ")")).
  cbn [Str.drop String.length]. rewrite str_length_app. cbn [String.length].
  replace (S (String.length mid + 1) - 2)%nat with (String.length mid) by lia.
  apply str_take_app.
Qed.

(** The plus-minus dialect on the output of the uncertainty-dominant case. *)
Lemma from_string_pm_form (n : nat) (a b : string) (va vb : Dec.t) :
  Str.all is_numeric a = true -> Str.all is_numeric b = true ->
  py_float a = Ret va -> py_float b = Ret vb ->
  Uncertain.from_string_fuel (S n) ("(" ++ a ++ " ± " ++ b ++ ")") =
  Ret (Uncertain.__init__ (PyFloat va) (PyFloat vb)).
Proof.
  intros Ha Hb Hva Hvb.
  assert (Hma : forall c, is_numeric c = false -> Str.mem c a = false)
    by (intros c; now apply str_all_not_mem).
  assert (Hmb : forall c, is_numeric c = false -> Str.mem c b = false)
    by (intros c; now apply str_all_not_mem).
  set (s := "(" ++ a ++ " ± " ++ b ++ ")").
  assert (Hmem : forall c, is_numeric c = false ->
                           Str.mem c "( ±)" = false -> Str.mem c s = false).
  { intros c Hc Hl. unfold s.
    change ("(" ++ a ++ " ± " ++ b ++ ")")
      with (String "(" (a ++ String " " (String "194" (String "177" (String " " (b ++ ")")))))).
    cbn [Str.mem] in *. rewrite str_mem_app. cbn [Str.mem].
    rewrite str_mem_app. cbn [Str.mem].
    rewrite (Hma c Hc), (Hmb c Hc).
    repeat (apply orb_false_iff in Hl; destruct Hl as [? Hl]).
    repeat match goal with H : Ascii.eqb c _ = false |- _ => rewrite H; clear H end.
    reflexivity. }
  rewrite from_string_fuel_S.
  rewrite (str_contains_none "E" "" s) by (apply Hmem; reflexivity).
  rewrite (str_contains_none "195" (String "151" "") s) by (apply Hmem; reflexivity).
  assert (Hlast : Str.last s = Some ")"%char).
  { unfold s. replace ("(" ++ a ++ " ± " ++ b ++ ")")
      with (("(" ++ a ++ " ± " ++ b) ++ String ")" "") by (str_norm; reflexivity).
    apply str_last_app. }
  unfold s at 1. change ("(" ++ a ++ " ± " ++ b ++ ")")
    with (String "(" (a ++ " ± " ++ b ++ ")")) at 1.
  cbv iota beta. fold s. rewrite Hlast.
  change (Ascii.eqb "(" "(" && Ascii.eqb ")" ")") with true. cbv iota.
  unfold s. replace ("(" ++ a ++ " ± " ++ b ++ ")") with ("(" ++ (a ++ " ± " ++ b) ++ ")")
    by (str_norm; reflexivity).
  rewrite str_slice_parens.
  replace (a ++ " ± " ++ b) with ((a ++ " ") ++ String "194" (String "177" "") ++ (" " ++ b))
    by (str_norm; reflexivity).
  rewrite str_split_one.
  2:{ rewrite str_mem_app, (Hma "194"%char eq_refl). reflexivity. }
  2:{ change (" " ++ b) with (String " " b). cbn [Str.mem].
      rewrite (Hmb "194"%char eq_refl). reflexivity. }
  destruct (py_float_with_spaces a (all_nospace_numeric a Ha)) as [-> _].
  destruct (py_float_with_spaces b (all_nospace_numeric b Hb)) as [_ ->].
  rewrite Hva, Hvb. reflexivity.
Qed.

(** The parenthetical-digits output with its exponent suffix, read back. *)
Lemma from_string_normal_form (sg ip fp w : string) (x : Z) :
  sg = "+" \/ sg = "-" ->
  ip <> "" -> Str.all Str.is_digit ip = true -> Str.all Str.is_digit fp = true ->
  w <> "" -> Str.all Str.is_digit w = true ->
  Uncertain.from_string (sg ++ ip ++ "." ++ fp ++ "(" ++ w ++ ")" ++ _exponent x "+" false) =
  Ret (Uncertain.mk
         (PyFloat (Dec.mk (apply_sign (sg =? "-")%string (Str.digits_val (ip ++ fp)))
                          (- Z.of_nat (String.length fp) + x)))
         (PyFloat (Dec.mk (Str.digits_val w) (- Z.of_nat (String.length fp) + x)))).
Proof.
  intros Hsg Hipne Hip Hfp Hwne Hw.
  pose proof (digits_val_nonneg w Hw) as Hw0.
  unfold Uncertain.from_string. change recursion_limit with (S (S 998)).
  destruct (Z.eq_dec x 0) as [->|Hx].
  - change (_exponent 0 "+" false) with "".
    rewrite (from_string_digits_form _ sg ip fp w "") by (auto).
    unfold Uncertain.__init__, np_abs, Dec.abs, Dec.scale. cbn [Dec.dm Dec.de].
    rewrite Z.abs_eq by exact Hw0.
    rewrite Z.add_0_r, Z.add_0_l. reflexivity.
  - rewrite (exponent_suffix x false Hx).
    set (stem := sg ++ ip ++ "." ++ fp ++ "(" ++ w ++ ")").
    replace (sg ++ ip ++ "." ++ fp ++ "(" ++ w ++ ")" ++ " × 10^" ++ _)
      with (stem ++ " × 10^" ++ (if 0 <? x then "+" else "-") ++ Str.of_nat (Z.abs x))
      by (unfold stem; str_norm; reflexivity).
    assert (Hstem : forall c, Str.is_digit c = false -> Str.mem c "+-.()" = false ->
                              Str.mem c stem = false).
    { intros c Hc Hl. unfold stem.
      change (sg ++ ip ++ "." ++ fp ++ "(" ++ w ++ ")")
        with (sg ++ ip ++ String "." (fp ++ String "(" (w ++ ")"))).
      cbn [Str.mem] in Hl.
      repeat (apply orb_false_iff in Hl; destruct Hl as [? Hl]).
      repeat first [rewrite str_mem_app | progress cbn [Str.mem]].
      rewrite (mem_digits c ip Hip Hc), (mem_digits c fp Hfp Hc), (mem_digits c w Hw Hc).
      assert (Hs : Str.mem c sg = false)
        by (destruct Hsg as [-> | ->]; cbn [Str.mem];
            repeat match goal with H : Ascii.eqb c _ = false |- _ => rewrite H end;
            reflexivity).
      rewrite Hs.
      repeat match goal with H : Ascii.eqb c _ = false |- _ => rewrite H; clear H end.
      reflexivity. }
    rewrite from_string_times
      by (first [apply Hstem; reflexivity
                | destruct (0 <? x); tauto
                | apply of_nat_nonempty | apply all_digit_of_nat]).
    replace (stem ++ " ") with (sg ++ ip ++ "." ++ fp ++ "(" ++ w ++ ")" ++ " ")
      by (unfold stem; str_norm; reflexivity).
    rewrite (from_string_digits_form _ sg ip fp w " ") by (auto).
    cbn [bind].
    assert (Hxv : apply_sign (String.eqb (if 0 <? x then "+" else "-") "-")
                    (Str.digits_val (Str.of_nat (Z.abs x))) = x).
    { rewrite digits_val_of_nat by lia. unfold apply_sign.
      destruct (Z.ltb_spec 0 x); cbn; lia. }
    rewrite Hxv.
    unfold Uncertain.__init__, np_abs, Dec.abs, Dec.scale.
    cbn [Dec.dm Dec.de Uncertain.mean Uncertain.uncertainty to_dec].
    rewrite !Z.abs_eq by lia. rewrite Z.add_0_l. reflexivity.
Qed.

(** ** The default rendering, and the distance to what is read back *)

(** [__str__] in the parenthetical-digits case: the mean rounded to [d]
    decimals, [d] being one more than the position of the first digit of the
    uncertainty, and the uncertainty rounded up on these decimals. *)
Lemma str_normal_form (m u : num) :
  Dec.is_zero (to_dec m) = false ->
  Dec.is_zero (to_dec u) = false ->
  (Dec.abs (to_dec u) < Dec.abs (to_dec m))%dec ->
  let self := Uncertain.__init__ m u in
  let un := Dec.scale (Dec.abs (to_dec u)) (- exponent_of self) in
  let d := - Dec.floor_log10 un + 1 in
  let q := Dec.round_scaled (mantissa_of self) d in
  let w := Dec.ceil_scaled un d in
  1 <= d /\ 0 <= w /\
  Uncertain.__str__ self =
  Ret (sign_str (Dec.dm (mantissa_of self) <? 0) "+"
       ++ Str.of_nat (Z.abs q / 10 ^ d) ++ "."
       ++ Str.of_nat_width (Z.to_nat d) (Z.abs q mod 10 ^ d) ""
       ++ "(" ++ Str.of_nat w ++ ")" ++ _exponent (exponent_of self) "+" false).
Proof.
  intros Hm Hu Hlt self un d q w.
  pose proof (base_floor_log10_uncertainty m u Hu Hlt) as Hfl.
  pose proof (base_of_uncertainty m u) as Hbu. cbv zeta in Hbu. fold self in Hbu, Hfl.
  rewrite Hbu in Hfl. fold un in Hfl.
  pose proof (base_of_uncertainty_pos m u Hu) as Hpos. fold self in Hpos.
  assert (Hd : 1 <= d) by (unfold d; lia).
  assert (Hw : 0 <= w).
  { unfold w, un. apply ceil_scaled_nonneg. rewrite <- Hbu. lia. }
  split; [exact Hd |]. split; [exact Hw |].
  pose proof (base_of_dominant m u) as Hdom. cbv zeta in Hdom. fold self in Hdom.
  assert (Hle : Dec.leb (Dec.abs (to_dec m)) (Dec.abs (to_dec u)) = false).
  { rewrite dec_leb_ltb. unfold Dec.lt in Hlt. now rewrite Hlt. }
  rewrite Hle in Hdom.
  unfold Uncertain.__str__.
  rewrite format_unfold_base
    by (unfold self; try rewrite init_uncertainty_is_zero; assumption).
  change (Uncertain.f_sign_of "+u2") with "+".
  change (Str.contains "e" "+u2") with false.
  rewrite (format_base_normal (base_of self) "+u2" "+" 0 2 eq_refl eq_refl Hdom Hpos).
  cbn [negb andb Z.eqb].
  assert (Hdig : digits_of (base_of self) 0 2 = d).
  { unfold digits_of. cbn [Z.eqb]. rewrite Hbu. reflexivity. }
  assert (Hind : indicator_of (base_of self) 0 2 = w).
  { unfold indicator_of. cbn [Z.eqb]. rewrite Hdig, Hbu. reflexivity. }
  rewrite Hdig, Hind, format_f_ok by lia.
  rewrite base_of_mean, format_int_nonneg by exact Hw.
  cbn [bind]. unfold fixed_abs. fold q.
  destruct (Z.eqb_spec d 0); [lia |].
  f_equal. str_norm. reflexivity.
Qed.

Lemma dec_sub_same (a b e : Z) : Dec.sub (Dec.mk a e) (Dec.mk b e) = Dec.mk (a - b) e.
Proof.
  unfold Dec.sub, Dec.add, Dec.opp, Dec.align. cbn [Dec.dm Dec.de].
  rewrite Z.min_id, Z.sub_diag, Z.pow_0_r. f_equal. lia.
Qed.

(** The mean read back is within half a unit of the last decimal. *)
Lemma mean_tolerance (mm : Dec.t) (x d : Z) :
  (Dec.abs (Dec.sub (Dec.mk (Dec.round_scaled (Dec.scale mm (- x)) d) (- d + x)) mm)
   <= Dec.mk 5 (x - d - 1))%dec.
Proof.
  set (q := Dec.round_scaled (Dec.scale mm (- x)) d).
  set (sx := Dec.de mm + - x + d).
  unfold Dec.sub, Dec.add, Dec.opp, Dec.align. cbn [Dec.dm Dec.de].
  destruct (Z.le_gt_cases 0 sx) as [Hsx|Hsx].
  - (* nothing is rounded away *)
    assert (Hq : q = Dec.dm mm * 10 ^ sx).
    { unfold q, Dec.round_scaled, Dec.scale. cbn [Dec.dm Dec.de]. fold sx.
      destruct (Z.leb_spec 0 sx); [reflexivity | lia]. }
    rewrite Z.min_l by (unfold sx in Hsx; lia).
    replace (- d + x - (- d + x)) with 0 by lia.
    replace (Dec.de mm - (- d + x)) with sx by (unfold sx; lia).
    rewrite Hq, Z.pow_0_r.
    replace (Dec.dm mm * 10 ^ sx * 1 + - Dec.dm mm * 10 ^ sx) with 0 by lia.
    unfold Dec.le, Dec.leb, Dec.abs. cbn [Dec.dm Dec.de].
    rewrite (dec_compare_at _ _ (Z.min (- d + x) (x - d - 1))) by (cbn [Dec.de]; lia).
    cbn [Dec.dm Dec.de]. change (Z.abs 0) with 0. rewrite Z.mul_0_l.
    pose proof (pow10_pos (x - d - 1 - Z.min (- d + x) (x - d - 1)) ltac:(lia)).
    destruct (Z.compare_spec 0 (5 * 10 ^ (x - d - 1 - Z.min (- d + x) (x - d - 1))));
      try reflexivity; lia.
  - pose proof (round_scaled_error (Dec.scale mm (- x)) d) as Herr.
    unfold Dec.scale in Herr. cbn [Dec.dm Dec.de] in Herr. fold sx in Herr.
    specialize (Herr Hsx). fold (Dec.scale mm (- x)) in Herr. fold q in Herr.
    rewrite Z.min_r by (unfold sx in Hsx; lia).
    replace (- d + x - Dec.de mm) with (- sx) by (unfold sx; lia).
    rewrite Z.sub_diag, Z.pow_0_r, Z.mul_1_r.
    unfold Dec.le, Dec.leb, Dec.abs. cbn [Dec.dm Dec.de].
    rewrite (dec_compare_at _ _ (Dec.de mm)) by (cbn [Dec.de]; unfold sx in Hsx; lia).
    cbn [Dec.dm Dec.de]. rewrite Z.sub_diag, Z.pow_0_r, Z.mul_1_r.
    replace (x - d - 1 - Dec.de mm) with (- sx - 1) by (unfold sx; lia).
    pose proof (pow10_pos (- sx - 1) ltac:(lia)) as Hp.
    assert (E : 10 ^ (- sx) = 10 * 10 ^ (- sx - 1)).
    { replace (- sx) with ((- sx - 1) + 1) at 1 by lia.
      rewrite Z.pow_add_r by lia. change (10 ^ 1) with 10. ring. }
    replace (q * 10 ^ (- sx) + - Dec.dm mm) with (q * 10 ^ (- sx) - Dec.dm mm) by lia.
    set (t := Z.abs (q * 10 ^ (- sx) - Dec.dm mm)) in *.
    destruct (Z.compare_spec t (5 * 10 ^ (- sx - 1))); try reflexivity; lia.
Qed.

(** The uncertainty read back is the least multiple of the last decimal that
    is not below the uncertainty. *)
Lemma uncertainty_tolerance (U : Dec.t) (x d : Z) :
  let w := Dec.ceil_scaled (Dec.scale U (- x)) d in
  (U <= Dec.mk w (- d + x))%dec /\
  (Dec.sub (Dec.mk w (- d + x)) (Dec.mk 1 (- d + x)) < U)%dec.
Proof.
  intros w. rewrite dec_sub_same.
  pose proof (ceil_scaled_spec (Dec.scale U (- x)) d) as [Hlo Hhi]. fold w in Hlo, Hhi.
  unfold Dec.lt in *. unfold Dec.le in *.
  rewrite <- (dec_ltb_scale _ _ x) in Hlo. rewrite <- (dec_leb_scale _ _ x) in Hhi.
  rewrite dec_scale_inv in Hlo, Hhi.
  split; [exact Hhi | exact Hlo].
Qed.

(** Ten units of the last displayed decimal do not exceed the uncertainty:
    two of its digits are displayed. *)
Lemma two_digits_displayed (U : Dec.t) (x : Z) :
  0 < Dec.dm U ->
  (Dec.mk 10 (- (- Dec.floor_log10 (Dec.scale U (- x)) + 1) + x) <= U)%dec.
Proof.
  intros HU.
  pose proof (ndigits_spec (Dec.dm U) HU) as [Hlo _].
  pose proof (ndigits_pos (Dec.dm U)) as Hk.
  unfold Dec.floor_log10, Dec.scale. cbn [Dec.dm Dec.de].
  set (k := Dec.ndigits (Dec.dm U)) in *.
  replace (- (- (k - 1 + (Dec.de U + - x)) + 1) + x) with (k - 2 + Dec.de U) by lia.
  unfold Dec.le, Dec.leb.
  rewrite (dec_compare_at _ _ (Dec.de U - 1)) by (cbn [Dec.de]; lia).
  cbn [Dec.dm Dec.de].
  replace (k - 2 + Dec.de U - (Dec.de U - 1)) with (k - 1) by lia.
  replace (Dec.de U - (Dec.de U - 1)) with 1 by lia.
  change (10 ^ 1) with 10.
  destruct (Z.compare_spec (10 * 10 ^ (k - 1)) (Dec.dm U * 10)); try reflexivity; lia.
Qed.

(** ** The recursion of [from_string] *)

Lemma str_substring_drop (k : nat) (t : string) :
  substring 0 k t ++ Str.drop k t = t.
Proof.
  revert t. induction k as [|k IH]; intros [|c t]; cbn [substring Str.drop append];
    try reflexivity.
  now rewrite IH.
Qed.

Lemma str_cut_spec (sep s a b : string) :
  Str.cut sep s = Some (a, b) -> s = a ++ sep ++ b.
Proof.
  revert a b. induction s as [|x s IH]; intros a b H.
  - cbn [Str.cut] in H. destruct (prefix sep "") eqn:Hp; [| discriminate H].
    injection H as <- <-. destruct sep; [reflexivity | discriminate Hp].
  - change (Str.cut sep (String x s))
      with (if prefix sep (String x s)
            then Some ("", Str.drop (String.length sep) (String x s))
            else match Str.cut sep s with
                 | Some (a0, b0) => Some (String x a0, b0)
                 | None => None
                 end) in H.
    destruct (prefix sep (String x s)) eqn:Hp.
    + injection H as <- <-. apply prefix_correct in Hp.
      cbn [append]. rewrite <- Hp at 1. symmetry. apply str_substring_drop.
    + destruct (Str.cut sep s) as [[a0 b0]|]; [| discriminate H].
      injection H as <- <-. cbn [append]. f_equal. now apply IH.
Qed.

Lemma str_prefix_mono (p s r : string) : prefix p s = true -> prefix p (s ++ r) = true.
Proof.
  revert s. induction p as [|c p IH]; intros s H.
  - now destruct (s ++ r).
  - destruct s as [|x s]; [discriminate H |]. cbn [append prefix] in *.
    destruct (ascii_dec c x); [now apply IH | discriminate H].
Qed.

(** The text before the first occurrence of a separator does not hold it. *)
Lemma str_cut_left_none (c : ascii) (sep s a b : string) :
  Str.cut (String c sep) s = Some (a, b) -> Str.cut (String c sep) a = None.
Proof.
  revert a b. induction s as [|x s IH]; intros a b H.
  - discriminate H.
  - change (Str.cut (String c sep) (String x s))
      with (if prefix (String c sep) (String x s)
            then Some ("", Str.drop (String.length (String c sep)) (String x s))
            else match Str.cut (String c sep) s with
                 | Some (a0, b0) => Some (String x a0, b0)
                 | None => None
                 end) in H.
    destruct (prefix (String c sep) (String x s)) eqn:Hp.
    + injection H as <- <-. reflexivity.
    + destruct (Str.cut (String c sep) s) as [[a0 b0]|] eqn:Hc; [| discriminate H].
      injection H as <- <-.
      change (Str.cut (String c sep) (String x a0))
        with (if prefix (String c sep) (String x a0)
              then Some ("", Str.drop (String.length (String c sep)) (String x a0))
              else match Str.cut (String c sep) a0 with
                   | Some (a1, b1) => Some (String x a1, b1)
                   | None => None
                   end).
      rewrite (IH _ _ eq_refl).
      destruct (prefix (String c sep) (String x a0)) eqn:Hp'; [| reflexivity].
      apply (str_prefix_mono _ _ (String c sep ++ b0)) in Hp'.
      apply str_cut_spec in Hc.
      change (String x a0 ++ String c sep ++ b0)
        with (String x (a0 ++ String c sep ++ b0)) in Hp'.
      rewrite <- Hc in Hp'. congruence.
Qed.

(** A separator found in [a] is found in [a ++ r]. *)
Lemma str_cut_app_some (sep a r : string) :
  Str.cut sep a <> None -> Str.cut sep (a ++ r) <> None.
Proof.
  induction a as [|x a IH]; intros H.
  - cbn [Str.cut] in H. destruct (prefix sep "") eqn:Hp; [| congruence].
    destruct sep; [| discriminate Hp]. now destruct r.
  - change (Str.cut sep (String x a))
      with (if prefix sep (String x a)
            then Some ("", Str.drop (String.length sep) (String x a))
            else match Str.cut sep a with
                 | Some (a0, b0) => Some (String x a0, b0)
                 | None => None
                 end) in H.
    change (Str.cut sep (String x a ++ r))
      with (if prefix sep (String x a ++ r)
            then Some ("", Str.drop (String.length sep) (String x a ++ r))
            else match Str.cut sep (a ++ r) with
                 | Some (a0, b0) => Some (String x a0, b0)
                 | None => None
                 end).
    destruct (prefix sep (String x a)) eqn:Hp.
    + now rewrite (str_prefix_mono _ _ r Hp).
    + destruct (prefix sep (String x a ++ r)); [discriminate |].
      destruct (Str.cut sep a) as [[a0 b0]|]; [| congruence].
      specialize (IH ltac:(discriminate)).
      destruct (Str.cut sep (a ++ r)) as [[a1 b1]|]; [discriminate | congruence].
Qed.

Lemma str_contains_left (sep a r : string) :
  Str.contains sep (a ++ r) = false -> Str.contains sep a = false.
Proof.
  unfold Str.contains. intros H.
  destruct (Str.cut sep a) eqn:Ha; [| reflexivity].
  pose proof (str_cut_app_some sep a r ltac:(congruence)) as Hn.
  destruct (Str.cut sep (a ++ r)); [discriminate H | congruence].
Qed.

(** The first part of a split in two holds neither the separator nor
    anything the whole text does not hold. *)
Lemma str_split_two (c : ascii) (sep s a b : string) :
  Str.split (String c sep) s = [a; b] ->
  Str.contains (String c sep) a = false /\
  forall sep', Str.contains sep' s = false -> Str.contains sep' a = false.
Proof.
  unfold Str.split. destruct (String.length s) as [|f]; [discriminate |].
  rewrite str_split_fuel_S.
  destruct (Str.cut (String c sep) s) as [[a0 b0]|] eqn:Hc; [| discriminate].
  intros H. injection H as -> _. split.
  - unfold Str.contains. now rewrite (str_cut_left_none _ _ _ _ _ Hc).
  - intros sep' Hs. apply str_cut_spec in Hc. rewrite Hc in Hs.
    exact (str_contains_left _ _ _ Hs).
Qed.

Lemma py_float_no_recursion_error (s : string) : py_float s <> Raise RecursionError.
Proof.
  unfold py_float. destruct (split_sign (Str.strip s)) as [neg s1].
  destruct (Str.span_digits s1) as [ip s2].
  destruct (match s2 with String "." r => Str.span_digits r | _ => ("", s2) end)
    as [fp s3].
  destruct (ip ++ fp); [discriminate |].
  destruct (float_exponent s3); discriminate.
Qed.

Ltac no_recursion_error :=
  repeat first
    [ discriminate
    | apply bind_no_recursion_error;
      [first [apply py_float_no_recursion_error | apply py_int_no_recursion_error
             | assumption] | intros ?]
    | match goal with
      | |- match ?x with _ => _ end <> _ => destruct x eqn:?
      | |- (if ?b then _ else _) <> _ => destruct b eqn:?
      end ].

(** Neither separator: no nested call. *)
Lemma from_string_depth_1 (n : nat) (s : string) :
  Str.contains "E" s = false -> Str.contains "×" s = false ->
  Uncertain.from_string_fuel (S n) s <> Raise RecursionError.
Proof.
  intros HE HX. rewrite from_string_fuel_S, HE, HX. cbv zeta. no_recursion_error.
Qed.

(** No [E]: at most one nested call, on a text without multiplication sign. *)
Lemma from_string_depth_2 (n : nat) (s : string) :
  Str.contains "E" s = false ->
  Uncertain.from_string_fuel (S (S n)) s <> Raise RecursionError.
Proof.
  intros HE. destruct (Str.contains "×" s) eqn:HX;
    [| now apply from_string_depth_1].
  rewrite from_string_fuel_S, HE, HX.
  destruct (Str.split "×" s) as [|a [|b [|? ?]]] eqn:Hs; try discriminate.
  destruct (str_split_two _ _ _ _ _ Hs) as [Ha Hall].
  pose proof (from_string_depth_1 n a (Hall _ HE) Ha) as Hrec.
  no_recursion_error.
Qed.

(** The counter of [from_string] is never exhausted: a nested call is made on
    a text that no longer holds the separator it was split on. *)
Lemma from_string_no_recursion_error (s : string) :
  Uncertain.from_string s <> Raise RecursionError.
Proof.
  unfold Uncertain.from_string. change recursion_limit with (S (S (S 997))).
  destruct (Str.contains "E" s) eqn:HE; [| now apply from_string_depth_2].
  rewrite from_string_fuel_S, HE.
  destruct (Str.split "E" s) as [|a [|b [|? ?]]] eqn:Hs; try discriminate.
  destruct (str_split_two _ _ _ _ _ Hs) as [Ha _].
  pose proof (from_string_depth_2 997 a Ha) as Hrec.
  no_recursion_error.
Qed.

(** ** The counters of the helper functions are large enough *)

Lemma str_split_fuel_complete (f : nat) (c : ascii) (sep s : string) :
  (String.length s <= f)%nat ->
  Forall (fun part => Str.cut (String c sep) part = None)
         (Str.split_fuel f (String c sep) s).
Proof.
  revert s. induction f as [|f IH]; intros s Hlen.
  - destruct s; [| cbn in Hlen; lia]. constructor; [reflexivity | constructor].
  - rewrite str_split_fuel_S.
    destruct (Str.cut (String c sep) s) as [[a b]|] eqn:Hc.
    + constructor; [exact (str_cut_left_none _ _ _ _ _ Hc) |].
      apply IH. apply str_cut_spec in Hc. rewrite Hc in Hlen.
      rewrite !str_length_app in Hlen. cbn [String.length] in Hlen. lia.
    + constructor; [exact Hc | constructor].
Qed.

(** No part of [s.split(sep)] holds the separator. *)
Lemma str_split_complete (c : ascii) (sep s : string) :
  Forall (fun part => Str.contains (String c sep) part = false)
         (Str.split (String c sep) s).
Proof.
  pose proof (str_split_fuel_complete (String.length s) c sep s (Nat.le_refl _)) as H.
  unfold Str.split. induction H as [|x l Hx _ IH]; constructor; [| exact IH].
  unfold Str.contains. now rewrite Hx.
Qed.

Lemma strip_zeros_fuel_complete (f : nat) (m e : Z) :
  0 < m < 2 ^ (Z.of_nat f + 1) ->
  fst (Dec.strip_zeros_fuel f m e) mod 10 <> 0.
Proof.
  revert m e. induction f as [|f IH]; intros m e Hm.
  - change (2 ^ (Z.of_nat 0 + 1)) with 2 in Hm. cbn [Dec.strip_zeros_fuel fst].
    replace m with 1 by lia. discriminate.
  - cbn [Dec.strip_zeros_fuel].
    destruct (Z.eqb_spec (m mod 10) 0) as [H0|H0]; [| exact H0].
    destruct (Z.eqb_spec m 0) as [Hz|Hz]; [lia |]. cbn [andb negb].
    apply IH. pose proof (Z.div_mod m 10 ltac:(lia)) as Hdm.
    rewrite Nat2Z.inj_succ, <- Z.add_1_r in Hm.
    rewrite (Z.pow_add_r 2 (Z.of_nat f + 1) 1) in Hm by lia.
    change (2 ^ 1) with 2 in Hm. lia.
Qed.

(** [strip_zeros] leaves no trailing zero: [repr] prints the shortest digits. *)
Lemma strip_zeros_complete (d : Dec.t) :
  0 < Dec.dm d -> Dec.dm (Dec.strip_zeros d) mod 10 <> 0.
Proof.
  intros Hd. unfold Dec.strip_zeros.
  pose proof (strip_zeros_fuel_complete
                (Z.to_nat (Z.log2 (Z.abs (Dec.dm d)))) (Dec.dm d) (Dec.de d)) as H.
  destruct (Dec.strip_zeros_fuel _ _ _) as [m e]. apply H.
  rewrite Z2Nat.id by apply Z.log2_nonneg. rewrite Z.abs_eq by lia.
  pose proof (Z.log2_spec (Dec.dm d) Hd) as [_ H2]. unfold Z.succ in H2. lia.
Qed.

(** ** The shape of a printed number *)

Lemma of_nat_head_digit (n : Z) :
  exists (c : ascii) (r : string), Str.of_nat n = String c r /\ Str.is_digit c = true.
Proof.
  pose proof (all_digit_of_nat n) as Hall. pose proof (of_nat_nonempty n) as Hne.
  destruct (Str.of_nat n) as [|c r]; [contradiction |].
  cbn [Str.all] in Hall. apply andb_true_iff in Hall as [Hc _]. now exists c, r.
Qed.

Lemma head_digit_app (s t : string) :
  (exists (c : ascii) (r : string), s = String c r /\ Str.is_digit c = true) ->
  exists (c : ascii) (r : string), s ++ t = String c r /\ Str.is_digit c = true.
Proof. intros (c & r & -> & Hc). now exists c, (r ++ t). Qed.

Lemma fixed_abs_head_digit (d : Dec.t) (prec : Z) :
  exists (c : ascii) (r : string), fixed_abs d prec = String c r /\ Str.is_digit c = true.
Proof. unfold fixed_abs. apply head_digit_app, of_nat_head_digit. Qed.

Lemma repr_abs_head_digit (d : Dec.t) :
  exists (c : ascii) (r : string), repr_abs d = String c r /\ Str.is_digit c = true.
Proof.
  unfold repr_abs. destruct (Dec.is_zero d); [now exists "0"%char, ".0" |].
  set (n := Dec.strip_zeros (Dec.abs d)).
  destruct (of_nat_head_digit (Dec.dm n)) as (c & r & Hds & Hc).
  rewrite Hds. set (k := Z.of_nat (String.length (String c r))).
  destruct ((k + Dec.de n <=? -4) || (16 <? k + Dec.de n)).
  { cbn [Str.take append]. now eexists c, _. }
  destruct (Z.leb_spec (k + Dec.de n) 0); [now exists "0"%char; eexists |].
  destruct (k + Dec.de n <? k).
  - destruct (Z.to_nat (k + Dec.de n)) eqn:E; [lia |].
    cbn [Str.take append]. now eexists c, _.
  - cbn [append]. now eexists c, _.
Qed.

Lemma format_num_head_digit (x : num) (f_sign : string) :
  exists (c : ascii) (r : string),
    format_num x f_sign = sign_str (Dec.dm (to_dec x) <? 0) f_sign ++ String c r /\
    Str.is_digit c = true.
Proof.
  destruct x as [z | d]; cbn [format_num to_dec Dec.of_Z Dec.dm].
  - unfold format_int. destruct (of_nat_head_digit (Z.abs z)) as (c & r & -> & Hc).
    now exists c, r.
  - unfold format_float. destruct (repr_abs_head_digit d) as (c & r & -> & Hc).
    now exists c, r.
Qed.

Lemma is_digit_decimal (c : ascii) : Str.is_digit c = true -> is_decimal_char c = true.
Proof. intros H. unfold is_decimal_char. now rewrite H. Qed.

Lemma all_decimal_digits (ds : string) :
  Str.all Str.is_digit ds = true -> Str.all is_decimal_char ds = true.
Proof. apply str_all_impl. exact is_digit_decimal. Qed.

Lemma is_decimal_numeric (c : ascii) : is_decimal_char c = true -> is_numeric c = true.
Proof.
  unfold is_decimal_char, is_numeric. intros H.
  apply orb_true_iff in H as [H | H]; [now rewrite H |].
  apply Ascii.eqb_eq in H. subst c. reflexivity.
Qed.

Lemma all_decimal_fixed_abs (d : Dec.t) (prec : Z) :
  Str.all is_decimal_char (fixed_abs d prec) = true.
Proof.
  unfold fixed_abs. rewrite str_all_app.
  rewrite (all_decimal_digits _ (all_digit_of_nat _)).
  destruct (prec =? 0); [reflexivity |].
  change ("." ++ ?s) with (String "." s). cbn [Str.all].
  now rewrite (all_decimal_digits _ (all_digit_of_nat_width _ _)).
Qed.

(** [repr] of a number between [1e-4] and [1e16] has no exponent part. *)
Lemma all_decimal_repr_abs (d : Dec.t) :
  Dec.dm d <> 0 -> -5 < Dec.floor_log10 (Dec.abs d) < 16 ->
  Str.all is_decimal_char (repr_abs d) = true.
Proof.
  intros Hd Hfl. unfold repr_abs, Dec.is_zero.
  destruct (Z.eqb_spec (Dec.dm d) 0) as [|_]; [contradiction |].
  rewrite (repr_abs_decpt d Hd).
  set (ds := Str.of_nat (Dec.dm (Dec.strip_zeros (Dec.abs d)))).
  assert (Hds : Str.all is_decimal_char ds = true)
    by (apply all_decimal_digits, all_digit_of_nat).
  destruct (Z.leb_spec (Dec.floor_log10 (Dec.abs d) + 1) (-4)); [lia |].
  destruct (Z.ltb_spec 16 (Dec.floor_log10 (Dec.abs d) + 1)); [lia |].
  cbn [orb].
  destruct (_ <=? 0); [| destruct (_ <? _)].
  - rewrite !str_all_app, Hds, str_all_repeat by reflexivity. reflexivity.
  - rewrite !str_all_app, (str_all_take _ _ _ Hds), (str_all_drop _ _ _ Hds).
    reflexivity.
  - rewrite !str_all_app, Hds, str_all_repeat by reflexivity. reflexivity.
Qed.

(** A digit followed by digits and points: the text of a number printed
    without sign and without exponent. *)
Lemma decimal_text (s : string) :
  (exists (c : ascii) (r : string), s = String c r /\ Str.is_digit c = true) ->
  Str.all is_decimal_char s = true ->
  exists (c : ascii) (r : string),
    s = String c r /\ Str.is_digit c = true /\ Str.all is_decimal_char r = true.
Proof.
  intros (c & r & -> & Hc) Hall. cbn [Str.all] in Hall.
  apply andb_true_iff in Hall as [_ Hr]. now exists c, r.
Qed.

Lemma fixed_abs_decimal_text (d : Dec.t) (prec : Z) :
  exists (c : ascii) (r : string),
    fixed_abs d prec = String c r /\ Str.is_digit c = true /\
    Str.all is_decimal_char r = true.
Proof. apply decimal_text; [apply fixed_abs_head_digit | apply all_decimal_fixed_abs]. Qed.

Lemma repr_abs_decimal_text (d : Dec.t) :
  Dec.dm d <> 0 -> -5 < Dec.floor_log10 (Dec.abs d) < 16 ->
  exists (c : ascii) (r : string),
    repr_abs d = String c r /\ Str.is_digit c = true /\
    Str.all is_decimal_char r = true.
Proof.
  intros Hd Hfl.
  apply decimal_text; [apply repr_abs_head_digit | now apply all_decimal_repr_abs].
Qed.

(** ** Bounds on the exponent *)

Lemma dec_abs_dm_pos (d : Dec.t) : Dec.is_zero d = false -> 0 < Dec.dm (Dec.abs d).
Proof.
  unfold Dec.is_zero, Dec.abs. cbn [Dec.dm]. intros H. apply Z.eqb_neq in H. lia.
Qed.

Lemma dec_le_pos_nonzero (a d : Dec.t) :
  0 < Dec.dm a -> (a <= Dec.abs d)%dec -> Dec.is_zero d = false.
Proof.
  intros Ha H. unfold Dec.is_zero. apply Z.eqb_neq. intros Hz.
  unfold Dec.le, Dec.leb in H.
  set (c := Z.min (Dec.de a) (Dec.de d)).
  rewrite (dec_compare_at _ _ c) in H by (unfold c; cbn [Dec.de Dec.abs]; lia).
  cbn [Dec.dm Dec.de Dec.abs] in H. rewrite Hz in H.
  change (Z.abs 0) with 0 in H. rewrite Z.mul_0_l in H.
  pose proof (pow10_pos (Dec.de a - c) ltac:(unfold c; lia)) as Hp.
  destruct (Z.compare_spec (Dec.dm a * 10 ^ (Dec.de a - c)) 0);
    first [discriminate H | nia].
Qed.

Lemma in_range_nonzero (d : Dec.t) : in_range d -> Dec.is_zero d = false.
Proof. intros [H _]. apply (dec_le_pos_nonzero (Dec.mk 1 (-150))); [reflexivity | exact H]. Qed.

(** A number between 1 and 9.999 has the exponent 0, a number from 10 on a
    positive one and a number up to 0.999 a negative one. *)
Lemma exponent_unit (d : Dec.t) :
  (1 <= Dec.abs d)%dec -> (Dec.abs d <= 9.999)%dec -> Dec.floor_log10 (Dec.abs d) = 0.
Proof.
  intros Hlo Hhi.
  assert (Hz : Dec.is_zero d = false)
    by (apply (dec_le_pos_nonzero 1%dec); [reflexivity | exact Hlo]).
  pose proof (floor_log10_le 1%dec (Dec.abs d) eq_refl Hlo) as H1.
  pose proof (floor_log10_le (Dec.abs d) 9.999%dec (dec_abs_dm_pos d Hz) Hhi) as H2.
  change (Dec.floor_log10 1%dec) with 0 in H1.
  change (Dec.floor_log10 9.999%dec) with 0 in H2. lia.
Qed.

Lemma exponent_large (d : Dec.t) :
  (10 <= Dec.abs d)%dec -> 1 <= Dec.floor_log10 (Dec.abs d).
Proof.
  intros H. change 1 with (Dec.floor_log10 10%dec).
  apply floor_log10_le; [reflexivity | exact H].
Qed.

Lemma exponent_small (d : Dec.t) :
  Dec.is_zero d = false -> (Dec.abs d <= 0.999)%dec -> Dec.floor_log10 (Dec.abs d) <= -1.
Proof.
  intros Hz H. change (-1) with (Dec.floor_log10 0.999%dec).
  apply floor_log10_le; [now apply dec_abs_dm_pos | exact H].
Qed.

(** The sign of the exponent: negative exactly below 1. *)
Lemma exponent_sign (d : Dec.t) :
  Dec.is_zero d = false ->
  Dec.ltb (Dec.abs d) 1 = (Dec.floor_log10 (Dec.abs d) <? 0).
Proof.
  intros Hz.
  destruct (Dec.ltb (Dec.abs d) 1) eqn:E.
  - symmetry. apply Z.ltb_lt.
    unfold Dec.floor_log10. cbn [Dec.abs Dec.dm Dec.de].
    unfold Dec.ltb in E.
    rewrite (dec_compare_at _ _ (Z.min 0 (Dec.de d))) in E
      by (cbn [Dec.de Dec.abs dec_of_number]; lia).
    cbn [Dec.abs Dec.dm Dec.de] in E.
    change (Dec.dm 1%dec) with 1 in E. change (Dec.de 1%dec) with 0 in E.
    unfold Dec.is_zero in Hz. apply Z.eqb_neq in Hz.
    pose proof (ndigits_spec (Z.abs (Dec.dm d)) ltac:(lia)) as [Hlo Hhi].
    pose proof (ndigits_pos (Z.abs (Dec.dm d))) as Hk.
    set (k := Dec.ndigits (Z.abs (Dec.dm d))) in *.
    destruct (Z.compare_spec (Z.abs (Dec.dm d) * 10 ^ (Dec.de d - Z.min 0 (Dec.de d)))
                (1 * 10 ^ (0 - Z.min 0 (Dec.de d)))) as [|Hlt|]; try discriminate E.
    destruct (Z.le_gt_cases 0 (Dec.de d)) as [Hde|Hde].
    + rewrite Z.min_l in Hlt by lia. rewrite Z.sub_0_r in Hlt.
      change (1 * 10 ^ (0 - 0)) with 1 in Hlt.
      pose proof (pow10_pos (Dec.de d) Hde). nia.
    + rewrite Z.min_r in Hlt by lia. rewrite Z.sub_diag, Z.mul_1_r, Z.mul_1_l in Hlt.
      destruct (Z.le_gt_cases (- Dec.de d) (k - 1)) as [Hc|Hc]; [| lia].
      exfalso.
      assert (10 ^ (0 - Dec.de d) <= 10 ^ (k - 1)) by (apply Z.pow_le_mono_r; lia).
      lia.
  - symmetry. apply Z.ltb_ge.
    assert (H1 : (1 <= Dec.abs d)%dec).
    { unfold Dec.le. rewrite dec_leb_ltb, E. reflexivity. }
    pose proof (floor_log10_le 1%dec (Dec.abs d) eq_refl H1) as H.
    change (Dec.floor_log10 1%dec) with 0 in H. exact H.
Qed.

(** ** Inequalities with a margin *)

Lemma to_Q_mulZ (k : Z) (a : Dec.t) :
  (Dec.to_Q (Dec.mulZ k a) == inject_Z k * Dec.to_Q a)%Q.
Proof.
  unfold Dec.to_Q, Dec.mulZ. cbn [Dec.dm Dec.de]. rewrite inject_Z_mult. ring.
Qed.

Lemma to_Q_abs_nonneg (a : Dec.t) : (0 <= Dec.to_Q (Dec.abs a))%Q.
Proof. rewrite to_Q_abs. apply Qabs_nonneg. Qed.

Lemma pow10_Q_pos (k : Z) : (0 < 10 ^ k)%Q.
Proof. now apply Qpower_0_lt. Qed.

(** Equal numbers are within any margin of each other. *)
Lemma dec_close_of_eq (a b t : Dec.t) :
  (a == b)%dec -> (0 <= t)%dec -> (Dec.abs (Dec.sub a b) <= t)%dec.
Proof.
  intros Hab Ht. apply dec_eq_Q in Hab. apply dec_le_Q in Ht. apply dec_le_Q.
  rewrite to_Q_abs, to_Q_sub, Hab.
  setoid_replace (Dec.to_Q b - Dec.to_Q b)%Q with 0%Q by ring.
  cbn [Qabs Z.abs Qnum Qden] in *. exact Ht.
Qed.

Lemma dec_scale_abs_nonneg (a : Dec.t) (k : Z) : (0 <= Dec.scale (Dec.abs a) k)%dec.
Proof.
  apply dec_le_0. unfold Dec.scale, Dec.abs. cbn [Dec.dm]. lia.
Qed.

(** * The examples of the docstring *)

Example doc_str_electron_mass :
  Uncertain.__str__ electron_mass = Ret "+5.1099895000(15) × 10^-1".
Proof. reflexivity. Qed.

Example doc_zero_uncertainty :
  Uncertain.__str__ (Uncertain.__init__ (PyFloat 3.14159) (PyInt 0)) = Ret "+3.14159".
Proof. reflexivity. Qed.

Example doc_dominant :
  Uncertain.__str__ (Uncertain.__init__ (PyInt 1) (PyInt 10)) = Ret "(+1 ± 10)".
Proof. reflexivity. Qed.

Example doc_u1 :
  Uncertain.__format__ electron_mass "u1" = Ret "5.109989500(2) × 10^-1".
Proof. reflexivity. Qed.

Example doc_precision :
  Uncertain.__format__ electron_mass ".3" = Ret "5.110(0) × 10^-1".
Proof. reflexivity. Qed.

Example doc_eu3 :
  Uncertain.__format__ electron_mass "eu3" = Ret "5.10998950000(150)e-1".
Proof. reflexivity. Qed.

Example doc_plus_eu3 :
  Uncertain.__format__ electron_mass "+eu3" = Ret "+5.10998950000(150)e-1".
Proof. reflexivity. Qed.

(** The texts that the demonstration of the source parses. *)
Example main_capital_E :
  Uncertain.from_string "9.1093837015(28)E-31"
  = Ret (Uncertain.mk (PyFloat 9.1093837015e-31) (PyFloat 28e-41)).
Proof. reflexivity. Qed.

Example main_times :
  Uncertain.from_string "1.67262192369(51) × 10^-27"
  = Ret (Uncertain.mk (PyFloat 1.67262192369e-27) (PyFloat 51e-38)).
Proof. reflexivity. Qed.

Example main_plus_minus :
  Uncertain.from_string "(1836.15267343± 0.00000011)"
  = Ret (Uncertain.mk (PyFloat 1836.15267343) (PyFloat 0.00000011)).
Proof. reflexivity. Qed.

Example main_times_no_space :
  Uncertain.from_string "7.2973525693(11)×10^-3"
  = Ret (Uncertain.mk (PyFloat 7.2973525693e-3) (PyFloat 11e-13)).
Proof. reflexivity. Qed.

(** * The claims *)

(** ** Failures of [__format__] and [from_string] *)

(** C2 (the code fails where the claim promises a string).  A mean of 0, as an
    [int] or as a [float], makes [__format__] raise [OverflowError] whatever
    the uncertainty and the spec: [log10] of 0 is [-inf] and [int] refuses
    it at line 147. *)
Theorem C2_zero_mean_raises (u : num) (format_spec : string) (e : Z) :
  Uncertain.__format__ (Uncertain.__init__ (PyInt 0) u) format_spec
    = Raise (OverflowError "cannot convert float infinity to integer") /\
  Uncertain.__format__ (Uncertain.__init__ (PyFloat (Dec.mk 0 e)) u) format_spec
    = Raise (OverflowError "cannot convert float infinity to integer") /\
  Uncertain.__str__ (Uncertain.__init__ (PyFloat 0.0) (PyFloat 0.1))
    = Raise (OverflowError "cannot convert float infinity to integer").
Proof.
  repeat split; unfold Uncertain.__str__; rewrite format_unfold; reflexivity.
Qed.

(** C4 (the code fails where the claim, and the docstring, promise e-31).
    [from_string] looks for a capital [E] only; with the lowercase [e] of the
    docstring the text goes to the parenthetical-digits dialect, which reads
    the mean up to the parenthesis and the digits inside it and drops what
    follows the closing parenthesis.  The result is 9.1093837015 with
    uncertainty 2.8e-9; the same text with a capital [E] gives the value
    the claim describes. *)
Theorem C4_lowercase_e_exponent_dropped :
  Uncertain.from_string "9.1093837015(28)e-31"
    = Ret (Uncertain.mk (PyFloat 9.1093837015) (PyFloat 28e-10)) /\
  Dec.eqb 9.1093837015 9.1093837015e-31 = false /\
  Dec.eqb 28e-10 2.8e-40 = false /\
  Uncertain.from_string "9.1093837015(28)E-31"
    = Ret (Uncertain.mk (PyFloat 9.1093837015e-31) (PyFloat 28e-41)) /\
  Dec.eqb 28e-41 2.8e-40 = true.
Proof. repeat split; vm_compute; reflexivity. Qed.

(** ** Zero uncertainty *)

Lemma plain_has_no_indicator (s : string) :
  Str.all is_plain s = true ->
  Str.contains "(" s = false /\ Str.contains ")" s = false /\
  Str.contains "±" s = false.
Proof.
  intros H. repeat split; apply str_contains_none;
    apply (str_all_not_mem is_plain); auto.
Qed.

Lemma all_plain_zero_rendering (d : Dec.t) (f_sign : string) (e : Z) (E : bool) :
  Str.all is_plain (format_float d f_sign ++ _exponent e "+" E) = true.
Proof.
  rewrite str_all_app, all_plain_exponent, andb_true_r.
  apply all_plain_numeric, all_numeric_format_float.
Qed.

(** ** The exponent suffix *)



(** ** Both options at once *)

Lemma dot3u2_option_dot : spec_option "." ".3u2" 3.
Proof. exists "", "3", "u2". repeat split; discriminate. Qed.

Lemma dot3u2_option_u : spec_option "u" ".3u2" 2.
Proof. exists ".3", "2", "". repeat split; discriminate. Qed.

(** C1 as stated fails: with uncertainty 0 (or an uncertainty of at least
    [|mean|]) a spec with both options is accepted and a string is returned. *)
Lemma C1_counterexample :
  spec_option "." ".3u2" 3 /\ spec_option "u" ".3u2" 2 /\
  Uncertain.__format__ (Uncertain.__init__ (PyFloat 3.14159) (PyInt 0)) ".3u2"
    = Ret "3.14159" /\
  Uncertain.__format__ (Uncertain.__init__ (PyInt 1) (PyInt 10)) ".3u2"
    = Ret "(1.000 ± 10.000)".
Proof.
  split; [exact dot3u2_option_dot |]. split; [exact dot3u2_option_u |].
  split; reflexivity.
Qed.

(** ** Which rendering is chosen *)


Lemma numeric_dominant_part (x : num) (f_sign : string) (N : Z) :
  Str.all is_numeric
    (if N =? 0 then format_num x f_sign
     else sign_str (Dec.dm (to_dec x) <? 0) f_sign ++ fixed_abs (to_dec x) N) = true.
Proof.
  destruct (N =? 0); [apply all_numeric_format_num |].
  now rewrite str_all_app, all_numeric_sign_str, all_numeric_fixed_abs.
Qed.

(** The two shapes of an output of lines 176-217. *)
Lemma format_base_shape (m u : num) (format_spec f_sign out : string) :
  Dec.is_zero (to_dec u) = false ->
  Uncertain.format_base (base_of (Uncertain.__init__ m u)) format_spec f_sign = Ret out ->
  ((Dec.abs (to_dec m) <= Dec.abs (to_dec u))%dec /\
   exists a b : string,
     out = "(" ++ a ++ " ± " ++ b ++ ")" /\
     Str.all is_numeric a = true /\ Str.all is_numeric b = true)
  \/
  ((Dec.abs (to_dec u) < Dec.abs (to_dec m))%dec /\
   exists a w : string,
     out = a ++ "(" ++ w ++ ")" /\
     Str.all is_numeric a = true /\ Str.all Str.is_digit w = true).
Proof.
  intros Hu H.
  pose proof (base_of_uncertainty_pos m u Hu) as Hpos.
  pose proof (base_of_dominant m u) as Hdom. cbv zeta in Hdom.
  set (self := base_of (Uncertain.__init__ m u)) in *.
  destruct (int_of_match (re_search_digits "." format_spec)) as [N|e] eqn:HN.
  2:{ unfold Uncertain.format_base in H. rewrite HN in H. discriminate H. }
  destruct (Dec.leb (Dec.abs (to_dec m)) (Dec.abs (to_dec u))) eqn:Hle.
  - left. split; [exact Hle |].
    rewrite (format_base_dominant _ _ _ N HN Hdom) in H. injection H as <-.
    eexists. eexists. split; [reflexivity |]. split; apply numeric_dominant_part.
  - right. split.
    { unfold Dec.lt. rewrite dec_leb_ltb in Hle. now apply negb_false_iff in Hle. }
    destruct (int_of_match (re_search_digits "u" format_spec)) as [M|e] eqn:HM.
    2:{ unfold Uncertain.format_base in H. rewrite HN in H. cbn [bind] in H.
        rewrite Hdom in H. unfold int_floor_log10, Dec.is_zero in H.
        destruct (Z.eqb_spec (Dec.dm (to_dec (Uncertain.uncertainty self))) 0); [lia |].
        destruct (Z.ltb_spec (Dec.dm (to_dec (Uncertain.uncertainty self))) 0); [lia |].
        cbn [bind] in H. rewrite HM in H. discriminate H. }
    rewrite (format_base_normal _ _ _ N M HN HM Hdom Hpos) in H.
    destruct (negb (N =? 0) && negb (M =? 0)); [discriminate H |].
    destruct (format_f (Uncertain.mean self) f_sign (digits_of self N M))
      as [a|] eqn:Hf; [| discriminate H].
    cbn [bind] in H. injection H as <-.
    exists a, (format_int (indicator_of self N M) "").
    split; [reflexivity |]. split; [exact (all_numeric_format_f _ _ _ _ Hf) |].
    rewrite format_int_nonneg by (apply indicator_of_nonneg; lia).
    apply all_digit_of_nat.
Qed.

Lemma is_digits_form_plain (c : ascii) : is_plain c = true -> is_digits_form c = true.
Proof. intros H. unfold is_digits_form. now rewrite H. Qed.

Lemma is_digits_form_numeric (c : ascii) : is_numeric c = true -> is_digits_form c = true.
Proof. intros H. apply is_digits_form_plain, is_numeric_plain, H. Qed.

Lemma is_digits_form_digit (c : ascii) : Str.is_digit c = true -> is_digits_form c = true.
Proof. intros H. apply is_digits_form_numeric, is_digit_numeric, H. Qed.

(** ** The indicator in parentheses *)

Lemma base_of_exponent_0 (self : Uncertain.t) : exponent_of self = 0 -> base_of self = self.
Proof. intros H. unfold base_of. now rewrite H. Qed.

(** ** Factoring the exponent out *)

(** C5 (the code fails where the claim, and the comments of lines 138-143 and
    174, promise a mantissa below 10).  The exponent is taken from the mean
    before it is rounded for display, and the rounded text is not normalised
    again: 99.99 with uncertainty 1 and the spec [.1] has the exponent 1
    and the mantissa 9.999, which one decimal displays as 10.0; the number in
    front of the suffix is then not below 10. *)
Theorem C5_rounding_carry :
  (10 <= Dec.abs 99.99)%dec /\
  Uncertain.__format__ (Uncertain.__init__ (PyFloat 99.99) (PyInt 1)) ".1"
    = Ret "10.0(1) × 10^+1" /\
  displayed_mantissa "10.0(1)" = Ret 10.0%dec /\
  Dec.ltb (Dec.abs 10.0) 10 = false.
Proof. repeat split; reflexivity. Qed.

(** ** The default rendering read back *)

Lemma py_float_format_num (x : num) (f_sign : string) :
  Dec.dm (to_dec x) <> 0 ->
  exists v : Dec.t, py_float (format_num x f_sign) = Ret v /\ (v == to_dec x)%dec.
Proof.
  intros Hx. destruct x as [z|d]; cbn [format_num to_dec] in *.
  - exists (Dec.of_Z z). split; [| apply dec_eq_refl].
    unfold format_int. rewrite <- (str_app_nil_r (Str.of_nat _)).
    rewrite (py_float_int_gen _ _ "" 0)
      by (first [apply sign_str_is_sign | apply of_nat_nonempty
                | apply all_digit_of_nat | left; split; reflexivity]).
    rewrite sign_str_is_minus, digits_val_of_nat, apply_sign_abs by lia.
    reflexivity.
  - unfold format_float.
    destruct (py_float_repr d (sign_str (Dec.dm d <? 0) f_sign)
                (sign_str_is_sign _ _) Hx) as (v & Hv & Heq).
    exists v. split; [exact Hv |].
    rewrite sign_str_is_minus, apply_sign_abs in Heq. now destruct d.
Qed.

(** [__str__] in the uncertainty-dominant case of a value with exponent 0. *)
Lemma str_dominant_form (m u : num) :
  Dec.is_zero (to_dec m) = false ->
  Dec.is_zero (to_dec u) = false ->
  (Dec.abs (to_dec m) <= Dec.abs (to_dec u))%dec ->
  exponent_of (Uncertain.__init__ m u) = 0 ->
  Uncertain.__str__ (Uncertain.__init__ m u) =
  Ret ("(" ++ format_num m "+" ++ " ± " ++ format_num (np_abs u) "" ++ ")").
Proof.
  intros Hm Hu Hle Hx. unfold Uncertain.__str__.
  rewrite format_unfold_base by (try rewrite init_uncertainty_is_zero; assumption).
  pose proof (base_of_dominant m u) as Hdom. cbv zeta in Hdom.
  unfold Dec.le in Hle. rewrite Hle in Hdom.
  rewrite (format_base_dominant (base_of (Uncertain.__init__ m u)) "+u2"
             (Uncertain.f_sign_of "+u2") 0 eq_refl Hdom).
  rewrite (base_of_exponent_0 _ Hx), Hx. cbn [bind Z.eqb].
  change (_exponent 0 "+" _) with "". rewrite str_app_nil_r. reflexivity.
Qed.


(** ** Zero uncertainty: the rendering *)

(** The sign in front of a printed mean. *)
Lemma sign_of_spec (d : Dec.t) (format_spec : string) :
  sign_str (Dec.dm d <? 0) (Uncertain.f_sign_of format_spec)
  = (if Dec.dm d <? 0 then "-"
     else if Str.contains "+" format_spec || (format_spec =? "")%string
          then "+" else "").
Proof.
  unfold sign_str, Uncertain.f_sign_of.
  destruct (Dec.dm d <? 0); [reflexivity |].
  now destruct (Str.contains "+" format_spec || (format_spec =? "")%string).
Qed.

(** The suffix of a non-zero exponent, with the sign read off the mean. *)
Lemma exponent_suffix_of_mean (d : Dec.t) (E : bool) :
  Dec.is_zero d = false -> Dec.floor_log10 (Dec.abs d) <> 0 ->
  _exponent (Dec.floor_log10 (Dec.abs d)) "+" E =
  (if E then "e" else " × 10^")
    ++ (if Dec.ltb (Dec.abs d) 1 then "-" else "+")
    ++ Str.of_nat (Z.abs (Dec.floor_log10 (Dec.abs d))).
Proof.
  intros Hz Hx. rewrite exponent_suffix by exact Hx. rewrite (exponent_sign d Hz).
  destruct (Z.ltb_spec 0 (Dec.floor_log10 (Dec.abs d))),
           (Z.ltb_spec (Dec.floor_log10 (Dec.abs d)) 0); try lia; reflexivity.
Qed.

(** C6.  With an uncertainty of exactly 0 every output of [__format__], for
    every spec, is the mantissa with its sign followed by the exponent suffix
    and nothing else: the sign of the mean ([-], or [+] when the spec forces
    it), a number written with digits and a decimal point, and then either
    nothing or the exponent marker, a sign and digits.  It has no parenthesis
    and no plus-minus sign.  The suffix is absent for a mean between 1 and
    9.999 and present for a mean from 10 on or up to 0.999.  The options
    [.<N>] and [u<M>] of the spec are not read: the return of line 160 comes
    first.

    For a mean in the range of binary64 that is not within a billionth
    below a power of ten, a text is returned, its suffix carries
    [floor (log10 |mean|)], and the number in front of it, times the power
    of ten, is the mean to twelve digits. *)
Theorem C6_zero_uncertainty (m u : num) (format_spec : string) :
  Dec.is_zero (to_dec u) = true ->
  let x := Dec.floor_log10 (Dec.abs (to_dec m)) in
  let sg := if Dec.dm (to_dec m) <? 0 then "-"
            else if Str.contains "+" format_spec || (format_spec =? "")%string
                 then "+" else "" in
  let marker := if Str.contains "e" format_spec then "e" else " × 10^" in
  (forall out : string,
      Uncertain.__format__ (Uncertain.__init__ m u) format_spec = Ret out ->
      Str.contains "(" out = false /\ Str.contains ")" out = false /\
      Str.contains "±" out = false /\
      exists (c : ascii) (D S : string),
        out = sg ++ String c D ++ S /\
        Str.is_digit c = true /\ Str.all is_decimal_char D = true /\
        (S = "" \/
         exists ds : string,
           S = marker ++ (if Dec.ltb (Dec.abs (to_dec m)) 1 then "-" else "+") ++ ds /\
           ds <> "" /\ Str.all Str.is_digit ds = true) /\
        ((1 <= Dec.abs (to_dec m))%dec -> (Dec.abs (to_dec m) <= 9.999)%dec -> S = "") /\
        ((10 <= Dec.abs (to_dec m))%dec \/ (Dec.abs (to_dec m) <= 0.999)%dec ->
         S <> "")) /\
  (in_range (to_dec m) -> small_int m -> clear_of_next_power (to_dec m) ->
   exists (c : ascii) (D : string) (v : Dec.t),
     Uncertain.__format__ (Uncertain.__init__ m u) format_spec
     = Ret (sg ++ String c D
               ++ (if x =? 0 then ""
                   else marker ++ (if 0 <? x then "+" else "-")
                               ++ Str.of_nat (Z.abs x))) /\
     Str.is_digit c = true /\ Str.all is_decimal_char D = true /\
     py_float (String c D) = Ret v /\
     (Dec.abs (Dec.sub (Dec.scale v x) (Dec.abs (to_dec m)))
      <= Dec.scale (Dec.abs (to_dec m)) (-12))%dec).
Proof.
  intros Hu x sg marker.
  set (self := Uncertain.__init__ m u).
  set (mant := Dec.scale (to_dec m) (- x)).
  assert (Hfmt : Dec.is_zero (to_dec m) = false ->
                 Uncertain.__format__ self format_spec
                 = Ret (sg ++ repr_abs mant
                           ++ _exponent x "+" (Str.contains "e" format_spec))).
  { intros Hm. rewrite format_unfold. unfold self.
    rewrite init_uncertainty_is_zero, Hu.
    cbn [Uncertain.mean Uncertain.__init__]. rewrite Hm.
    unfold format_float, exponent_of. cbn [Uncertain.mean Uncertain.__init__].
    fold x. fold mant. rewrite sign_of_spec.
    unfold mant at 1. cbn [Dec.scale Dec.dm]. fold sg.
    now rewrite str_app_assoc. }
  assert (Hmant : Dec.is_zero (to_dec m) = false ->
                  Dec.dm mant <> 0 /\ Dec.floor_log10 (Dec.abs mant) = 0).
  { intros Hm. split.
    - unfold mant, Dec.scale. cbn [Dec.dm]. unfold Dec.is_zero in Hm.
      now apply Z.eqb_neq in Hm.
    - unfold mant, x, Dec.floor_log10, Dec.scale, Dec.abs. cbn [Dec.dm Dec.de]. lia. }
  split.
  - intros out Hout.
    destruct (Dec.is_zero (to_dec m)) eqn:Hm.
    { rewrite format_unfold in Hout. unfold self in Hout.
      cbn [Uncertain.mean Uncertain.__init__] in Hout. rewrite Hm in Hout.
      discriminate Hout. }
    specialize (Hfmt eq_refl). destruct (Hmant eq_refl) as [Hd Hfl].
    fold self in Hout. rewrite Hfmt in Hout. injection Hout as <-.
    destruct (repr_abs_decimal_text mant Hd ltac:(lia)) as (c & D & HD & Hc & HDall).
    assert (Hplain : Str.all is_plain
                       (sg ++ repr_abs mant
                           ++ _exponent x "+" (Str.contains "e" format_spec)) = true).
    { rewrite !str_all_app, all_plain_exponent, andb_true_r.
      rewrite (all_plain_numeric _ (all_numeric_repr_abs mant)), andb_true_r.
      unfold sg. destruct (Dec.dm (to_dec m) <? 0); [reflexivity |].
      now destruct (Str.contains "+" format_spec || (format_spec =? "")%string). }
    destruct (plain_has_no_indicator _ Hplain) as (H1 & H2 & H3).
    split; [exact H1 |]. split; [exact H2 |]. split; [exact H3 |].
    exists c, D, (_exponent x "+" (Str.contains "e" format_spec)).
    rewrite HD. split; [reflexivity |]. split; [exact Hc |]. split; [exact HDall |].
    split; [| split].
    + destruct (Z.eq_dec x 0) as [E | E]; [left; now rewrite E |].
      right. exists (Str.of_nat (Z.abs x)). split; [| split].
      * unfold x. now rewrite exponent_suffix_of_mean.
      * apply of_nat_nonempty.
      * apply all_digit_of_nat.
    + intros Hlo Hhi. unfold x. now rewrite exponent_unit.
    + intros Hcase.
      assert (Hx : x <> 0).
      { destruct Hcase as [H | H].
        - pose proof (exponent_large _ H). unfold x. lia.
        - pose proof (exponent_small _ Hm H). unfold x. lia. }
      unfold x. rewrite exponent_suffix_of_mean by (assumption || exact Hx).
      destruct (Str.contains "e" format_spec); discriminate.
  - intros Hin _ _.
    pose proof (in_range_nonzero _ Hin) as Hm.
    specialize (Hfmt Hm). destruct (Hmant Hm) as [Hd Hfl].
    destruct (repr_abs_decimal_text mant Hd ltac:(lia)) as (c & D & HD & Hc & HDall).
    destruct (py_float_repr mant "" (or_introl eq_refl) Hd) as (v & Hv & Heq).
    exists c, D, v. rewrite <- HD.
    split; [| split; [exact Hc | split; [exact HDall | split; [exact Hv |]]]].
    + rewrite Hfmt. do 3 f_equal.
      destruct (Z.eqb_spec x 0) as [E | E]; [now rewrite E |].
      now apply exponent_suffix.
    + apply dec_close_of_eq; [| apply dec_scale_abs_nonneg].
      change (Dec.mk (apply_sign ("" =? "-")%string (Z.abs (Dec.dm mant))) (Dec.de mant))
        with (Dec.abs mant) in Heq.
      apply (dec_scale_eq _ _ x) in Heq.
      rewrite <- dec_abs_scale in Heq. unfold mant in Heq.
      rewrite dec_scale_inv in Heq.
      exact Heq.
Qed.

Lemma C6_zero_uncertainty_witness :
  (Str.contains "(" "+5.0 × 10^+2" = false /\
   Str.contains ")" "+5.0 × 10^+2" = false /\
   Str.contains "±" "+5.0 × 10^+2" = false /\
   exists (c : ascii) (D S : string),
     "+5.0 × 10^+2" = "+" ++ String c D ++ S /\
     Str.is_digit c = true /\ Str.all is_decimal_char D = true /\
     (S = "" \/
      exists ds : string,
        S = " × 10^" ++ "+" ++ ds /\ ds <> "" /\ Str.all Str.is_digit ds = true) /\
     ((1 <= 500.0)%dec -> (500.0 <= 9.999)%dec -> S = "") /\
     ((10 <= 500.0)%dec \/ (500.0 <= 0.999)%dec -> S <> "")) /\
  exists (c : ascii) (D : string) (v : Dec.t),
    Uncertain.__format__ (Uncertain.__init__ (PyFloat 500.0) (PyInt 0)) "+.3u2"
    = Ret ("+" ++ String c D ++ " × 10^" ++ "+" ++ "2") /\
    Str.is_digit c = true /\ Str.all is_decimal_char D = true /\
    py_float (String c D) = Ret v /\
    (Dec.abs (Dec.sub (Dec.scale v 2) 500.0) <= Dec.scale 500.0 (-12))%dec.
Proof.
  pose proof (C6_zero_uncertainty (PyFloat 500.0) (PyInt 0) "+.3u2" eq_refl)
    as [Hshape Hvalue].
  split.
  - apply (Hshape "+5.0 × 10^+2"). reflexivity.
  - apply Hvalue.
    + split; reflexivity.
    + exact I.
    + reflexivity.
Defined.

(** ** Which rendering is chosen: the two forms *)

Lemma to_Q_abs_pos (d : Dec.t) : Dec.is_zero d = false -> (0 < Dec.to_Q (Dec.abs d))%Q.
Proof.
  intros Hz. unfold Dec.to_Q, Dec.abs. cbn [Dec.dm Dec.de].
  apply Qmult_lt_0_compat; [| apply pow10_Q_pos].
  change 0%Q with (inject_Z 0). rewrite <- Zlt_Qlt.
  unfold Dec.is_zero in Hz. apply Z.eqb_neq in Hz. lia.
Qed.

(** An uncertainty clearly below the mean is below it. *)
Lemma clearly_below_lt (u m : Dec.t) :
  Dec.is_zero m = false -> clearly_below u m -> (Dec.abs u < Dec.abs m)%dec.
Proof.
  intros Hm H. unfold clearly_below in H. apply dec_le_Q in H. apply dec_lt_Q.
  rewrite !to_Q_mulZ in H. pose proof (to_Q_abs_pos m Hm) as Hpos.
  change (inject_Z (10 ^ 9)) with 1000000000%Q in H.
  change (inject_Z (10 ^ 9 - 1)) with 999999999%Q in H.
  lra.
Qed.

(** A number with exponent 0 printed by [format]: its sign, a digit, and
    digits and points. *)
Lemma format_num_decimal_text (x : num) (f_sign : string) :
  Dec.dm (to_dec x) <> 0 -> Dec.floor_log10 (Dec.abs (to_dec x)) = 0 ->
  exists (c : ascii) (r : string),
    format_num x f_sign = sign_str (Dec.dm (to_dec x) <? 0) f_sign ++ String c r /\
    Str.is_digit c = true /\ Str.all is_decimal_char r = true.
Proof.
  intros Hd Hfl. destruct x as [z | d]; cbn [format_num to_dec Dec.of_Z Dec.dm] in *.
  - unfold format_int.
    destruct (decimal_text (Str.of_nat (Z.abs z)) (of_nat_head_digit _)
                (all_decimal_digits _ (all_digit_of_nat _))) as (c & r & -> & Hc & Hr).
    now exists c, r.
  - unfold format_float.
    destruct (repr_abs_decimal_text d Hd ltac:(lia)) as (c & r & -> & Hc & Hr).
    now exists c, r.
Qed.

(** A positive number printed by [format] without a forced sign: a digit, and
    the characters of a number. *)
Lemma format_num_unsigned_text (x : num) :
  0 < Dec.dm (to_dec x) ->
  exists (c : ascii) (r : string),
    format_num x "" = String c r /\ Str.is_digit c = true /\
    Str.all is_numeric r = true.
Proof.
  intros Hd. destruct (format_num_head_digit x "") as (c & r & Heq & Hc).
  pose proof (all_numeric_format_num x "") as Hall. rewrite Heq in Hall.
  destruct (Z.ltb_spec (Dec.dm (to_dec x)) 0); [lia |].
  cbn [sign_str String.eqb append] in Heq, Hall.
  cbn [Str.all] in Hall. apply andb_true_iff in Hall as [_ Hr].
  now exists c, r.
Qed.

Lemma base_of_mean_dm (self : Uncertain.t) :
  Dec.dm (to_dec (Uncertain.mean (base_of self))) = Dec.dm (to_dec (Uncertain.mean self)).
Proof. rewrite base_of_mean. reflexivity. Qed.

Lemma base_of_mean_exponent (self : Uncertain.t) :
  Dec.floor_log10 (Dec.abs (to_dec (Uncertain.mean (base_of self)))) = 0.
Proof. apply (exponent_of_base self). Qed.

(** The two forms of an output of lines 176-217, in full. *)
Lemma format_base_forms (m u : num) (format_spec out : string) :
  Dec.is_zero (to_dec m) = false ->
  Dec.is_zero (to_dec u) = false ->
  Uncertain.format_base (base_of (Uncertain.__init__ m u)) format_spec
                        (Uncertain.f_sign_of format_spec) = Ret out ->
  let sg := if Dec.dm (to_dec m) <? 0 then "-"
            else if Str.contains "+" format_spec || (format_spec =? "")%string
                 then "+" else "" in
  ((Dec.abs (to_dec m) <= Dec.abs (to_dec u))%dec /\
   exists (c1 c2 : ascii) (A B : string),
     out = "(" ++ sg ++ String c1 A ++ " ± " ++ String c2 B ++ ")" /\
     Str.is_digit c1 = true /\ Str.all is_decimal_char A = true /\
     Str.is_digit c2 = true /\ Str.all is_numeric B = true)
  \/
  ((Dec.abs (to_dec u) < Dec.abs (to_dec m))%dec /\
   exists (c1 c2 : ascii) (A W : string),
     out = sg ++ String c1 A ++ "(" ++ String c2 W ++ ")" /\
     Str.is_digit c1 = true /\ Str.all is_decimal_char A = true /\
     Str.is_digit c2 = true /\ Str.all Str.is_digit W = true).
Proof.
  intros Hm Hu H sg.
  pose proof (base_of_uncertainty_pos m u Hu) as Hpos.
  pose proof (base_of_dominant m u) as Hdom. cbv zeta in Hdom.
  pose proof (base_of_mean_dm (Uncertain.__init__ m u)) as Hdm.
  pose proof (base_of_mean_exponent (Uncertain.__init__ m u)) as Hfl.
  cbn [Uncertain.__init__ Uncertain.mean] in Hdm.
  assert (Hnz : Dec.dm (to_dec m) <> 0)
    by (unfold Dec.is_zero in Hm; now apply Z.eqb_neq in Hm).
  set (self := base_of (Uncertain.__init__ m u)) in *.
  assert (Hsg : sign_str (Dec.dm (to_dec (Uncertain.mean self)) <? 0)
                         (Uncertain.f_sign_of format_spec) = sg).
  { rewrite sign_of_spec, Hdm. reflexivity. }
  destruct (int_of_match (re_search_digits "." format_spec)) as [N|e] eqn:HN.
  2:{ unfold Uncertain.format_base in H. rewrite HN in H. discriminate H. }
  pose proof (int_of_match_nonneg _ _ _ HN) as HN0.
  destruct (Dec.leb (Dec.abs (to_dec m)) (Dec.abs (to_dec u))) eqn:Hle.
  - left. split; [exact Hle |].
    rewrite (format_base_dominant _ _ _ N HN Hdom) in H. injection H as <-.
    destruct (Z.eqb_spec N 0) as [HN' | HN'].
    + destruct (format_num_decimal_text (Uncertain.mean self)
                  (Uncertain.f_sign_of format_spec) ltac:(lia) Hfl)
        as (c1 & A & -> & Hc1 & HA).
      destruct (format_num_unsigned_text (Uncertain.uncertainty self) Hpos)
        as (c2 & B & -> & Hc2 & HB).
      exists c1, c2, A, B. rewrite Hsg.
      split; [now str_norm |]. now repeat split.
    + destruct (fixed_abs_decimal_text (to_dec (Uncertain.mean self)) N)
        as (c1 & A & -> & Hc1 & HA).
      destruct (fixed_abs_decimal_text (to_dec (Uncertain.uncertainty self)) N)
        as (c2 & B & -> & Hc2 & HB).
      exists c1, c2, A, B. rewrite Hsg.
      destruct (Z.ltb_spec (Dec.dm (to_dec (Uncertain.uncertainty self))) 0); [lia |].
      cbn [sign_str String.eqb].
      split; [now str_norm |].
      repeat split; try assumption.
      revert HB. apply str_all_impl. exact is_decimal_numeric.
  - right. split.
    { unfold Dec.lt. rewrite dec_leb_ltb in Hle. now apply negb_false_iff in Hle. }
    destruct (int_of_match (re_search_digits "u" format_spec)) as [M|e] eqn:HM.
    2:{ unfold Uncertain.format_base in H. rewrite HN in H. cbn [bind] in H.
        rewrite Hdom in H. unfold int_floor_log10, Dec.is_zero in H.
        destruct (Z.eqb_spec (Dec.dm (to_dec (Uncertain.uncertainty self))) 0); [lia |].
        destruct (Z.ltb_spec (Dec.dm (to_dec (Uncertain.uncertainty self))) 0); [lia |].
        cbn [bind] in H. rewrite HM in H. discriminate H. }
    rewrite (format_base_normal _ _ _ N M HN HM Hdom Hpos) in H.
    destruct (negb (N =? 0) && negb (M =? 0)); [discriminate H |].
    destruct (format_f (Uncertain.mean self) (Uncertain.f_sign_of format_spec)
                (digits_of self N M)) as [a|] eqn:Hf; [| discriminate H].
    cbn [bind] in H. injection H as <-.
    apply format_f_inv in Hf. destruct Hf as [Hp ->].
    rewrite format_int_nonneg by (apply indicator_of_nonneg; lia).
    destruct (fixed_abs_decimal_text (to_dec (Uncertain.mean self)) (digits_of self N M))
      as (c1 & A & -> & Hc1 & HA).
    pose proof (all_digit_of_nat (indicator_of self N M)) as HW.
    destruct (of_nat_head_digit (indicator_of self N M)) as (c2 & W & HWeq & Hc2).
    rewrite HWeq in HW |- *. cbn [Str.all] in HW. apply andb_true_iff in HW as [_ HW].
    exists c1, c2, A, W. rewrite Hsg.
    split; [now str_norm |]. now repeat split.
Qed.

Lemma is_digits_form_decimal (c : ascii) :
  is_decimal_char c = true -> is_digits_form c = true.
Proof. intros H. apply is_digits_form_numeric, is_decimal_numeric, H. Qed.

(** C7, as the code has it.  Take a mean and an uncertainty in the range of
    binary64 (an [int] below [2 ^ 53]), and a text that [__format__] returns.
    - If [|mean| <= uncertainty] the text is the plus-minus form: an opening
      parenthesis, the sign of the mean, the digits of the mean, the
      plus-minus sign between two spaces, the uncertainty (a number that
      begins with a digit) and the closing parenthesis, followed by the
      exponent suffix.
    - If the uncertainty is below [|mean|] by a billionth of [|mean|] at
      least, the text is the digits form: the sign and the digits of the
      mean, and the digits of the indicator in parentheses, followed by the
      exponent suffix; it has no plus-minus sign. *)
Theorem C7_rendering_chosen (m u : num) (format_spec out : string) :
  in_range (to_dec m) -> in_range (to_dec u) -> small_int m -> small_int u ->
  Uncertain.__format__ (Uncertain.__init__ m u) format_spec = Ret out ->
  let sg := if Dec.dm (to_dec m) <? 0 then "-"
            else if Str.contains "+" format_spec || (format_spec =? "")%string
                 then "+" else "" in
  ((Dec.abs (to_dec m) <= Dec.abs (to_dec u))%dec ->
   Str.contains "±" out = true /\
   exists (c1 c2 : ascii) (A B S : string),
     out = "(" ++ sg ++ String c1 A ++ " ± " ++ String c2 B ++ ")" ++ S /\
     Str.is_digit c1 = true /\ Str.all is_decimal_char A = true /\
     Str.is_digit c2 = true /\ Str.all is_numeric B = true /\
     Str.all is_plain S = true) /\
  (clearly_below (to_dec u) (to_dec m) ->
   Str.contains "±" out = false /\
   exists (c1 c2 : ascii) (A W S : string),
     out = sg ++ String c1 A ++ "(" ++ String c2 W ++ ")" ++ S /\
     Str.is_digit c1 = true /\ Str.all is_decimal_char A = true /\
     Str.is_digit c2 = true /\ Str.all Str.is_digit W = true /\
     Str.all is_plain S = true).
Proof.
  intros Hmr Hur _ _ H sg.
  pose proof (in_range_nonzero _ Hmr) as Hm.
  pose proof (in_range_nonzero _ Hur) as Hu.
  rewrite format_unfold_base in H
    by (try rewrite init_uncertainty_is_zero; assumption).
  destruct (Uncertain.format_base _ format_spec (Uncertain.f_sign_of format_spec))
    as [stem|] eqn:Hb; [| discriminate H].
  cbn [bind] in H. injection H as <-.
  set (sfx := _exponent _ _ _).
  assert (Hsfx : Str.all is_plain sfx = true) by apply all_plain_exponent.
  assert (Hsgf : Str.all is_digits_form sg = true).
  { unfold sg. destruct (Dec.dm (to_dec m) <? 0); [reflexivity |].
    now destruct (Str.contains "+" format_spec || (format_spec =? "")%string). }
  assert (Hsgm : Str.mem "194" sg = false).
  { apply (str_all_not_mem is_digits_form); [exact Hsgf | reflexivity]. }
  destruct (format_base_forms m u format_spec stem Hm Hu Hb)
    as [(Hle & c1 & c2 & A & B & -> & Hc1 & HA & Hc2 & HB)
       | (Hlt & c1 & c2 & A & W & -> & Hc1 & HA & Hc2 & HW)];
    fold sg.
  - split.
    + intros _. split.
      * replace (("(" ++ sg ++ String c1 A ++ " ± " ++ String c2 B ++ ")") ++ sfx)
          with (("(" ++ sg ++ String c1 A ++ " ") ++ "±" ++ (" " ++ String c2 B ++ ")" ++ sfx))
          by (now str_norm).
        apply str_contains_app.
        assert (HmA : Str.mem "194" (String c1 A) = false).
        { apply (str_all_not_mem is_digits_form); [| reflexivity].
          cbn [Str.all]. rewrite (is_digits_form_digit _ Hc1).
          now rewrite (str_all_impl _ _ _ is_digits_form_decimal HA). }
        rewrite !str_mem_app, Hsgm, HmA. reflexivity.
      * exists c1, c2, A, B, sfx. split; [now str_norm |]. now repeat split.
    + intros Hcb. exfalso.
      pose proof (clearly_below_lt _ _ Hm Hcb) as Hlt.
      unfold Dec.lt in Hlt. unfold Dec.le in Hle. rewrite dec_leb_ltb, Hlt in Hle.
      discriminate Hle.
  - split.
    + intros Hle. exfalso.
      unfold Dec.lt in Hlt. unfold Dec.le in Hle. rewrite dec_leb_ltb, Hlt in Hle.
      discriminate Hle.
    + intros _. split.
      * apply str_contains_none. apply (str_all_not_mem is_digits_form); [| reflexivity].
        rewrite !str_all_app. cbn [Str.all]. rewrite Hsgf.
        rewrite (is_digits_form_digit _ Hc1), (is_digits_form_digit _ Hc2).
        rewrite (str_all_impl _ _ _ is_digits_form_decimal HA).
        rewrite (str_all_impl _ _ _ is_digits_form_digit HW).
        rewrite (str_all_impl _ _ _ is_digits_form_plain Hsfx). reflexivity.
      * exists c1, c2, A, W, sfx. split; [now str_norm |]. now repeat split.
Qed.

Lemma C7_rendering_chosen_witness :
  (Str.contains "±" "(-1.000 ± 10.000)" = true /\
   exists (c1 c2 : ascii) (A B S : string),
     "(-1.000 ± 10.000)" = "(" ++ "-" ++ String c1 A ++ " ± " ++ String c2 B ++ ")" ++ S /\
     Str.is_digit c1 = true /\ Str.all is_decimal_char A = true /\
     Str.is_digit c2 = true /\ Str.all is_numeric B = true /\
     Str.all is_plain S = true) /\
  (Str.contains "±" "+9.3827208816(29) × 10^+2" = false /\
   exists (c1 c2 : ascii) (A W S : string),
     "+9.3827208816(29) × 10^+2" = "+" ++ String c1 A ++ "(" ++ String c2 W ++ ")" ++ S /\
     Str.is_digit c1 = true /\ Str.all is_decimal_char A = true /\
     Str.is_digit c2 = true /\ Str.all Str.is_digit W = true /\
     Str.all is_plain S = true).
Proof.
  split.
  - apply (C7_rendering_chosen (PyInt (-1)) (PyInt 10) ".3" "(-1.000 ± 10.000)");
      first [reflexivity | split; reflexivity].
  - apply (C7_rendering_chosen (PyFloat 938.27208816) (PyFloat 0.00000029) "+u2"
             "+9.3827208816(29) × 10^+2");
      first [reflexivity | exact I | split; reflexivity].
Defined.

(** C7 as stated fails.  A mean of 0 with the uncertainty 1 should be
    rendered in the plus-minus form, and [__format__] raises; an uncertainty
    below the mean should give the digits form, and with a spec that sets
    both [.<N>] and [u<M>] there is no rendering but the error of line 207. *)
Lemma C7_counterexample :
  Dec.is_zero (to_dec (PyInt 1)) = false /\
  (Dec.abs (to_dec (PyInt 0)) <= Dec.abs (to_dec (PyInt 1)))%dec /\
  Uncertain.__format__ (Uncertain.__init__ (PyInt 0) (PyInt 1)) ""
    = Raise (OverflowError "cannot convert float infinity to integer") /\
  Dec.is_zero 0.00000000015 = false /\
  (Dec.abs 0.00000000015 < Dec.abs 0.51099895000)%dec /\
  Uncertain.__format__
    (Uncertain.__init__ (PyFloat 0.51099895000) (PyFloat 0.00000000015)) ".3u2"
    = Raise (ValueError
        "Cannot specify both floating point precision .3 and uncertainty specification u2.").
Proof. repeat split; reflexivity. Qed.

(** ** Both options at once: where the check is reached *)

Lemma plus_minus_form_contains (sg A B S : string) (c1 c2 : ascii) :
  Str.all is_digits_form sg = true ->
  Str.is_digit c1 = true -> Str.all is_decimal_char A = true ->
  Str.contains "±" (("(" ++ sg ++ String c1 A ++ " ± " ++ String c2 B ++ ")") ++ S) = true.
Proof.
  intros Hsg Hc1 HA.
  replace (("(" ++ sg ++ String c1 A ++ " ± " ++ String c2 B ++ ")") ++ S)
    with (("(" ++ sg ++ String c1 A ++ " ") ++ "±" ++ (" " ++ String c2 B ++ ")" ++ S))
    by (now str_norm).
  apply str_contains_app.
  assert (Hsgm : Str.mem "194" sg = false)
    by (apply (str_all_not_mem is_digits_form); [exact Hsg | reflexivity]).
  assert (HmA : Str.mem "194" (String c1 A) = false).
  { apply (str_all_not_mem is_digits_form); [| reflexivity].
    cbn [Str.all]. rewrite (is_digits_form_digit _ Hc1).
    now rewrite (str_all_impl _ _ _ is_digits_form_decimal HA). }
  rewrite !str_mem_app, Hsgm, HmA. reflexivity.
Qed.

(** C1, as the code has it.  Take a spec of ASCII characters, of at most 4300
    of them, with [.<N>] and [u<M>], both at least 1, and a mean in the range
    of binary64 (an [int] below [2 ^ 53]; with an [int] uncertainty, a mean up
    to [1e18]).
    - When the uncertainty is below [|mean|] (by a billionth of it at least)
      [__format__] raises the [ValueError] of line 207 and returns nothing.
    - When the uncertainty is 0 the same spec gives a rendering, without
      parenthesis: the return of line 160 comes before the check.
    - When the uncertainty is at least [|mean|] the error of line 207 is not
      raised; for [N] up to 1000 the spec gives a rendering in the
      plus-minus form: the return of line 188 comes before the check. *)
Theorem C1_both_options (m u : num) (format_spec : string) (N M : Z) :
  spec_option "." format_spec N -> 1 <= N ->
  spec_option "u" format_spec M -> 1 <= M ->
  Str.all is_ascii format_spec = true ->
  (String.length format_spec <= 4300)%nat ->
  in_range (to_dec m) -> small_int m -> int64_safe u (to_dec m) ->
  (in_range (to_dec u) -> clearly_below (to_dec u) (to_dec m) ->
   Uncertain.__format__ (Uncertain.__init__ m u) format_spec
   = Raise (ValueError (Uncertain.both_msg N M))) /\
  (Dec.is_zero (to_dec u) = true ->
   exists out : string,
     Uncertain.__format__ (Uncertain.__init__ m u) format_spec = Ret out /\
     Str.contains "(" out = false) /\
  (in_range (to_dec u) -> (Dec.abs (to_dec m) <= Dec.abs (to_dec u))%dec ->
   Uncertain.__format__ (Uncertain.__init__ m u) format_spec
   <> Raise (ValueError (Uncertain.both_msg N M)) /\
   (N <= 1000 ->
    exists out : string,
      Uncertain.__format__ (Uncertain.__init__ m u) format_spec = Ret out /\
      Str.contains "±" out = true)).
Proof.
  intros HN HN1 HM HM1 _ _ Hmr _ _.
  pose proof (in_range_nonzero _ Hmr) as Hm.
  apply spec_option_read in HN. apply spec_option_read in HM.
  split; [| split].
  - intros Hur Hcb.
    pose proof (in_range_nonzero _ Hur) as Hu.
    pose proof (clearly_below_lt _ _ Hm Hcb) as Hlt.
    rewrite format_unfold_base by (try rewrite init_uncertainty_is_zero; assumption).
    rewrite (format_base_normal _ _ _ N M HN HM).
    + destruct (Z.eqb_spec N 0); [lia |]. destruct (Z.eqb_spec M 0); [lia |].
      reflexivity.
    + rewrite base_of_dominant, dec_leb_ltb. unfold Dec.lt in Hlt. now rewrite Hlt.
    + now apply base_of_uncertainty_pos.
  - intros Hu. rewrite format_unfold. cbn [Uncertain.mean Uncertain.__init__].
    rewrite Hm, init_uncertainty_is_zero, Hu. eexists. split; [reflexivity |].
    apply plain_has_no_indicator, all_plain_zero_rendering.
  - intros Hur Hle.
    pose proof (in_range_nonzero _ Hur) as Hu.
    assert (Hfmt : exists out : string,
               Uncertain.__format__ (Uncertain.__init__ m u) format_spec = Ret out /\
               Str.contains "±" out = true).
    { rewrite format_unfold_base by (try rewrite init_uncertainty_is_zero; assumption).
      destruct (Uncertain.format_base _ format_spec (Uncertain.f_sign_of format_spec))
        as [stem|] eqn:Hb.
      2:{ rewrite (format_base_dominant _ _ _ N HN) in Hb
            by (rewrite base_of_dominant; exact Hle).
          discriminate Hb. }
      cbn [bind]. eexists. split; [reflexivity |].
      destruct (format_base_forms m u format_spec stem Hm Hu Hb)
        as [(_ & c1 & c2 & A & B & -> & Hc1 & HA & _)
           | (Hlt & _)].
      - apply plus_minus_form_contains; try assumption.
        destruct (Dec.dm (to_dec m) <? 0); [reflexivity |].
        now destruct (Str.contains "+" format_spec || (format_spec =? "")%string).
      - exfalso. unfold Dec.lt in Hlt. unfold Dec.le in Hle.
        rewrite dec_leb_ltb, Hlt in Hle. discriminate Hle. }
    destruct Hfmt as (out & Hout & Hpm). split.
    + rewrite Hout. discriminate.
    + intros _. now exists out.
Qed.

Lemma C1_both_options_witness :
  (Uncertain.__format__
     (Uncertain.__init__ (PyFloat 0.51099895000) (PyFloat 0.00000000015)) ".3u2"
   = Raise (ValueError
       "Cannot specify both floating point precision .3 and uncertainty specification u2.")) /\
  (exists out : string,
      Uncertain.__format__ (Uncertain.__init__ (PyFloat 0.51099895000) (PyInt 0)) ".3u2"
      = Ret out /\ Str.contains "(" out = false) /\
  (Uncertain.__format__ (Uncertain.__init__ (PyInt 1) (PyInt 10)) ".3u2"
   <> Raise (ValueError (Uncertain.both_msg 3 2)) /\
   (3 <= 1000 ->
    exists out : string,
      Uncertain.__format__ (Uncertain.__init__ (PyInt 1) (PyInt 10)) ".3u2" = Ret out /\
      Str.contains "±" out = true)).
Proof.
  assert (Hlen : (String.length ".3u2" <= 4300)%nat) by (cbn; lia).
  assert (Hr : in_range 0.51099895000) by (split; reflexivity).
  assert (H1 : in_range (to_dec (PyInt 1))) by (split; reflexivity).
  split; [| split].
  - apply (proj1 (C1_both_options (PyFloat 0.51099895000) (PyFloat 0.00000000015)
                    ".3u2" 3 2 dot3u2_option_dot ltac:(lia) dot3u2_option_u ltac:(lia)
                    eq_refl Hlen Hr I I)).
    + split; reflexivity.
    + reflexivity.
  - apply (proj1 (proj2 (C1_both_options (PyFloat 0.51099895000) (PyInt 0)
                    ".3u2" 3 2 dot3u2_option_dot ltac:(lia) dot3u2_option_u ltac:(lia)
                    eq_refl Hlen Hr I ltac:(split; reflexivity)))).
    reflexivity.
  - apply (proj2 (proj2 (C1_both_options (PyInt 1) (PyInt 10)
                    ".3u2" 3 2 dot3u2_option_dot ltac:(lia) dot3u2_option_u ltac:(lia)
                    eq_refl Hlen H1 ltac:(reflexivity) ltac:(split; reflexivity)))).
    + split; reflexivity.
    + reflexivity.
Defined.

(** ** The default rendering read back: tolerances *)

(** The default rendering read back, in exact arithmetic. *)
Lemma read_back_exact (m u : num) (x d : Z) :
  Dec.is_zero (to_dec m) = false ->
  Dec.is_zero (to_dec u) = false ->
  x = exponent_of (Uncertain.__init__ m u) ->
  d = - Dec.floor_log10 (Dec.scale (Dec.abs (to_dec u)) (- x)) + 1 ->
  ((Dec.abs (to_dec u) < Dec.abs (to_dec m))%dec ->
   exists (s : string) (v : Uncertain.t),
     Uncertain.__str__ (Uncertain.__init__ m u) = Ret s /\
     Uncertain.from_string s = Ret v /\
     (Dec.abs (Dec.sub (to_dec (Uncertain.mean v)) (to_dec m))
      <= Dec.mk 5 (x - d - 1))%dec /\
     (Dec.abs (to_dec u) <= to_dec (Uncertain.uncertainty v))%dec /\
     (Dec.sub (to_dec (Uncertain.uncertainty v)) (Dec.mk 1 (x - d))
      < Dec.abs (to_dec u))%dec /\
     (Dec.mk 10 (x - d) <= Dec.abs (to_dec u))%dec) /\
  ((Dec.abs (to_dec m) <= Dec.abs (to_dec u))%dec -> x = 0 ->
   exists (s : string) (v : Uncertain.t),
     Uncertain.__str__ (Uncertain.__init__ m u) = Ret s /\
     Uncertain.from_string s = Ret v /\
     (to_dec (Uncertain.mean v) == to_dec m)%dec /\
     (to_dec (Uncertain.uncertainty v) == Dec.abs (to_dec u))%dec).
Proof.
  intros Hm Hu Hx Hd. split.
  - intros Hlt.
    destruct (str_normal_form m u Hm Hu Hlt) as (Hd1 & Hw0 & Hstr).
    rewrite <- Hx, <- Hd in Hd1, Hw0, Hstr.
    set (q := Dec.round_scaled (mantissa_of (Uncertain.__init__ m u)) d) in *.
    set (w := Dec.ceil_scaled (Dec.scale (Dec.abs (to_dec u)) (- x)) d) in *.
    set (neg := Dec.dm (mantissa_of (Uncertain.__init__ m u)) <? 0) in *.
    pose proof (pow10_pos d ltac:(lia)) as Hp.
    eexists. eexists. split; [exact Hstr |]. split.
    { apply from_string_normal_form.
      - unfold sign_str. destruct neg; [right | left]; reflexivity.
      - apply of_nat_nonempty.
      - apply all_digit_of_nat.
      - apply all_digit_of_nat_width.
      - apply of_nat_nonempty.
      - apply all_digit_of_nat. }
    cbn [Uncertain.mean Uncertain.uncertainty to_dec].
    rewrite sign_str_is_minus, digits_val_app, length_of_nat_width.
    rewrite Z2Nat.id by lia.
    rewrite digits_val_of_nat by (apply Z.div_pos; lia).
    rewrite digits_val_of_nat_width
      by (rewrite Z2Nat.id by lia; apply Z.mod_pos_bound; lia).
    rewrite digits_val_of_nat by exact Hw0.
    replace (Z.abs q / 10 ^ d * 10 ^ d + Z.abs q mod 10 ^ d) with (Z.abs q)
      by (pose proof (Z.div_mod (Z.abs q) (10 ^ d) ltac:(lia)); lia).
    unfold neg, q. rewrite round_scaled_sign. fold q.
    replace (x - d) with (- d + x) by lia.
    replace (- d + x - 1) with (x - d - 1) by lia.
    split; [| split; [| split]].
    + unfold q, mantissa_of. rewrite <- Hx. apply mean_tolerance.
    + apply uncertainty_tolerance.
    + apply uncertainty_tolerance.
    + rewrite Hd. apply two_digits_displayed.
      unfold Dec.abs. cbn [Dec.dm]. unfold Dec.is_zero in Hu.
      apply Z.eqb_neq in Hu. lia.
  - intros Hle Hx0. rewrite Hx0 in Hx. symmetry in Hx.
    assert (Hmz : Dec.dm (to_dec m) <> 0)
      by (unfold Dec.is_zero in Hm; now apply Z.eqb_neq in Hm).
    assert (Huz : Dec.dm (to_dec (np_abs u)) <> 0).
    { rewrite np_abs_to_dec. unfold Dec.abs. cbn [Dec.dm].
      unfold Dec.is_zero in Hu. apply Z.eqb_neq in Hu. lia. }
    destruct (py_float_format_num m "+" Hmz) as (va & Hva & Heqa).
    destruct (py_float_format_num (np_abs u) "" Huz) as (vb & Hvb & Heqb).
    eexists. eexists. split; [now apply str_dominant_form |]. split.
    { unfold Uncertain.from_string. change recursion_limit with (S 999).
      apply (from_string_pm_form _ _ _ va vb);
        first [apply all_numeric_format_num | assumption]. }
    cbn [Uncertain.mean Uncertain.uncertainty Uncertain.__init__ to_dec np_abs].
    split; [exact Heqa |].
    apply dec_abs_eq in Heqb. rewrite np_abs_to_dec, dec_abs_abs in Heqb. exact Heqb.
Qed.


Lemma to_Q_mk (k e : Z) : (Dec.to_Q (Dec.mk k e) == inject_Z k * 10 ^ e)%Q.
Proof. reflexivity. Qed.

(** C3, as the code has it.  Take a mean and an uncertainty in the range of
    binary64 (an [int] below [2 ^ 53]; with an [int] uncertainty, a mean up
    to [1e18]), the mean not within a billionth below a power of ten.
    - When the uncertainty is below [|mean|] (by a billionth of it at least)
      and not below [|mean| * 1e-12], the default rendering is parsed
      back to a value whose mean differs from the mean by a tenth of the
      uncertainty at most, and whose uncertainty lies between the uncertainty
      (less a billionth of it) and 1.2 times the uncertainty.
    - When the uncertainty is at least [|mean|] and the mean lies between 1
      and 9.999 (exponent 0), the default rendering is parsed back to the
      same mean and uncertainty. *)
Theorem C3_round_trip (m u : num) :
  in_range (to_dec m) -> in_range (to_dec u) ->
  small_int m -> int64_safe u (to_dec m) ->
  clear_of_next_power (to_dec m) ->
  (clearly_below (to_dec u) (to_dec m) ->
   (Dec.scale (Dec.abs (to_dec m)) (-12) <= Dec.abs (to_dec u))%dec ->
   exists (s : string) (v : Uncertain.t),
     Uncertain.__str__ (Uncertain.__init__ m u) = Ret s /\
     Uncertain.from_string s = Ret v /\
     (Dec.mulZ 10 (Dec.abs (Dec.sub (to_dec (Uncertain.mean v)) (to_dec m)))
      <= Dec.abs (to_dec u))%dec /\
     (Dec.mulZ (10 ^ 9 - 1) (Dec.abs (to_dec u))
      <= Dec.mulZ (10 ^ 9) (to_dec (Uncertain.uncertainty v)))%dec /\
     (Dec.mulZ 10 (to_dec (Uncertain.uncertainty v))
      <= Dec.mulZ 12 (Dec.abs (to_dec u)))%dec) /\
  ((Dec.abs (to_dec m) <= Dec.abs (to_dec u))%dec ->
   (1 <= Dec.abs (to_dec m))%dec -> (Dec.abs (to_dec m) <= 9.999)%dec ->
   exists (s : string) (v : Uncertain.t),
     Uncertain.__str__ (Uncertain.__init__ m u) = Ret s /\
     Uncertain.from_string s = Ret v /\
     (to_dec (Uncertain.mean v) == to_dec m)%dec /\
     (to_dec (Uncertain.uncertainty v) == Dec.abs (to_dec u))%dec).
Proof.
  intros Hmr Hur _ _ _.
  pose proof (in_range_nonzero _ Hmr) as Hm.
  pose proof (in_range_nonzero _ Hur) as Hu.
  destruct (read_back_exact m u _ _ Hm Hu eq_refl eq_refl) as [Hnormal Hdominant].
  split.
  - intros Hcb _.
    destruct (Hnormal (clearly_below_lt _ _ Hm Hcb))
      as (s & v & Hs & Hv & Hmean & Hlo & Hhi & Hten).
    exists s, v. split; [exact Hs |]. split; [exact Hv |].
    set (x := exponent_of (Uncertain.__init__ m u)) in *.
    set (d := - Dec.floor_log10 (Dec.scale (Dec.abs (to_dec u)) (- x)) + 1) in *.
    apply dec_le_Q in Hmean, Hlo, Hten. apply dec_lt_Q in Hhi.
    rewrite to_Q_sub in Hhi. rewrite !to_Q_mk in Hmean, Hhi, Hten.
    replace (x - d - 1) with ((x - d) + -1) in Hmean by lia.
    rewrite Qpower_plus in Hmean by discriminate.
    pose proof (pow10_Q_pos (x - d)) as HT.
    pose proof (to_Q_abs_nonneg (to_dec u)) as HU.
    set (T := (10 ^ (x - d))%Q) in *.
    set (U := Dec.to_Q (Dec.abs (to_dec u))) in *.
    change (10 ^ (-1))%Q with (1 # 10)%Q in Hmean.
    change (inject_Z 5) with 5%Q in Hmean. change (inject_Z 1) with 1%Q in Hhi.
    change (inject_Z 10) with 10%Q in Hten.
    split; [| split]; apply dec_le_Q; rewrite !to_Q_mulZ.
    + change (inject_Z 10) with 10%Q. fold U. lra.
    + change (inject_Z (10 ^ 9)) with 1000000000%Q.
      change (inject_Z (10 ^ 9 - 1)) with 999999999%Q. fold U. lra.
    + change (inject_Z 10) with 10%Q. change (inject_Z 12) with 12%Q. fold U. lra.
  - intros Hle Hlo Hhi. apply Hdominant; [exact Hle |].
    exact (exponent_unit _ Hlo Hhi).
Qed.

Lemma C3_round_trip_witness :
  (exists (s : string) (v : Uncertain.t),
      Uncertain.__str__ (Uncertain.__init__ (PyFloat 0.51099895000) (PyFloat 0.00000000015))
        = Ret s /\
      Uncertain.from_string s = Ret v /\
      (Dec.mulZ 10 (Dec.abs (Dec.sub (to_dec (Uncertain.mean v)) 0.51099895000))
       <= 0.00000000015)%dec /\
      (Dec.mulZ (10 ^ 9 - 1) 0.00000000015
       <= Dec.mulZ (10 ^ 9) (to_dec (Uncertain.uncertainty v)))%dec /\
      (Dec.mulZ 10 (to_dec (Uncertain.uncertainty v))
       <= Dec.mulZ 12 0.00000000015)%dec) /\
  (exists (s : string) (v : Uncertain.t),
      Uncertain.__str__ (Uncertain.__init__ (PyFloat 5.0) (PyInt 10)) = Ret s /\
      Uncertain.from_string s = Ret v /\
      (to_dec (Uncertain.mean v) == 5.0)%dec /\
      (to_dec (Uncertain.uncertainty v) == Dec.abs (to_dec (PyInt 10)))%dec).
Proof.
  split.
  - apply (proj1 (C3_round_trip (PyFloat 0.51099895000) (PyFloat 0.00000000015)
                    ltac:(split; reflexivity) ltac:(split; reflexivity) I I
                    ltac:(reflexivity))); reflexivity.
  - apply (proj2 (C3_round_trip (PyFloat 5.0) (PyInt 10)
                    ltac:(split; reflexivity) ltac:(split; reflexivity) I
                    ltac:(split; reflexivity) ltac:(reflexivity))); reflexivity.
Defined.

(** C3 as stated fails: the default rendering of a value with uncertainty 0
    has no parenthesis, and [from_string] raises on it; so does the rendering
    of an uncertainty-dominant value with a non-zero exponent. *)
Lemma C3_counterexample :
  Uncertain.__str__ (Uncertain.__init__ (PyFloat 3.14159) (PyInt 0)) = Ret "+3.14159" /\
  Uncertain.from_string "+3.14159" = Raise (ValueError "not enough values to unpack") /\
  Uncertain.__str__ (Uncertain.__init__ (PyInt 10) (PyInt 100))
    = Ret "(+1.0 ± 10.0) × 10^+1" /\
  Uncertain.from_string "(+1.0 ± 10.0) × 10^+1"
    = Raise (IndexError "list index out of range").
Proof. repeat split; reflexivity. Qed.

(** ** The indicator in parentheses: its value *)

(** Lines 196-217 in exact arithmetic, for a value with exponent 0. *)
Lemma indicator_exact (m u : num) (format_spec : string) (N M d w : Z) :
  Dec.is_zero (to_dec m) = false ->
  Dec.is_zero (to_dec u) = false ->
  (Dec.abs (to_dec u) < Dec.abs (to_dec m))%dec ->
  exponent_of (Uncertain.__init__ m u) = 0 ->
  int_of_match (re_search_digits "." format_spec) = Ret N ->
  int_of_match (re_search_digits "u" format_spec) = Ret M ->
  N = 0 \/ M = 0 ->
  d = (if 1 <=? N then N
       else - Dec.floor_log10 (Dec.abs (to_dec u)) + (if 1 <=? M then M - 1 else 1)) ->
  w = (if 1 <=? N then Dec.floor_scaled (Dec.abs (to_dec u)) d
       else Dec.ceil_scaled (Dec.abs (to_dec u)) d) ->
  Uncertain.__format__ (Uncertain.__init__ m u) format_spec
  = Ret (sign_str (Dec.dm (to_dec m) <? 0) (Uncertain.f_sign_of format_spec)
         ++ fixed_abs (to_dec m) d ++ "(" ++ Str.of_nat w ++ ")") /\
  0 <= d /\ 0 <= w /\
  (1 <= N -> (Dec.mk w (- d) <= Dec.abs (to_dec u))%dec /\
             (Dec.abs (to_dec u) < Dec.mk (w + 1) (- d))%dec) /\
  (N = 0 -> (Dec.mk (w - 1) (- d) < Dec.abs (to_dec u))%dec /\
            (Dec.abs (to_dec u) <= Dec.mk w (- d))%dec).
Proof.
  intros Hm Hu Hlt Hx HN HM HNM Hd Hw.
  pose proof (int_of_match_nonneg _ _ _ HN) as HN0.
  pose proof (int_of_match_nonneg _ _ _ HM) as HM0.
  pose proof (base_of_dominant m u) as Hdom. cbv zeta in Hdom.
  pose proof (base_of_uncertainty_pos m u Hu) as Hpos.
  pose proof (digits_of_nonneg m u N M Hu Hlt HN0 HM0) as Hdig.
  pose proof (indicator_of_nonneg (base_of (Uncertain.__init__ m u)) N M ltac:(lia)) as Hind.
  assert (Hun : to_dec (Uncertain.uncertainty (Uncertain.__init__ m u)) = Dec.abs (to_dec u))
    by apply np_abs_to_dec.
  assert (Hle : Dec.leb (Dec.abs (to_dec m)) (Dec.abs (to_dec u)) = false).
  { rewrite dec_leb_ltb. unfold Dec.lt in Hlt. now rewrite Hlt. }
  rewrite Hle in Hdom.
  assert (Hfmt := format_unfold_base (Uncertain.__init__ m u) format_spec).
  rewrite init_uncertainty_is_zero in Hfmt. specialize (Hfmt Hm Hu).
  rewrite (format_base_normal _ _ _ N M HN HM Hdom Hpos) in Hfmt.
  replace (negb (N =? 0) && negb (M =? 0)) with false in Hfmt
    by (destruct HNM; subst; cbn; [reflexivity | now rewrite andb_false_r]).
  rewrite format_f_ok in Hfmt by exact Hdig.
  rewrite format_int_nonneg in Hfmt by exact Hind.
  cbn [bind] in Hfmt. rewrite Hx in Hfmt. change (_exponent 0 "+" _) with "" in Hfmt.
  rewrite str_app_nil_r in Hfmt.
  rewrite (base_of_exponent_0 _ Hx) in Hfmt, Hdig, Hind, Hpos.
  rewrite Hun in Hpos.
  assert (Hd' : digits_of (Uncertain.__init__ m u) N M = d).
  { rewrite Hd. unfold digits_of. rewrite Hun.
    destruct (Z.eqb_spec N 0), (Z.leb_spec 1 N); try lia.
    destruct (Z.eqb_spec M 0), (Z.leb_spec 1 M); lia. }
  assert (Hw' : indicator_of (Uncertain.__init__ m u) N M = w).
  { rewrite Hw. unfold indicator_of. rewrite Hd', Hun.
    destruct (Z.eqb_spec N 0), (Z.leb_spec 1 N); try lia; try reflexivity.
    rewrite trunc_scaled_floor by lia. rewrite Hd.
    destruct (Z.leb_spec 1 N); [reflexivity | lia]. }
  rewrite Hd', Hw' in Hfmt. rewrite Hd' in Hdig. rewrite Hw' in Hind.
  split; [| split; [exact Hdig | split; [exact Hind |]]].
  - rewrite Hfmt. cbn [Uncertain.mean Uncertain.__init__]. str_norm. reflexivity.
  - split.
    + intros H1. rewrite Hw. destruct (Z.leb_spec 1 N); [| lia].
      apply floor_scaled_spec.
    + intros H0. rewrite Hw. destruct (Z.leb_spec 1 N); [lia |].
      apply ceil_scaled_spec.
Qed.


Lemma slack_below (a b : Dec.t) :
  (0 <= b)%dec -> (a <= b)%dec ->
  (Dec.mulZ (10 ^ 9) a <= Dec.mulZ (10 ^ 9 + 1) b)%dec.
Proof.
  intros Hb H. apply dec_le_Q in Hb. apply dec_le_Q in H. apply dec_le_Q.
  rewrite !to_Q_mulZ.
  change (inject_Z (10 ^ 9)) with 1000000000%Q.
  change (inject_Z (10 ^ 9 + 1)) with 1000000001%Q.
  change (Dec.to_Q 0%dec) with (0 * 1)%Q in Hb. lra.
Qed.

Lemma slack_above (a b : Dec.t) :
  (0 <= a)%dec -> (a < b)%dec ->
  (Dec.mulZ (10 ^ 9 - 1) a < Dec.mulZ (10 ^ 9) b)%dec.
Proof.
  intros Ha H. apply dec_le_Q in Ha. apply dec_lt_Q in H. apply dec_lt_Q.
  rewrite !to_Q_mulZ.
  change (inject_Z (10 ^ 9)) with 1000000000%Q.
  change (inject_Z (10 ^ 9 - 1)) with 999999999%Q.
  change (Dec.to_Q 0%dec) with (0 * 1)%Q in Ha. lra.
Qed.

Lemma slack_above_le (a b : Dec.t) :
  (0 <= a)%dec -> (a <= b)%dec ->
  (Dec.mulZ (10 ^ 9 - 1) a <= Dec.mulZ (10 ^ 9) b)%dec.
Proof.
  intros Ha H. apply dec_le_Q in Ha. apply dec_le_Q in H. apply dec_le_Q.
  rewrite !to_Q_mulZ.
  change (inject_Z (10 ^ 9)) with 1000000000%Q.
  change (inject_Z (10 ^ 9 - 1)) with 999999999%Q.
  change (Dec.to_Q 0%dec) with (0 * 1)%Q in Ha. lra.
Qed.

Lemma slack_below_lt (a b : Dec.t) :
  (0 <= b)%dec -> (a < b)%dec ->
  (Dec.mulZ (10 ^ 9) a < Dec.mulZ (10 ^ 9 + 1) b)%dec.
Proof.
  intros Hb H. apply dec_le_Q in Hb. apply dec_lt_Q in H. apply dec_lt_Q.
  rewrite !to_Q_mulZ.
  change (inject_Z (10 ^ 9)) with 1000000000%Q.
  change (inject_Z (10 ^ 9 + 1)) with 1000000001%Q.
  change (Dec.to_Q 0%dec) with (0 * 1)%Q in Hb. lra.
Qed.

(** C8, as the code has it.  Take a mean between 1 and 9.999 (exponent 0), an
    uncertainty in the range of binary64 that is below the mean and not
    within a billionth below a power of ten, and a spec (ASCII, at most 4300
    characters) in which [.<N>] is read as [N] and [u<M>] as [M] (0 when the
    option is absent), both at most 100 and not both set.  [__format__]
    returns the sign of the mean, the mean with [d] decimals and an integer
    [w] in parentheses, where
    - with [N >= 1], [d = N] and [w] is [uncertainty * 10 ^ N] truncated;
    - with [N = 0], [d = - floor (log10 uncertainty) + (M - 1)] when [M >= 1]
      and [d = - floor (log10 uncertainty) + 1] when [M = 0] (so [u0] counts
      as no option), and [w] is [uncertainty * 10 ^ d] rounded up.
    The product [uncertainty * 10 ^ d] is taken up to the rounding of
    binary64, a relative error far below a billionth: truncated, [w] is at
    most the product plus a billionth of it and [w + 1] is above the product
    minus a billionth of it; rounded up, [w] is at least the product minus a
    billionth of it and [w - 1] is below the product plus a billionth of
    it. *)
Theorem C8_indicator (m u : num) (format_spec : string) (N M : Z) :
  (1 <= Dec.abs (to_dec m))%dec -> (Dec.abs (to_dec m) <= 9.999)%dec ->
  in_range (to_dec u) -> clearly_below (to_dec u) (to_dec m) ->
  clear_of_next_power (to_dec u) ->
  small_int m -> small_int u ->
  Str.all is_ascii format_spec = true -> (String.length format_spec <= 4300)%nat ->
  int_of_match (re_search_digits "." format_spec) = Ret N ->
  int_of_match (re_search_digits "u" format_spec) = Ret M ->
  N = 0 \/ M = 0 -> N <= 100 -> M <= 100 ->
  let d := if 1 <=? N then N
           else - Dec.floor_log10 (Dec.abs (to_dec u)) + (if 1 <=? M then M - 1 else 1) in
  let sg := if Dec.dm (to_dec m) <? 0 then "-"
            else if Str.contains "+" format_spec || (format_spec =? "")%string
                 then "+" else "" in
  exists ip fp W : string,
    Uncertain.__format__ (Uncertain.__init__ m u) format_spec
    = Ret (sg ++ ip ++ (if d =? 0 then "" else "." ++ fp) ++ "(" ++ W ++ ")") /\
    0 <= d /\
    ip <> "" /\ Str.all Str.is_digit ip = true /\
    Str.all Str.is_digit fp = true /\ Z.of_nat (String.length fp) = d /\
    W <> "" /\ Str.all Str.is_digit W = true /\
    let w := Str.digits_val W in
    if 1 <=? N then
      (Dec.mulZ (10 ^ 9) (Dec.mk w (- d)) <= Dec.mulZ (10 ^ 9 + 1) (Dec.abs (to_dec u)))%dec /\
      (Dec.mulZ (10 ^ 9 - 1) (Dec.abs (to_dec u)) < Dec.mulZ (10 ^ 9) (Dec.mk (w + 1) (- d)))%dec
    else
      (Dec.mulZ (10 ^ 9 - 1) (Dec.abs (to_dec u)) <= Dec.mulZ (10 ^ 9) (Dec.mk w (- d)))%dec /\
      (Dec.mulZ (10 ^ 9) (Dec.mk (w - 1) (- d)) < Dec.mulZ (10 ^ 9 + 1) (Dec.abs (to_dec u)))%dec.
Proof.
  intros Hlo Hhi Hur Hcb _ _ _ _ _ HN HM HNM _ _ d sg.
  assert (Hm : Dec.is_zero (to_dec m) = false)
    by (apply (dec_le_pos_nonzero 1%dec); [reflexivity | exact Hlo]).
  pose proof (in_range_nonzero _ Hur) as Hu.
  pose proof (clearly_below_lt _ _ Hm Hcb) as Hlt.
  pose proof (exponent_unit _ Hlo Hhi) as Hx.
  set (w := if 1 <=? N then Dec.floor_scaled (Dec.abs (to_dec u)) d
            else Dec.ceil_scaled (Dec.abs (to_dec u)) d).
  destruct (indicator_exact m u format_spec N M d w Hm Hu Hlt Hx HN HM HNM eq_refl eq_refl)
    as (Hfmt & Hd & Hw & Hfloor & Hceil).
  pose proof (pow10_pos d Hd) as Hp.
  pose proof (dec_abs_nonneg (to_dec u)) as Hu0.
  exists (Str.of_nat (Z.abs (Dec.round_scaled (to_dec m) d) / 10 ^ d)),
         (Str.of_nat_width (Z.to_nat d) (Z.abs (Dec.round_scaled (to_dec m) d) mod 10 ^ d) ""),
         (Str.of_nat w).
  split; [| split; [exact Hd |]].
  { rewrite Hfmt, sign_of_spec. fold sg. unfold fixed_abs. now str_norm. }
  split; [apply of_nat_nonempty |]. split; [apply all_digit_of_nat |].
  split; [apply all_digit_of_nat_width |].
  split; [rewrite length_of_nat_width; lia |].
  split; [apply of_nat_nonempty |]. split; [apply all_digit_of_nat |].
  cbv zeta. rewrite digits_val_of_nat by exact Hw.
  destruct (Z.leb_spec 1 N) as [H1 | H1].
  - destruct (Hfloor H1) as [Ha Hb]. split.
    + now apply slack_below.
    + now apply slack_above.
  - destruct (Hceil ltac:(pose proof (int_of_match_nonneg _ _ _ HN); lia)) as [Ha Hb]. split.
    + now apply slack_above_le.
    + now apply slack_below_lt.
Qed.

Lemma C8_indicator_witness :
  exists ip fp W : string,
    Uncertain.__format__
      (Uncertain.__init__ (PyFloat 5.1099895000) (PyFloat 0.0000000015)) "u3"
    = Ret ("" ++ ip ++ (if 11 =? 0 then "" else "." ++ fp) ++ "(" ++ W ++ ")") /\
    0 <= 11 /\
    ip <> "" /\ Str.all Str.is_digit ip = true /\
    Str.all Str.is_digit fp = true /\ Z.of_nat (String.length fp) = 11 /\
    W <> "" /\ Str.all Str.is_digit W = true /\
    (Dec.mulZ (10 ^ 9 - 1) 0.0000000015
     <= Dec.mulZ (10 ^ 9) (Dec.mk (Str.digits_val W) (- 11)))%dec /\
    (Dec.mulZ (10 ^ 9) (Dec.mk (Str.digits_val W - 1) (- 11))
     < Dec.mulZ (10 ^ 9 + 1) 0.0000000015)%dec.
Proof.
  assert (Hlen : (String.length "u3" <= 4300)%nat) by (cbn; lia).
  apply (C8_indicator (PyFloat 5.1099895000) (PyFloat 0.0000000015) "u3" 0 3);
    first [reflexivity | exact I | exact Hlen | split; reflexivity
          | left; reflexivity | lia].
Defined.

(** C8 as stated fails for [u0]: the claim's rule gives
    [- floor (log10 0.15) + (0 - 1) = 0] decimals and the indicator
    [ceil 0.15 = 1], but the code treats the value 0 as an absent option,
    prints 2 decimals and the indicator 15. *)
Lemma C8_counterexample :
  spec_option "u" "u0" 0 /\
  - Dec.floor_log10 0.15 + (0 - 1) = 0 /\
  Dec.ceil_scaled 0.15 0 = 1 /\
  Uncertain.__format__ (Uncertain.__init__ (PyFloat 5.0) (PyFloat 0.15)) "u0"
  = Ret "5.00(15)".
Proof.
  split; [| repeat split; reflexivity].
  exists "", "0", "". repeat split; discriminate.
Qed.


(** * Further properties of the code *)

(** ** The format spec *)

Lemma format_base_congr (self : Uncertain.t) (s1 s2 f_sign : string) :
  int_of_match (re_search_digits "." s1) = int_of_match (re_search_digits "." s2) ->
  int_of_match (re_search_digits "u" s1) = int_of_match (re_search_digits "u" s2) ->
  Uncertain.format_base self s1 f_sign = Uncertain.format_base self s2 f_sign.
Proof.
  intros H1 H2. unfold Uncertain.format_base. rewrite H1, H2. reflexivity.
Qed.

Lemma format_fuel_congr (n : nat) (self : Uncertain.t) (s1 s2 : string) :
  Uncertain.f_sign_of s1 = Uncertain.f_sign_of s2 ->
  Str.contains "e" s1 = Str.contains "e" s2 ->
  int_of_match (re_search_digits "." s1) = int_of_match (re_search_digits "." s2) ->
  int_of_match (re_search_digits "u" s1) = int_of_match (re_search_digits "u" s2) ->
  Uncertain.format_fuel n self s1 = Uncertain.format_fuel n self s2.
Proof.
  intros Hs He Hp Hu. revert self.
  induction n as [|n IH]; intros self; [reflexivity |].
  rewrite !format_fuel_S, Hs, He, IH, (format_base_congr self s1 s2 _ Hp Hu).
  reflexivity.
Qed.

(** Without a [.<N>] option the options [u2] and no [u] at all count alike. *)
Lemma format_base_default (self : Uncertain.t) (f_sign : string) :
  Uncertain.format_base self "" f_sign = Uncertain.format_base self "+u2" f_sign.
Proof.
  unfold Uncertain.format_base.
  change (int_of_match (re_search_digits "." "")) with (Ret 0 : result Z).
  change (int_of_match (re_search_digits "." "+u2")) with (Ret 0 : result Z).
  change (int_of_match (re_search_digits "u" "")) with (Ret 0 : result Z).
  change (int_of_match (re_search_digits "u" "+u2")) with (Ret 2 : result Z).
  cbn [bind]. reflexivity.
Qed.

Lemma format_fuel_default (n : nat) (self : Uncertain.t) :
  Uncertain.format_fuel n self "" = Uncertain.format_fuel n self "+u2".
Proof.
  revert self. induction n as [|n IH]; intros self; [reflexivity |].
  rewrite !format_fuel_S, IH, format_base_default. reflexivity.
Qed.

(** X1.  The empty spec, which is the spec of [f'{value}'] and of
    [format(value)], and the spec [+] give the default rendering of
    [__str__]: a forced sign, the [× 10^] style and two digits of
    uncertainty.  This holds for every value, errors included. *)
Theorem X1_empty_spec_is_default (self : Uncertain.t) :
  Uncertain.__format__ self "" = Uncertain.__str__ self /\
  Uncertain.__format__ self "+" = Uncertain.__str__ self.
Proof.
  unfold Uncertain.__str__, Uncertain.__format__. split.
  - apply format_fuel_default.
  - rewrite <- format_fuel_default. apply format_fuel_congr; reflexivity.
Qed.

(** X2.  [__format__] reads its spec through four things only: whether a
    sign is forced (a [+] in the spec, or an empty spec), whether it holds an
    [e], and the integers read after the first [.] and after the first [u]
    (0 when the character is absent).  Two specs of ASCII characters (at most
    4300 of them, the longest run of digits that [int] reads) that agree on
    the four give the same result for every value, so the order of the
    options and the other characters of the spec do not matter, and [.0] and
    [u0] count as absent options. *)
Theorem X2_spec_read_through_options (self : Uncertain.t) (s1 s2 : string) :
  Str.all is_ascii s1 = true -> Str.all is_ascii s2 = true ->
  (String.length s1 <= 4300)%nat -> (String.length s2 <= 4300)%nat ->
  Uncertain.f_sign_of s1 = Uncertain.f_sign_of s2 ->
  Str.contains "e" s1 = Str.contains "e" s2 ->
  int_of_match (re_search_digits "." s1) = int_of_match (re_search_digits "." s2) ->
  int_of_match (re_search_digits "u" s1) = int_of_match (re_search_digits "u" s2) ->
  Uncertain.__format__ self s1 = Uncertain.__format__ self s2.
Proof.
  intros _ _ _ _ Hs He Hp Hu. now apply format_fuel_congr.
Qed.

Lemma X2_spec_read_through_options_witness :
  Uncertain.__format__ electron_mass "+eu3" = Uncertain.__format__ electron_mass "u03 .0e+".
Proof.
  apply (X2_spec_read_through_options electron_mass "+eu3" "u03 .0e+");
    first [reflexivity | cbn; lia].
Defined.

(** ** Texts that [from_string] refuses *)

Lemma str_cut_cons (sep : string) (x : ascii) (s : string) :
  Str.cut sep (String x s) =
  if prefix sep (String x s)
  then Some ("", Str.drop (String.length sep) (String x s))
  else match Str.cut sep s with
       | Some (a, b) => Some (String x a, b)
       | None => None
       end.
Proof. destruct sep; reflexivity. Qed.

(** [c in s] for a single byte [c]. *)
Lemma str_contains_mem (c : ascii) (s : string) :
  Str.contains (String c "") s = Str.mem c s.
Proof.
  unfold Str.contains. induction s as [|x s IH].
  - reflexivity.
  - rewrite str_cut_cons. cbn [prefix Str.mem].
    destruct (ascii_dec c x) as [->|Hne].
    + rewrite Ascii.eqb_refl. now destruct s.
    + apply Ascii.eqb_neq in Hne. rewrite Hne. cbn [orb].
      destruct (Str.cut (String c "") s) as [[a b]|]; exact IH.
Qed.

Lemma str_split_absent (sep s : string) :
  Str.contains sep s = false -> Str.split sep s = [s].
Proof.
  unfold Str.contains, Str.split. intros H.
  destruct (String.length s); [reflexivity |].
  rewrite str_split_fuel_S. now destruct (Str.cut sep s).
Qed.

(** A part of a split holds no byte that the text does not hold. *)
Lemma str_mem_cut (c : ascii) (sep s a b : string) :
  Str.cut sep s = Some (a, b) -> Str.mem c s = false -> Str.mem c a = false.
Proof.
  intros Hc Hm. apply str_cut_spec in Hc. subst s.
  rewrite str_mem_app in Hm. now apply orb_false_iff in Hm.
Qed.

Lemma str_mem_split_hd (c : ascii) (sep s a : string) (l : list string) :
  Str.split sep s = a :: l -> Str.mem c s = false -> Str.mem c a = false.
Proof.
  unfold Str.split. intros Hs Hm.
  destruct (String.length s).
  - cbn in Hs. now injection Hs as <- _.
  - rewrite str_split_fuel_S in Hs.
    destruct (Str.cut sep s) as [[a' b']|] eqn:Hc.
    + injection Hs as <- _. exact (str_mem_cut _ _ _ _ _ Hc Hm).
    + now injection Hs as <- _.
Qed.

Lemma from_string_fuel_no_paren (n : nat) (s : string) :
  Str.mem "(" s = false -> exists e : exn, Uncertain.from_string_fuel n s = Raise e.
Proof.
  revert s. induction n as [|n IH]; intros s Hm; [now eexists |].
  rewrite from_string_fuel_S.
  destruct (Str.contains "E" s).
  { destruct (Str.split "E" s) as [|a [|b [|c l]]] eqn:Hs; try (now eexists).
    destruct (py_int b); cbn [bind]; [| now eexists].
    destruct (IH a (str_mem_split_hd _ _ _ _ _ Hs Hm)) as [e ->]. now eexists. }
  destruct (Str.contains "×" s).
  { destruct (Str.split "×" s) as [|a [|b [|c l]]] eqn:Hs; try (now eexists).
    destruct (Str.split "^" b) as [|p [|x l]]; try (now eexists).
    destruct (py_int x); cbn [bind]; [| now eexists].
    destruct (IH a (str_mem_split_hd _ _ _ _ _ Hs Hm)) as [e ->]. now eexists. }
  destruct s as [|c0 s']; [now eexists |].
  assert (Ascii.eqb c0 "(" = false) as ->.
  { cbn [Str.mem] in Hm. apply orb_false_iff in Hm. rewrite Ascii.eqb_sym. tauto. }
  cbn [andb]. rewrite (str_split_none "(" "" _ Hm). now eexists.
Qed.

Lemma from_string_fuel_plain (n : nat) (s : string) :
  Str.contains "E" s = false -> Str.contains "×" s = false ->
  Str.mem "(" s = false ->
  Uncertain.from_string_fuel (S n) s =
  Raise (if (s =? "")%string then IndexError "string index out of range"
         else ValueError "not enough values to unpack").
Proof.
  intros HE HX Hm. rewrite from_string_fuel_S, HE, HX.
  destruct s as [|c0 s']; [reflexivity |].
  assert (Ascii.eqb c0 "(" = false) as ->.
  { cbn [Str.mem] in Hm. apply orb_false_iff in Hm. rewrite Ascii.eqb_sym. tauto. }
  cbn [andb]. rewrite (str_split_none "(" "" _ Hm). reflexivity.
Qed.

(** X4.  [from_string] returns no value for a text without an opening
    parenthesis: a plain number such as [3.14], with or without an exponent,
    is refused.  When the text holds no [E] and no multiplication sign
    either, the error is the [IndexError] of [string[0]] for the empty text
    and the [ValueError] of the failed unpacking of [split('(')] for the
    others. *)
Theorem X4_no_parenthesis_no_value (s : string) :
  Str.contains "(" s = false ->
  (exists e : exn, Uncertain.from_string s = Raise e) /\
  (Str.contains "E" s = false -> Str.contains "×" s = false ->
   Uncertain.from_string s =
   Raise (if (s =? "")%string then IndexError "string index out of range"
          else ValueError "not enough values to unpack")).
Proof.
  rewrite str_contains_mem. intros Hm. split.
  - apply from_string_fuel_no_paren, Hm.
  - intros HE HX. now apply from_string_fuel_plain.
Qed.

Lemma X4_no_parenthesis_no_value_witness :
  (exists e : exn, Uncertain.from_string "3.14159" = Raise e) /\
  (Str.contains "E" "3.14159" = false -> Str.contains "×" "3.14159" = false ->
   Uncertain.from_string "3.14159" = Raise (ValueError "not enough values to unpack")).
Proof. apply (X4_no_parenthesis_no_value "3.14159"). reflexivity. Defined.

Lemma str_head_not_paren (a r : string) :
  a <> "" -> Str.mem "(" a = false ->
  exists (c0 : ascii) (t : string), a ++ r = String c0 t /\ Ascii.eqb c0 "(" = false.
Proof.
  intros Ha Hm. destruct a as [|c0 a']; [contradiction |].
  exists c0, (a' ++ r). split; [reflexivity |].
  cbn [Str.mem] in Hm. apply orb_false_iff in Hm. rewrite Ascii.eqb_sym. tauto.
Qed.

Lemma from_string_fuel_no_point (n : nat) (a rest : string) :
  a <> "" ->
  Str.mem "(" a = false -> Str.mem "." a = false ->
  Str.mem "(" rest = false ->
  Str.contains "E" (a ++ "(" ++ rest) = false ->
  Str.contains "×" (a ++ "(" ++ rest) = false ->
  Uncertain.from_string_fuel (S n) (a ++ "(" ++ rest)
  = Raise (IndexError "list index out of range").
Proof.
  intros Ha Hpa Hdot Hpr HE HX.
  rewrite from_string_fuel_S, HE, HX.
  destruct (str_head_not_paren a ("(" ++ rest) Ha Hpa) as (c0 & t & Heq & Hc0).
  rewrite (str_split_one "(" "" a rest Hpa Hpr), (str_split_none "." "" a Hdot).
  rewrite Heq, Hc0. reflexivity.
Qed.

(** X5.  The parenthetical-digits dialect needs a decimal point in the mean:
    a text such as [12(3)], whose part in front of the parenthesis has no
    point, raises the [IndexError] of [frac[1]]. *)
Theorem X5_mean_without_point (a rest : string) :
  a <> "" ->
  Str.contains "(" a = false -> Str.contains "." a = false ->
  Str.contains "(" rest = false ->
  Str.contains "E" (a ++ "(" ++ rest) = false ->
  Str.contains "×" (a ++ "(" ++ rest) = false ->
  Uncertain.from_string (a ++ "(" ++ rest) = Raise (IndexError "list index out of range").
Proof.
  intros Ha Hpa Hdot Hpr HE HX. rewrite str_contains_mem in Hpa, Hdot, Hpr.
  now apply from_string_fuel_no_point.
Qed.

Lemma X5_mean_without_point_witness :
  Uncertain.from_string "12(3)" = Raise (IndexError "list index out of range").
Proof. apply (X5_mean_without_point "12" "3)"); (discriminate || reflexivity). Defined.

Lemma from_string_tail_ignored (a w tail : string) :
  a <> "" ->
  Str.mem "(" a = false -> Str.mem "(" w = false ->
  Str.mem ")" w = false -> Str.mem "(" tail = false ->
  Str.contains "E" (a ++ "(" ++ w ++ ")" ++ tail) = false ->
  Str.contains "×" (a ++ "(" ++ w ++ ")" ++ tail) = false ->
  Uncertain.from_string (a ++ "(" ++ w ++ ")" ++ tail)
  = Uncertain.from_string (a ++ "(" ++ w ++ ")").
Proof.
  intros Ha Hpa Hpw Hcw Hpt HE HX.
  assert (Hshort : forall sep,
             Str.contains sep (a ++ "(" ++ w ++ ")" ++ tail) = false ->
             Str.contains sep (a ++ "(" ++ w ++ ")") = false).
  { intros sep H. apply (str_contains_left sep _ tail).
    replace ((a ++ "(" ++ w ++ ")") ++ tail) with (a ++ "(" ++ w ++ ")" ++ tail);
      [exact H | now str_norm]. }
  unfold Uncertain.from_string, recursion_limit.
  rewrite !from_string_fuel_S, HE, HX, (Hshort _ HE), (Hshort _ HX).
  assert (Hm1 : Str.mem "(" (w ++ ")" ++ tail) = false).
  { rewrite !str_mem_app, Hpw, Hpt. reflexivity. }
  assert (Hm2 : Str.mem "(" (w ++ ")") = false).
  { rewrite !str_mem_app, Hpw. reflexivity. }
  rewrite (str_split_one "(" "" a _ Hpa Hm1), (str_split_one "(" "" a _ Hpa Hm2).
  rewrite (str_split_hd ")" "" w tail Hcw).
  replace (w ++ ")") with (w ++ ")" ++ "") by reflexivity.
  rewrite (str_split_hd ")" "" w "" Hcw).
  destruct (str_head_not_paren a ("(" ++ w ++ ")" ++ tail) Ha Hpa) as (c0 & t & Heq & Hc0).
  destruct (str_head_not_paren a ("(" ++ w ++ ")" ++ "") Ha Hpa) as (c1 & t1 & Heq1 & Hc1).
  rewrite Heq, Heq1, Hc0, Hc1. reflexivity.
Qed.

(** X6.  In the parenthetical-digits dialect whatever follows the closing
    parenthesis is ignored.  An exponent written with a lowercase [e], the
    spelling that [__format__] itself prints for the [e] flag, is therefore
    dropped without an error. *)
Theorem X6_text_after_parenthesis_ignored (a w tail : string) :
  a <> "" ->
  Str.contains "(" a = false -> Str.contains "(" w = false ->
  Str.contains ")" w = false -> Str.contains "(" tail = false ->
  Str.contains "E" (a ++ "(" ++ w ++ ")" ++ tail) = false ->
  Str.contains "×" (a ++ "(" ++ w ++ ")" ++ tail) = false ->
  Uncertain.from_string (a ++ "(" ++ w ++ ")" ++ tail)
  = Uncertain.from_string (a ++ "(" ++ w ++ ")").
Proof.
  intros Ha Hpa Hpw Hcw Hpt HE HX. rewrite str_contains_mem in Hpa, Hpw, Hcw, Hpt.
  now apply from_string_tail_ignored.
Qed.

Lemma X6_text_after_parenthesis_ignored_witness :
  Uncertain.from_string ("9.1093837015" ++ "(" ++ "28" ++ ")" ++ "e-31")
  = Uncertain.from_string ("9.1093837015" ++ "(" ++ "28" ++ ")").
Proof.
  apply (X6_text_after_parenthesis_ignored "9.1093837015" "28" "e-31");
    (discriminate || reflexivity).
Defined.

(** ** The dialects of [from_string] *)

(** The first occurrence of a two-byte separator in [a ++ sep ++ b] is the one
    after [a] when [a] does not hold it (the two bytes differ, so that no
    occurrence can straddle the end of [a]). *)
Lemma str_cut_app2 (c1 c2 : ascii) (a b : string) :
  c1 <> c2 ->
  Str.cut (String c1 (String c2 "")) a = None ->
  Str.cut (String c1 (String c2 "")) (a ++ String c1 (String c2 b)) = Some (a, b).
Proof.
  intros Hne. induction a as [|x a IH]; intros Ha.
  - cbn [append]. rewrite str_cut_cons.
    change (String c1 (String c2 b)) with (String c1 (String c2 "") ++ b).
    rewrite str_prefix_app, str_drop_app. reflexivity.
  - rewrite str_cut_cons in Ha.
    destruct (prefix (String c1 (String c2 "")) (String x a)) eqn:Hp; [discriminate |].
    destruct (Str.cut (String c1 (String c2 "")) a) as [[u v]|] eqn:Hc; [discriminate |].
    cbn [append]. rewrite str_cut_cons, (IH eq_refl).
    replace (prefix (String c1 (String c2 "")) (String x (a ++ String c1 (String c2 b))))
      with false; [reflexivity |].
    symmetry. cbn [prefix] in *.
    destruct (ascii_dec c1 x); [| reflexivity].
    destruct a as [|y a']; cbn [append prefix] in *.
    + destruct (ascii_dec c2 c1) as [E|]; [now symmetry in E | reflexivity].
    + destruct (ascii_dec c2 y); [now destruct a' | reflexivity].
Qed.

Lemma str_split_one2 (c1 c2 : ascii) (a b : string) :
  c1 <> c2 ->
  Str.contains (String c1 (String c2 "")) a = false ->
  Str.contains (String c1 (String c2 "")) b = false ->
  Str.split (String c1 (String c2 "")) (a ++ String c1 (String c2 b)) = [a; b].
Proof.
  unfold Str.contains. intros Hne Ha Hb.
  destruct (Str.cut _ a) eqn:Hca; [discriminate |].
  destruct (Str.cut _ b) eqn:Hcb; [discriminate |].
  unfold Str.split. rewrite str_length_app. cbn [String.length].
  rewrite Nat.add_succ_r, str_split_fuel_S, (str_cut_app2 c1 c2 a b Hne Hca).
  destruct (String.length a + S (String.length b))%nat; [reflexivity |].
  now rewrite str_split_fuel_S, Hcb.
Qed.

Lemma str_contains_app2 (c1 c2 : ascii) (a b : string) :
  c1 <> c2 ->
  Str.contains (String c1 (String c2 "")) a = false ->
  Str.contains (String c1 (String c2 "")) (a ++ String c1 (String c2 b)) = true.
Proof.
  unfold Str.contains. intros Hne Ha.
  destruct (Str.cut _ a) eqn:Hca; [discriminate |].
  now rewrite (str_cut_app2 c1 c2 a b Hne Hca).
Qed.

(** X7.  The exponent dialects agree, and the base is not looked at.  In the
    dialect of the multiplication sign the exponent is what follows the
    first [^]; the text between the sign and the [^] is skipped, whether it
    is [10], [ 10], [2] or nothing.  The result, value or error, is the one
    of the same mantissa and exponent in the [E] dialect. *)
Theorem X7_times_dialect_as_E (s base x : string) :
  Str.contains "E" s = false -> Str.contains "×" s = false ->
  Str.contains "^" base = false -> Str.contains "^" x = false ->
  Str.contains "E" (base ++ "^" ++ x) = false ->
  Str.contains "×" (base ++ "^" ++ x) = false ->
  Uncertain.from_string (s ++ "×" ++ base ++ "^" ++ x)
  = Uncertain.from_string (s ++ "E" ++ x).
Proof.
  intros HEs HXs Hcb Hcx HEr HXr.
  rewrite str_contains_mem in HEs, Hcb, Hcx, HEr.
  assert (HEx : Str.mem "E" x = false).
  { rewrite str_mem_app in HEr. apply orb_false_iff in HEr as [_ HEr].
    cbn [append Str.mem] in HEr. now apply orb_false_iff in HEr. }
  unfold Uncertain.from_string, recursion_limit.
  rewrite !from_string_fuel_S.
  rewrite (str_contains_app "E" "" s x HEs), (str_split_one "E" "" s x HEs HEx).
  set (r := base ++ "^" ++ x) in *.
  assert (HE : Str.contains "E" (s ++ "×" ++ r) = false).
  { rewrite str_contains_mem, str_mem_app, HEs. cbn [append Str.mem orb].
    change (Ascii.eqb "E" "195") with false. change (Ascii.eqb "E" "151") with false.
    exact HEr. }
  rewrite HE.
  change (s ++ "×" ++ r) with (s ++ String "195" (String "151" r)).
  rewrite (str_contains_app2 "195" "151" s r ltac:(discriminate) HXs).
  rewrite (str_split_one2 "195" "151" s r ltac:(discriminate) HXs HXr).
  unfold r. rewrite (str_split_one "^" "" base x Hcb Hcx). reflexivity.
Qed.

Lemma X7_times_dialect_as_E_witness :
  Uncertain.from_string ("7.2973525693(11)" ++ "×" ++ "10" ++ "^" ++ "-3")
  = Uncertain.from_string ("7.2973525693(11)" ++ "E" ++ "-3").
Proof.
  apply (X7_times_dialect_as_E "7.2973525693(11)" "10" "-3"); reflexivity.
Defined.

Lemma sign_mem (c : ascii) (sg : string) :
  is_sign sg -> Ascii.eqb c "+" = false -> Ascii.eqb c "-" = false ->
  Str.mem c sg = false.
Proof.
  intros [-> | [-> | ->]] H1 H2; cbn [Str.mem]; now rewrite ?H1, ?H2.
Qed.

(** White space around a number does not change what [float] reads. *)
Lemma rstrip_spaces (ws : string) : Str.all Str.is_space ws = true -> Str.rstrip ws = "".
Proof.
  induction ws as [|c ws IH]; intros H; [reflexivity |].
  cbn [Str.all] in H. apply andb_true_iff in H as [Hc Hws].
  cbn [Str.rstrip]. now rewrite (IH Hws), Hc.
Qed.

Lemma rstrip_app_spaces (t ws : string) :
  Str.all Str.is_space ws = true -> Str.rstrip (t ++ ws) = Str.rstrip t.
Proof.
  intros H. induction t as [|c t IH].
  - cbn [append]. now rewrite rstrip_spaces.
  - cbn [append Str.rstrip]. now rewrite IH.
Qed.

Lemma lstrip_spaces_app (ws s : string) :
  Str.all Str.is_space ws = true -> Str.lstrip (ws ++ s) = Str.lstrip s.
Proof.
  induction ws as [|c ws IH]; intros H; [reflexivity |].
  cbn [Str.all] in H. apply andb_true_iff in H as [Hc Hws].
  cbn [append Str.lstrip]. now rewrite Hc, (IH Hws).
Qed.

Lemma strip_spaces_around (ws1 s ws2 : string) :
  Str.all Str.is_space ws1 = true -> Str.all Str.is_space ws2 = true ->
  Str.strip (ws1 ++ s ++ ws2) = Str.strip s.
Proof.
  intros H1 H2. unfold Str.strip. rewrite (lstrip_spaces_app ws1 _ H1).
  induction s as [|c s IH].
  - cbn [append]. rewrite <- (str_app_nil_r ws2), (lstrip_spaces_app ws2 "" H2).
    reflexivity.
  - cbn [append Str.lstrip]. destruct (Str.is_space c); [exact IH |].
    exact (rstrip_app_spaces (String c s) ws2 H2).
Qed.

Lemma py_float_spaces_around (ws1 s ws2 : string) :
  Str.all Str.is_space ws1 = true -> Str.all Str.is_space ws2 = true ->
  py_float (ws1 ++ s ++ ws2) = py_float s.
Proof. intros H1 H2. unfold py_float. now rewrite strip_spaces_around. Qed.

Lemma spaces_mem (c : ascii) (ws : string) :
  Str.all Str.is_space ws = true -> Str.is_space c = false -> Str.mem c ws = false.
Proof. apply str_all_not_mem. Qed.

Lemma numeric_mem (c : ascii) (a : string) :
  Str.all is_numeric a = true -> is_numeric c = false -> Str.mem c a = false.
Proof. apply str_all_not_mem. Qed.

(** X9.  The plus-minus dialect: a text in parentheses with a plus-minus sign
    between two numbers gives the number on the left as the mean and the
    absolute value of the number on the right as the uncertainty, both read
    by [float]; white space around either number is allowed.  An error of
    [float] is the error of [from_string], the mean being read first. *)
Theorem X9_plus_minus_dialect (ws1 a ws2 ws3 b ws4 : string) :
  Str.all Str.is_space ws1 = true -> Str.all Str.is_space ws2 = true ->
  Str.all Str.is_space ws3 = true -> Str.all Str.is_space ws4 = true ->
  Str.all is_numeric a = true -> Str.all is_numeric b = true ->
  Uncertain.from_string ("(" ++ (ws1 ++ a ++ ws2) ++ "±" ++ (ws3 ++ b ++ ws4) ++ ")") =
  (mean <- py_float a ;;
   uncertainty <- py_float b ;;
   Ret (Uncertain.mk (PyFloat mean) (PyFloat (Dec.abs uncertainty)))).
Proof.
  intros H1 H2 H3 H4 Ha Hb.
  assert (HmA : forall c, Str.is_space c = false -> is_numeric c = false ->
                          Str.mem c (ws1 ++ a ++ ws2) = false).
  { intros c Hs Hn.
    now rewrite !str_mem_app, (spaces_mem c ws1 H1 Hs), (numeric_mem c a Ha Hn),
      (spaces_mem c ws2 H2 Hs). }
  assert (HmB : forall c, Str.is_space c = false -> is_numeric c = false ->
                          Str.mem c (ws3 ++ b ++ ws4) = false).
  { intros c Hs Hn.
    now rewrite !str_mem_app, (spaces_mem c ws3 H3 Hs), (numeric_mem c b Hb Hn),
      (spaces_mem c ws4 H4 Hs). }
  set (A := ws1 ++ a ++ ws2) in *. set (B := ws3 ++ b ++ ws4) in *.
  set (mid := A ++ "±" ++ B).
  assert (Hmid : forall c, Str.is_space c = false -> is_numeric c = false ->
                           Ascii.eqb c "194" = false -> Ascii.eqb c "177" = false ->
                           Str.mem c mid = false).
  { intros c Hs Hn Hc1 Hc2. unfold mid.
    change ("±" ++ B) with (String "194" (String "177" B)).
    rewrite str_mem_app, (HmA c Hs Hn). cbn [Str.mem orb].
    now rewrite Hc1, Hc2, (HmB c Hs Hn). }
  assert (Hall : forall c, Str.is_space c = false -> is_numeric c = false ->
                           Ascii.eqb c "194" = false -> Ascii.eqb c "177" = false ->
                           Ascii.eqb c "(" = false -> Ascii.eqb c ")" = false ->
                           Str.mem c ("(" ++ mid ++ ")") = false).
  { intros c Hs Hn Hc1 Hc2 Hc3 Hc4. cbn [append Str.mem].
    rewrite Hc3, str_mem_app, (Hmid c Hs Hn Hc1 Hc2). cbn [Str.mem orb].
    now rewrite Hc4. }
  replace ("(" ++ A ++ "±" ++ B ++ ")") with ("(" ++ mid ++ ")")
    by (unfold mid; now str_norm).
  unfold Uncertain.from_string, recursion_limit. rewrite from_string_fuel_S.
  rewrite (str_contains_none "E" "" _
             (Hall "E"%char eq_refl eq_refl eq_refl eq_refl eq_refl eq_refl)).
  rewrite (str_contains_none "195" (String "151" "") _
             (Hall "195"%char eq_refl eq_refl eq_refl eq_refl eq_refl eq_refl)).
  rewrite str_slice_parens.
  change ("(" ++ mid ++ ")") with (String "(" (mid ++ ")")).
  replace (Str.last (String "(" (mid ++ ")"))) with (Some ")"%char)
    by (symmetry; exact (str_last_app ("(" ++ mid) ")")).
  cbn [Ascii.eqb Bool.eqb andb].
  unfold mid. change (A ++ "±" ++ B) with (A ++ String "194" (String "177" "") ++ B).
  rewrite (str_split_one "194" (String "177" "") A B
             (HmA "194"%char eq_refl eq_refl) (HmB "194"%char eq_refl eq_refl)).
  unfold A, B. rewrite !py_float_spaces_around by assumption.
  reflexivity.
Qed.

Lemma X9_plus_minus_dialect_witness :
  Uncertain.from_string ("(" ++ ("" ++ "939.56542052" ++ " ") ++ "±"
                             ++ ("" ++ "0.00000054" ++ "") ++ ")")
  = Ret (Uncertain.mk (PyFloat 939.56542052) (PyFloat 0.00000054)).
Proof.
  apply (X9_plus_minus_dialect "" "939.56542052" " " "" "0.00000054" ""); reflexivity.
Defined.

(** ** Renderings that [from_string] does not read back *)

Lemma str_eqb_app_nonempty (a b : string) : a <> "" -> (a ++ b =? "")%string = false.
Proof. intros H. destruct a; [contradiction | reflexivity]. Qed.

(** X10.  A rendering of a value whose uncertainty is 0 is never read back:
    for every spec, [from_string] raises the [ValueError] of the failed
    unpacking of [split('(')] on it, since the text has no parenthesis. *)
Theorem X10_zero_uncertainty_not_read_back
    (m u : num) (format_spec out : string) :
  Dec.is_zero (to_dec u) = true ->
  Uncertain.__format__ (Uncertain.__init__ m u) format_spec = Ret out ->
  Uncertain.from_string out = Raise (ValueError "not enough values to unpack").
Proof.
  intros Hu Hout. rewrite format_unfold, init_uncertainty_is_zero, Hu in Hout.
  destruct (Dec.is_zero (to_dec (Uncertain.mean (Uncertain.__init__ m u))));
    [discriminate |].
  injection Hout as <-.
  set (self := Uncertain.__init__ m u).
  set (stem := format_float _ _).
  assert (Hstem : Str.all is_numeric stem = true) by apply all_numeric_format_float.
  assert (Hne : stem <> "").
  { unfold stem, format_float. intros H.
    destruct (sign_str _ _); [| discriminate H].
    exact (repr_abs_nonempty _ H). }
  unfold Uncertain.from_string, recursion_limit.
  destruct (Z.eq_dec (exponent_of self) 0) as [H0 | H0].
  { rewrite H0. cbn [_exponent Z.eqb]. rewrite str_app_nil_r.
    rewrite from_string_fuel_plain.
    - destruct stem; [contradiction | reflexivity].
    - apply str_contains_none, (numeric_mem _ _ Hstem); reflexivity.
    - apply (str_contains_none "195"), (numeric_mem _ _ Hstem); reflexivity.
    - apply (numeric_mem _ _ Hstem); reflexivity. }
  rewrite (exponent_suffix _ _ H0).
  destruct (Str.contains "e" format_spec).
  - rewrite from_string_fuel_plain.
    + now rewrite (str_eqb_app_nonempty _ _ Hne).
    + apply str_contains_none. rewrite !str_mem_app, (numeric_mem "E" _ Hstem eq_refl).
      rewrite (mem_digits "E" _ (all_digit_of_nat _) eq_refl).
      now destruct (0 <? exponent_of self).
    + apply (str_contains_none "195"). rewrite !str_mem_app, (numeric_mem "195" _ Hstem eq_refl).
      rewrite (mem_digits "195" _ (all_digit_of_nat _) eq_refl).
      now destruct (0 <? exponent_of self).
    + rewrite !str_mem_app, (numeric_mem "(" _ Hstem eq_refl).
      rewrite (mem_digits "(" _ (all_digit_of_nat _) eq_refl).
      now destruct (0 <? exponent_of self).
  - rewrite (from_string_times 999 stem (if 0 <? exponent_of self then "+" else "-")
               (Str.of_nat (Z.abs (exponent_of self)))).
    + rewrite from_string_fuel_plain.
      * now rewrite (str_eqb_app_nonempty _ _ Hne).
      * apply str_contains_none. now rewrite str_mem_app, (numeric_mem "E" _ Hstem eq_refl).
      * apply (str_contains_none "195").
        now rewrite str_mem_app, (numeric_mem "195" _ Hstem eq_refl).
      * now rewrite str_mem_app, (numeric_mem "(" _ Hstem eq_refl).
    + apply (numeric_mem "E" _ Hstem eq_refl).
    + apply (numeric_mem "195" _ Hstem eq_refl).
    + destruct (0 <? exponent_of self); tauto.
    + apply of_nat_nonempty.
    + apply all_digit_of_nat.
Qed.

Lemma X10_zero_uncertainty_not_read_back_witness :
  Uncertain.from_string "+3.14159" = Raise (ValueError "not enough values to unpack").
Proof.
  apply (X10_zero_uncertainty_not_read_back (PyFloat 3.14159) (PyInt 0) "+u2" "+3.14159");
    reflexivity.
Defined.

Lemma str_last_app_nonempty (s t : string) : t <> "" -> Str.last (s ++ t) = Str.last t.
Proof.
  intros Ht. induction s as [|c s IH]; [reflexivity |].
  cbn [append Str.last]. rewrite IH.
  destruct (s ++ t) eqn:E; [| reflexivity].
  destruct s; [cbn in E; contradiction | discriminate E].
Qed.

Lemma str_last_all (p : ascii -> bool) (t : string) :
  t <> "" -> Str.all p t = true -> exists c, Str.last t = Some c /\ p c = true.
Proof.
  induction t as [|x t IH]; intros Hne Hall; [contradiction |].
  cbn [Str.all] in Hall. apply andb_true_iff in Hall as [Hx Ht].
  destruct t as [|y t'].
  - exists x. now split.
  - destruct (IH ltac:(discriminate) Ht) as (c & Hc & Hp).
    exists c. split; [exact Hc | exact Hp].
Qed.

(** A text that opens with a parenthesis and does not end with one goes to
    the parenthetical-digits dialect with an empty mean. *)
Lemma from_string_open_paren (n : nat) (rest : string) (c : ascii) :
  Str.mem "E" rest = false -> Str.mem "195" rest = false ->
  Str.mem "(" rest = false ->
  Str.last rest = Some c -> Ascii.eqb c ")" = false ->
  Uncertain.from_string_fuel (S n) ("(" ++ rest)
  = Raise (IndexError "list index out of range").
Proof.
  intros HE HX Hp Hl Hc. rewrite from_string_fuel_S.
  rewrite (str_contains_none "E" "" ("(" ++ rest)) by (cbn [append Str.mem]; now rewrite HE).
  rewrite (str_contains_none "195" (String "151" "") ("(" ++ rest))
    by (cbn [append Str.mem]; now rewrite HX).
  assert (Hne : rest <> "") by (intros ->; discriminate Hl).
  change ("(" ++ rest) with (String "(" rest) at 1 2.
  replace (Str.last (String "(" rest)) with (Some c).
  2:{ symmetry. rewrite <- Hl. exact (str_last_app_nonempty "(" rest Hne). }
  rewrite Hc. cbn [Ascii.eqb Bool.eqb andb].
  change ("(" ++ rest) with ("" ++ String "(" "" ++ rest).
  rewrite (str_split_one "(" "" "" rest eq_refl Hp). reflexivity.
Qed.

(** X11.  A rendering in the plus-minus form followed by an exponent suffix
    is not read back either: for an uncertainty that is at least [|mean|]
    and a mean whose exponent is not 0 (both in the range of binary64, the
    mean not within a billionth below a power of ten), [from_string] raises
    the [IndexError] of [frac[1]] on the output of [__format__], for every
    spec. *)
Theorem X11_dominant_with_exponent_not_read_back
    (m u : num) (format_spec out : string) :
  in_range (to_dec m) -> in_range (to_dec u) -> small_int m -> small_int u ->
  clear_of_next_power (to_dec m) ->
  (Dec.abs (to_dec m) <= Dec.abs (to_dec u))%dec ->
  exponent_of (Uncertain.__init__ m u) <> 0 ->
  Uncertain.__format__ (Uncertain.__init__ m u) format_spec = Ret out ->
  Uncertain.from_string out = Raise (IndexError "list index out of range").
Proof.
  intros _ Hur _ _ _ Hdom Hx Hout.
  pose proof (in_range_nonzero _ Hur) as Hu.
  destruct (Dec.is_zero (to_dec m)) eqn:Hm.
  { rewrite format_unfold in Hout. cbn [Uncertain.__init__ Uncertain.mean] in Hout.
    rewrite Hm in Hout. discriminate. }
  rewrite format_unfold_base in Hout
    by (cbn [Uncertain.__init__ Uncertain.mean]; rewrite ?init_uncertainty_is_zero;
        assumption).
  destruct (Uncertain.format_base _ _ _) as [stem|] eqn:Hbase; [| discriminate].
  cbn [bind] in Hout. injection Hout as <-.
  destruct (format_base_shape m u _ _ _ Hu Hbase)
    as [(_ & a & b & -> & Ha & Hb) | (Hlt & _)].
  2:{ unfold Dec.lt in Hlt. unfold Dec.le in Hdom. rewrite dec_leb_ltb in Hdom.
      rewrite Hlt in Hdom. discriminate. }
  rewrite (exponent_suffix _ _ Hx).
  set (sg := if 0 <? exponent_of _ then "+" else "-").
  set (ds := Str.of_nat _).
  assert (Hsg : sg = "+" \/ sg = "-") by (unfold sg; destruct (0 <? _); tauto).
  assert (Hds : Str.all Str.is_digit ds = true) by apply all_digit_of_nat.
  assert (Hdsne : ds <> "") by apply of_nat_nonempty.
  assert (Hbody : forall c, is_numeric c = false -> Ascii.eqb c " " = false ->
                            Ascii.eqb c "194" = false -> Ascii.eqb c "177" = false ->
                            Ascii.eqb c ")" = false ->
                            Str.mem c (a ++ " ± " ++ b ++ ")") = false).
  { intros c Hn H1 H2 H3 H4.
    change (" ± " ++ b ++ ")") with (String " " (String "194" (String "177" (String " " (b ++ ")"))))).
    rewrite str_mem_app, (numeric_mem c a Ha Hn). cbn [Str.mem orb].
    rewrite H1, H2, H3, str_mem_app, (numeric_mem c b Hb Hn). cbn [Str.mem orb].
    now rewrite H4. }
  set (body := a ++ " ± " ++ b ++ ")") in *.
  change ("(" ++ body) with (String "(" body).
  unfold Uncertain.from_string, recursion_limit.
  destruct (Str.contains "e" format_spec).
  - replace (String "(" body ++ "e" ++ sg ++ ds)
      with ("(" ++ (body ++ "e" ++ sg) ++ ds) by now str_norm.
    destruct (str_last_all Str.is_digit ds Hdsne Hds) as (c & Hc & Hcd).
    apply (from_string_open_paren 999 _ c).
    + rewrite !str_mem_app, (Hbody "E"%char eq_refl eq_refl eq_refl eq_refl eq_refl).
      rewrite (mem_digits "E" ds Hds eq_refl). now destruct Hsg as [-> | ->].
    + rewrite !str_mem_app, (Hbody "195"%char eq_refl eq_refl eq_refl eq_refl eq_refl).
      rewrite (mem_digits "195" ds Hds eq_refl). now destruct Hsg as [-> | ->].
    + rewrite !str_mem_app, (Hbody "("%char eq_refl eq_refl eq_refl eq_refl eq_refl).
      rewrite (mem_digits "(" ds Hds eq_refl). now destruct Hsg as [-> | ->].
    + now rewrite (str_last_app_nonempty _ ds Hdsne).
    + destruct (Ascii.eqb c ")") eqn:E; [| reflexivity].
      apply Ascii.eqb_eq in E. subst c. discriminate Hcd.
  - rewrite (from_string_times 999 _ sg ds).
    + replace (String "(" body ++ " ") with ("(" ++ body ++ " ") by reflexivity.
      rewrite (from_string_open_paren 998 _ " ").
      * reflexivity.
      * now rewrite str_mem_app, (Hbody "E"%char eq_refl eq_refl eq_refl eq_refl eq_refl).
      * now rewrite str_mem_app, (Hbody "195"%char eq_refl eq_refl eq_refl eq_refl eq_refl).
      * now rewrite str_mem_app, (Hbody "("%char eq_refl eq_refl eq_refl eq_refl eq_refl).
      * exact (str_last_app _ " ").
      * reflexivity.
    + cbn [Str.mem orb].
      exact (Hbody "E"%char eq_refl eq_refl eq_refl eq_refl eq_refl).
    + cbn [Str.mem orb].
      exact (Hbody "195"%char eq_refl eq_refl eq_refl eq_refl eq_refl).
    + exact Hsg.
    + exact Hdsne.
    + exact Hds.
Qed.

Lemma X11_dominant_with_exponent_not_read_back_witness :
  Uncertain.from_string "(+1.0 ± 10.0) × 10^+1"
  = Raise (IndexError "list index out of range").
Proof.
  apply (X11_dominant_with_exponent_not_read_back
           (PyInt 10) (PyInt 100) "+u2" "(+1.0 ± 10.0) × 10^+1");
    first [reflexivity | discriminate | split; reflexivity].
Defined.

(** ** The sign in front of the mean *)

(** X12.  Every text that [__format__] returns begins, after the opening
    parenthesis of the plus-minus form if there is one, with the sign of the
    mean and then a digit.  The sign is [-] for a negative mean whatever the
    spec; for a positive mean it is [+] when the spec holds a [+] or is empty,
    and nothing otherwise. *)
Theorem X12_sign_of_the_mean (m u : num) (format_spec out : string) :
  Uncertain.__format__ (Uncertain.__init__ m u) format_spec = Ret out ->
  exists (c : ascii) (r : string),
    Str.is_digit c = true /\
    let sg := if Dec.dm (to_dec m) <? 0 then "-"
              else if Str.contains "+" format_spec || (format_spec =? "")%string
                   then "+" else "" in
    (out = sg ++ String c r \/ out = "(" ++ sg ++ String c r).
Proof.
  intros Hout. cbv zeta.
  assert (Hsg : forall d : Dec.t,
             Dec.dm d = Dec.dm (to_dec m) ->
             sign_str (Dec.dm d <? 0) (Uncertain.f_sign_of format_spec)
             = (if Dec.dm (to_dec m) <? 0 then "-"
                else if Str.contains "+" format_spec || (format_spec =? "")%string
                     then "+" else "")).
  { intros d ->. unfold sign_str, Uncertain.f_sign_of.
    destruct (Dec.dm (to_dec m) <? 0); [reflexivity |].
    now destruct (Str.contains "+" format_spec || (format_spec =? "")%string). }
  destruct (Dec.is_zero (to_dec m)) eqn:Hm.
  { rewrite format_unfold in Hout. cbn [Uncertain.__init__ Uncertain.mean] in Hout.
    rewrite Hm in Hout. discriminate. }
  destruct (Dec.is_zero (to_dec u)) eqn:Hu.
  - rewrite format_unfold, init_uncertainty_is_zero, Hu in Hout.
    cbn [Uncertain.__init__ Uncertain.mean] in Hout. rewrite Hm in Hout.
    injection Hout as <-. unfold format_float.
    rewrite Hsg by reflexivity.
    match goal with
    | |- context [repr_abs ?d] => destruct (repr_abs_head_digit d) as (c & r & -> & Hc)
    end.
    exists c. eexists. split; [exact Hc |]. left.
    rewrite str_app_assoc. reflexivity.
  - rewrite format_unfold_base in Hout
      by (cbn [Uncertain.__init__ Uncertain.mean]; rewrite ?init_uncertainty_is_zero;
          assumption).
    destruct (Uncertain.format_base _ _ _) as [stem|] eqn:Hbase; [| discriminate].
    cbn [bind] in Hout. injection Hout as <-.
    destruct (format_base_mean_text m u _ _ _ Hu Hbase) as (a & r & Hstem & _ & Ha).
    assert (Hdm : Dec.dm (to_dec (Uncertain.mean (base_of (Uncertain.__init__ m u))))
                  = Dec.dm (to_dec m)) by (rewrite base_of_mean; reflexivity).
    assert (Hhead : exists (c : ascii) (t : string),
               a = (if Dec.dm (to_dec m) <? 0 then "-"
                    else if Str.contains "+" format_spec || (format_spec =? "")%string
                         then "+" else "") ++ String c t /\
               Str.is_digit c = true).
    { destruct Ha as [-> | (prec & _ & ->)].
      - destruct (format_num_head_digit
                    (Uncertain.mean (base_of (Uncertain.__init__ m u)))
                    (Uncertain.f_sign_of format_spec)) as (c & t & -> & Hc).
        rewrite (Hsg _ Hdm). now exists c, t.
      - destruct (fixed_abs_head_digit
                    (to_dec (Uncertain.mean (base_of (Uncertain.__init__ m u)))) prec)
          as (c & t & -> & Hc).
        rewrite (Hsg _ Hdm). now exists c, t. }
    destruct Hhead as (c & t & -> & Hc).
    exists c. eexists. split; [exact Hc |].
    destruct Hstem as [-> | ->]; [right | left]; now str_norm.
Qed.

Lemma X12_sign_of_the_mean_witness :
  exists (c : ascii) (r : string),
    Str.is_digit c = true /\
    ("(-1.000 ± 10.000)" = "-" ++ String c r \/
     "(-1.000 ± 10.000)" = "(" ++ "-" ++ String c r).
Proof.
  apply (X12_sign_of_the_mean (PyInt (-1)) (PyInt 10) ".3" "(-1.000 ± 10.000)").
  reflexivity.
Defined.

(** ** Options without a value *)

Lemma re_search_no_digits (c : ascii) (before rest : string) :
  Str.mem c before = false -> no_digit_head rest = true ->
  int_of_match (re_search_digits (String c "") (before ++ String c "" ++ rest))
  = Raise (ValueError "invalid literal for int() with base 10").
Proof.
  intros Hb Hr. unfold re_search_digits.
  rewrite (str_cut_app c "" before rest Hb).
  replace rest with ("" ++ rest) by reflexivity.
  rewrite (span_digits_app "" rest eq_refl Hr). reflexivity.
Qed.

(** X13.  A [.] or a [u] without digits after it is read as an option with
    an empty value, and [int('')] raises [ValueError].  For a mean and a
    non-zero uncertainty in the range of binary64 and a spec of ASCII
    characters this happens for the first [.] of the spec in every case, and
    for the first [u] when the uncertainty is below [|mean|] (by a billionth
    of it at least; the [u] option is not read in the plus-minus case).  So
    the specs [u] and [eu] are refused although [e] alone is accepted. *)
Theorem X13_option_without_digits (m u : num) (before rest : string) :
  in_range (to_dec m) -> in_range (to_dec u) ->
  small_int m -> int64_safe u (to_dec m) ->
  Str.all is_ascii before = true -> Str.all is_ascii rest = true ->
  (String.length before + String.length rest <= 4000)%nat ->
  no_digit_head rest = true ->
  (Str.contains "." before = false ->
   Uncertain.__format__ (Uncertain.__init__ m u) (before ++ "." ++ rest)
   = Raise (ValueError "invalid literal for int() with base 10")) /\
  (Str.contains "u" before = false ->
   clearly_below (to_dec u) (to_dec m) ->
   (exists N : Z,
       int_of_match (re_search_digits "." (before ++ "u" ++ rest)) = Ret N) ->
   Uncertain.__format__ (Uncertain.__init__ m u) (before ++ "u" ++ rest)
   = Raise (ValueError "invalid literal for int() with base 10")).
Proof.
  intros Hmr Hur _ _ _ _ _ Hrest.
  pose proof (in_range_nonzero _ Hmr) as Hm.
  pose proof (in_range_nonzero _ Hur) as Hu.
  split.
  - rewrite str_contains_mem. intros Hb.
    rewrite format_unfold_base
      by (cbn [Uncertain.__init__ Uncertain.mean]; rewrite ?init_uncertainty_is_zero;
          assumption).
    unfold Uncertain.format_base.
    now rewrite (re_search_no_digits "." before rest Hb Hrest).
  - rewrite str_contains_mem. intros Hb Hcb [N HN].
    pose proof (clearly_below_lt _ _ Hm Hcb) as Hlt.
    rewrite format_unfold_base
      by (cbn [Uncertain.__init__ Uncertain.mean]; rewrite ?init_uncertainty_is_zero;
          assumption).
    pose proof (base_of_uncertainty_pos m u Hu) as Hpos.
    pose proof (base_of_dominant m u) as Hdom. cbv zeta in Hdom.
    unfold Uncertain.format_base. rewrite HN. cbn [bind]. rewrite Hdom.
    unfold Dec.lt in Hlt. rewrite dec_leb_ltb, Hlt. cbn [negb].
    unfold int_floor_log10, Dec.is_zero.
    destruct (Z.eqb_spec (Dec.dm (to_dec (Uncertain.uncertainty
                (base_of (Uncertain.__init__ m u))))) 0); [lia |].
    destruct (Z.ltb_spec (Dec.dm (to_dec (Uncertain.uncertainty
                (base_of (Uncertain.__init__ m u))))) 0); [lia |].
    cbn [bind].
    now rewrite (re_search_no_digits "u" before rest Hb Hrest).
Qed.

Lemma X13_option_without_digits_witness :
  Uncertain.__format__ electron_mass ("+" ++ "." ++ "")
  = Raise (ValueError "invalid literal for int() with base 10") /\
  Uncertain.__format__ electron_mass ("e" ++ "u" ++ "")
  = Raise (ValueError "invalid literal for int() with base 10").
Proof.
  assert (Hm : in_range 0.51099895000) by (split; reflexivity).
  assert (Hu : in_range 0.00000000015) by (split; reflexivity).
  assert (Hlen : (1 + 0 <= 4000)%nat) by lia.
  destruct (X13_option_without_digits
              (PyFloat 0.51099895000) (PyFloat 0.00000000015) "+" ""
              Hm Hu I I eq_refl eq_refl Hlen eq_refl) as [H1 _].
  destruct (X13_option_without_digits
              (PyFloat 0.51099895000) (PyFloat 0.00000000015) "e" ""
              Hm Hu I I eq_refl eq_refl Hlen eq_refl) as [_ H2].
  split.
  - apply H1. reflexivity.
  - apply H2; [reflexivity | reflexivity | now exists 0].
Defined.

(** ** More renderings that are not read back *)

Lemma fixed_abs_0 (d : Dec.t) :
  fixed_abs d 0 = Str.of_nat (Z.abs (Dec.round_scaled d 0)).
Proof.
  unfold fixed_abs. cbn [Z.eqb]. change (10 ^ 0) with 1.
  now rewrite Z.div_1_r, str_app_nil_r.
Qed.

(** X17.  A rendering without decimals is not read back.  With the option
    [u1], no [.<N>] option and an uncertainty below [|mean|] (by a billionth
    of it at least) that is at least one unit of the leading digit of the
    mean ([10 ^ exponent]), the mean is printed without a decimal point, as
    in [5(2)] for 5.0 with uncertainty 2.0, and [from_string] raises the
    [IndexError] of [frac[1]] on the text.  The mean and the uncertainty are
    in the range of binary64, the mean not within a billionth below a power
    of ten, and the spec is made of at most 4300 ASCII characters. *)
Theorem X17_no_decimals_not_read_back (m u : num) (format_spec : string) :
  in_range (to_dec m) -> in_range (to_dec u) ->
  small_int m -> int64_safe u (to_dec m) ->
  clear_of_next_power (to_dec m) ->
  Str.all is_ascii format_spec = true -> (String.length format_spec <= 4300)%nat ->
  clearly_below (to_dec u) (to_dec m) ->
  (Dec.mk 1 (exponent_of (Uncertain.__init__ m u)) <= Dec.abs (to_dec u))%dec ->
  int_of_match (re_search_digits "." format_spec) = Ret 0 ->
  int_of_match (re_search_digits "u" format_spec) = Ret 1 ->
  exists out : string,
    Uncertain.__format__ (Uncertain.__init__ m u) format_spec = Ret out /\
    Uncertain.from_string out = Raise (IndexError "list index out of range").
Proof.
  intros Hmr Hur _ _ _ _ _ Hcb Hone HN HM.
  pose proof (in_range_nonzero _ Hmr) as Hm.
  pose proof (in_range_nonzero _ Hur) as Hu.
  pose proof (clearly_below_lt _ _ Hm Hcb) as Hlt.
  pose proof (base_of_uncertainty_pos m u Hu) as Hpos.
  pose proof (base_of_dominant m u) as Hdom. cbv zeta in Hdom.
  pose proof (base_floor_log10_uncertainty m u Hu Hlt) as Hp0.
  pose proof (base_of_uncertainty m u) as HU. cbv zeta in HU.
  set (x := exponent_of (Uncertain.__init__ m u)) in *.
  set (self := base_of (Uncertain.__init__ m u)) in *.
  assert (Hle : Dec.leb (Dec.abs (to_dec (Uncertain.mean self)))
                        (Dec.abs (to_dec (Uncertain.uncertainty self))) = false).
  { rewrite Hdom. unfold Dec.lt in Hlt. now rewrite dec_leb_ltb, Hlt. }
  assert (Hp : Dec.floor_log10 (to_dec (Uncertain.uncertainty self)) = 0).
  { assert (H1 : (Dec.mk 1 0 <= to_dec (Uncertain.uncertainty self))%dec).
    { rewrite HU. unfold Dec.le in *.
      rewrite <- (dec_leb_scale _ _ (- x)) in Hone.
      unfold Dec.scale at 1 in Hone. cbn [Dec.dm Dec.de] in Hone.
      now replace (x + - x) with 0 in Hone by lia. }
    pose proof (floor_log10_le (Dec.mk 1 0) _ ltac:(cbn; lia) H1) as H2.
    change (Dec.floor_log10 (Dec.mk 1 0)) with 0 in H2. lia. }
  assert (Hdig : digits_of self 0 1 = 0).
  { unfold digits_of. cbn [Z.eqb]. rewrite Hp. reflexivity. }
  rewrite format_unfold_base
    by (cbn [Uncertain.__init__ Uncertain.mean]; rewrite ?init_uncertainty_is_zero;
        assumption).
  fold self x.
  rewrite (format_base_normal self _ _ 0 1 HN HM Hle Hpos).
  cbn [Z.eqb negb andb]. rewrite Hdig, (format_f_ok _ _ 0 ltac:(lia)). cbn [bind].
  rewrite fixed_abs_0.
  rewrite format_int_nonneg by (apply indicator_of_nonneg; lia).
  set (a := sign_str _ _ ++ Str.of_nat _).
  set (w := Str.of_nat (indicator_of self 0 1)).
  eexists. split; [reflexivity |].
  assert (Hwd : Str.all Str.is_digit w = true) by apply all_digit_of_nat.
  assert (Hane : a <> "") by (apply sign_app_nonempty, of_nat_nonempty).
  assert (Hmem_a : forall c, Str.is_digit c = false -> Ascii.eqb c "+" = false ->
                             Ascii.eqb c "-" = false -> Str.mem c a = false).
  { intros c Hc H1 H2. unfold a.
    rewrite str_mem_app, (sign_mem c _ (sign_str_is_sign _ _) H1 H2).
    now rewrite (mem_digits c _ (all_digit_of_nat _) Hc). }
  unfold Uncertain.from_string, recursion_limit.
  destruct (Z.eq_dec x 0) as [H0 | H0].
  { rewrite H0. cbn [_exponent Z.eqb]. rewrite str_app_nil_r.
    apply from_string_fuel_no_point.
    - exact Hane.
    - now apply Hmem_a.
    - now apply Hmem_a.
    - now rewrite str_mem_app, (mem_digits "(" w Hwd eq_refl).
    - apply str_contains_none. change ("(" ++ w ++ ")") with (String "(" (w ++ ")")).
      rewrite str_mem_app, (Hmem_a "E"%char eq_refl eq_refl eq_refl). cbn [Str.mem orb].
      now rewrite str_mem_app, (mem_digits "E" w Hwd eq_refl).
    - apply (str_contains_none "195"). change ("(" ++ w ++ ")") with (String "(" (w ++ ")")).
      rewrite str_mem_app, (Hmem_a "195"%char eq_refl eq_refl eq_refl). cbn [Str.mem orb].
      now rewrite str_mem_app, (mem_digits "195" w Hwd eq_refl). }
  rewrite (exponent_suffix _ _ H0).
  set (sg := if 0 <? x then "+" else "-").
  set (ds := Str.of_nat (Z.abs x)).
  assert (Hsg : sg = "+" \/ sg = "-") by (unfold sg; destruct (0 <? x); tauto).
  assert (Hds : Str.all Str.is_digit ds = true) by apply all_digit_of_nat.
  assert (Hdsne : ds <> "") by apply of_nat_nonempty.
  destruct (Str.contains "e" format_spec).
  - replace ((a ++ "(" ++ w ++ ")") ++ "e" ++ sg ++ ds)
      with (a ++ "(" ++ (w ++ ")" ++ "e" ++ sg ++ ds)) by now str_norm.
    assert (Hrest : forall c, Str.is_digit c = false -> Ascii.eqb c ")" = false ->
                              Ascii.eqb c "e" = false -> Ascii.eqb c "+" = false ->
                              Ascii.eqb c "-" = false ->
                              Str.mem c (w ++ ")" ++ "e" ++ sg ++ ds) = false).
    { intros c Hc H1 H2 H3 H4.
      change (")" ++ "e" ++ sg ++ ds) with (String ")" (String "e" (sg ++ ds))).
      rewrite str_mem_app, (mem_digits c w Hwd Hc). cbn [Str.mem orb].
      rewrite H1, H2, str_mem_app, (mem_digits c ds Hds Hc).
      destruct Hsg as [-> | ->]; cbn [Str.mem]; now rewrite ?H3, ?H4. }
    apply from_string_fuel_no_point.
    + exact Hane.
    + now apply Hmem_a.
    + now apply Hmem_a.
    + now apply Hrest.
    + apply str_contains_none.
      change ("(" ++ w ++ ")" ++ "e" ++ sg ++ ds)
        with (String "(" (w ++ ")" ++ "e" ++ sg ++ ds)).
      rewrite str_mem_app, (Hmem_a "E"%char eq_refl eq_refl eq_refl). cbn [Str.mem orb].
      now apply Hrest.
    + apply (str_contains_none "195").
      change ("(" ++ w ++ ")" ++ "e" ++ sg ++ ds)
        with (String "(" (w ++ ")" ++ "e" ++ sg ++ ds)).
      rewrite str_mem_app, (Hmem_a "195"%char eq_refl eq_refl eq_refl). cbn [Str.mem orb].
      now apply Hrest.
  - assert (Hstem : forall c, Str.is_digit c = false -> Ascii.eqb c "+" = false ->
                              Ascii.eqb c "-" = false -> Ascii.eqb c "(" = false ->
                              Ascii.eqb c ")" = false ->
                              Str.mem c (a ++ "(" ++ w ++ ")") = false).
    { intros c Hc H1 H2 H3 H4. change ("(" ++ w ++ ")") with (String "(" (w ++ ")")).
      rewrite str_mem_app, (Hmem_a c Hc H1 H2). cbn [Str.mem orb].
      rewrite H3, str_mem_app, (mem_digits c w Hwd Hc). cbn [Str.mem orb].
      now rewrite H4. }
    rewrite (from_string_times 999 _ sg ds
               (Hstem "E"%char eq_refl eq_refl eq_refl eq_refl eq_refl)
               (Hstem "195"%char eq_refl eq_refl eq_refl eq_refl eq_refl)
               Hsg Hdsne Hds).
    replace ((a ++ "(" ++ w ++ ")") ++ " ") with (a ++ "(" ++ (w ++ ")" ++ " "))
      by now str_norm.
    assert (Hrest : forall c, Str.is_digit c = false -> Ascii.eqb c ")" = false ->
                              Ascii.eqb c " " = false ->
                              Str.mem c (w ++ ")" ++ " ") = false).
    { intros c Hc H1 H2. rewrite str_mem_app, (mem_digits c w Hwd Hc).
      cbn [append Str.mem orb]. now rewrite H1, H2. }
    rewrite from_string_fuel_no_point.
    + reflexivity.
    + exact Hane.
    + now apply Hmem_a.
    + now apply Hmem_a.
    + now apply Hrest.
    + apply str_contains_none.
      change ("(" ++ w ++ ")" ++ " ") with (String "(" (w ++ ")" ++ " ")).
      rewrite str_mem_app, (Hmem_a "E"%char eq_refl eq_refl eq_refl). cbn [Str.mem orb].
      now apply Hrest.
    + apply (str_contains_none "195").
      change ("(" ++ w ++ ")" ++ " ") with (String "(" (w ++ ")" ++ " ")).
      rewrite str_mem_app, (Hmem_a "195"%char eq_refl eq_refl eq_refl). cbn [Str.mem orb].
      now apply Hrest.
Qed.

Lemma X17_no_decimals_not_read_back_witness :
  exists out : string,
    Uncertain.__format__ (Uncertain.__init__ (PyFloat 50.0) (PyFloat 20.0)) "u1" = Ret out /\
    Uncertain.from_string out = Raise (IndexError "list index out of range").
Proof.
  apply (X17_no_decimals_not_read_back (PyFloat 50.0) (PyFloat 20.0) "u1");
    first [reflexivity | exact I | split; reflexivity | cbn; lia].
Defined.

(** ** Malformed texts *)

Lemma str_split_fuel_nonempty (f : nat) (sep s : string) :
  exists (p : string) (l : list string), Str.split_fuel f sep s = p :: l.
Proof.
  destruct f; [now exists s, [] |].
  rewrite str_split_fuel_S. destruct (Str.cut sep s) as [[a b]|]; now eexists; eexists.
Qed.

Lemma str_split_two_seps (c : ascii) (a b r : string) :
  Str.mem c a = false -> Str.mem c b = false ->
  exists (p : string) (l : list string),
    Str.split (String c "") (a ++ String c "" ++ b ++ String c "" ++ r) = a :: b :: p :: l.
Proof.
  intros Ha Hb. unfold Str.split.
  assert (Hlen : String.length (a ++ String c "" ++ b ++ String c "" ++ r)
                 = S (S (String.length a + String.length b + String.length r))).
  { rewrite !str_length_app. cbn [String.length]. lia. }
  rewrite Hlen.
  rewrite str_split_fuel_S, (str_cut_app c "" a _ Ha).
  rewrite str_split_fuel_S, (str_cut_app c "" b _ Hb).
  destruct (str_split_fuel_nonempty
              (String.length a + String.length b + String.length r) (String c "") r)
    as (p & l & ->).
  now exists p, l.
Qed.

(** A two-byte separator that [s] does not hold is not made by one more
    byte behind [s], unless that byte is its second one. *)
Lemma str_cut2_snoc (c1 c2 x : ascii) (s : string) :
  x <> c2 ->
  Str.cut (String c1 (String c2 "")) s = None ->
  Str.cut (String c1 (String c2 "")) (s ++ String x "") = None.
Proof.
  intros Hx. induction s as [|y s IH]; intros H.
  - cbn [append]. rewrite str_cut_cons. cbn [prefix].
    destruct (ascii_dec c1 x); reflexivity.
  - rewrite str_cut_cons in H.
    destruct (prefix (String c1 (String c2 "")) (String y s)) eqn:Hp; [discriminate |].
    destruct (Str.cut (String c1 (String c2 "")) s) as [[u v]|] eqn:Hc; [discriminate |].
    cbn [append]. rewrite str_cut_cons, (IH eq_refl).
    replace (prefix (String c1 (String c2 "")) (String y (s ++ String x ""))) with false;
      [reflexivity |].
    symmetry. cbn [prefix] in *. destruct (ascii_dec c1 y); [| reflexivity].
    destruct s as [|z s']; cbn [append prefix] in *.
    + destruct (ascii_dec c2 x) as [E|]; [now symmetry in E | reflexivity].
    + destruct (ascii_dec c2 z); [now destruct s' | reflexivity].
Qed.

(** X20.  Three malformed texts and their errors.  A text with two [E]
    raises the [ValueError] of the unpacking of [split('E')]; a text with a
    multiplication sign and no [^] behind it raises the [IndexError] of
    [rest.split('^')[1]], before the mantissa is looked at; a text in
    parentheses without a plus-minus sign raises the [ValueError] of the
    unpacking of [split('±')]. *)
Theorem X20_malformed_texts :
  (forall a b r : string,
      Str.contains "E" a = false -> Str.contains "E" b = false ->
      Uncertain.from_string (a ++ "E" ++ b ++ "E" ++ r)
      = Raise (ValueError "too many values to unpack")) /\
  (forall s r : string,
      Str.contains "E" s = false -> Str.contains "E" r = false ->
      Str.contains "×" s = false -> Str.contains "×" r = false ->
      Str.contains "^" r = false ->
      Uncertain.from_string (s ++ "×" ++ r)
      = Raise (IndexError "list index out of range")) /\
  (forall mid : string,
      Str.contains "E" mid = false -> Str.contains "×" mid = false ->
      Str.contains "±" mid = false ->
      Uncertain.from_string ("(" ++ mid ++ ")")
      = Raise (ValueError "not enough values to unpack")).
Proof.
  split; [| split].
  - intros a b r Ha Hb. rewrite str_contains_mem in Ha, Hb.
    unfold Uncertain.from_string, recursion_limit. rewrite from_string_fuel_S.
    rewrite (str_contains_app "E" "" a _ Ha).
    destruct (str_split_two_seps "E" a b r Ha Hb) as (p & l & ->). reflexivity.
  - intros s r HEs HEr HXs HXr Hc. rewrite str_contains_mem in HEs, HEr, Hc.
    unfold Uncertain.from_string, recursion_limit. rewrite from_string_fuel_S.
    assert (HE : Str.contains "E" (s ++ "×" ++ r) = false).
    { rewrite str_contains_mem, str_mem_app, HEs. cbn [append Str.mem orb].
      change (Ascii.eqb "E" "195") with false. change (Ascii.eqb "E" "151") with false.
      exact HEr. }
    rewrite HE.
    change (s ++ "×" ++ r) with (s ++ String "195" (String "151" r)).
    rewrite (str_contains_app2 "195" "151" s r ltac:(discriminate) HXs).
    rewrite (str_split_one2 "195" "151" s r ltac:(discriminate) HXs HXr).
    rewrite (str_split_none "^" "" r Hc). reflexivity.
  - intros mid HE HX HP. rewrite str_contains_mem in HE.
    unfold Uncertain.from_string, recursion_limit. rewrite from_string_fuel_S.
    assert (HE' : Str.contains "E" ("(" ++ mid ++ ")") = false).
    { rewrite str_contains_mem. cbn [append Str.mem]. rewrite str_mem_app, HE. reflexivity. }
    assert (HX' : Str.contains "×" ("(" ++ mid ++ ")") = false).
    { unfold Str.contains in *. cbn [append]. rewrite str_cut_cons.
      cbn [prefix]. destruct (ascii_dec "195" "("); [discriminate |].
      destruct (Str.cut "×" mid) as [[x y]|] eqn:Hc; [discriminate |].
      now rewrite (str_cut2_snoc "195" "151" ")" mid ltac:(discriminate) Hc). }
    rewrite HE', HX', str_slice_parens.
    change ("(" ++ mid ++ ")") with (String "(" (mid ++ ")")).
    replace (Str.last (String "(" (mid ++ ")"))) with (Some ")"%char)
      by (symmetry; exact (str_last_app ("(" ++ mid) ")")).
    cbn [Ascii.eqb Bool.eqb andb].
    rewrite (str_split_absent "±" mid HP). reflexivity.
Qed.

Lemma X20_malformed_texts_witness :
  Uncertain.from_string ("1.0(1)" ++ "E" ++ "5" ++ "E" ++ "3")
    = Raise (ValueError "too many values to unpack") /\
  Uncertain.from_string ("1.0(1)" ++ "×" ++ "10")
    = Raise (IndexError "list index out of range") /\
  Uncertain.from_string ("(" ++ "1.0" ++ ")")
    = Raise (ValueError "not enough values to unpack").
Proof.
  destruct X20_malformed_texts as (H1 & H2 & H3).
  split; [| split].
  - apply (H1 "1.0(1)" "5" "3"); reflexivity.
  - apply (H2 "1.0(1)" "10"); reflexivity.
  - apply (H3 "1.0"); reflexivity.
Defined.


(** ** The values that [from_string] reads *)

(** The parenthetical-digits dialect in exact arithmetic. *)
Lemma from_string_fuel_digits_value (n : nat) (sg ip fp w tail : string) :
  is_sign sg ->
  ip <> "" -> Str.all Str.is_digit ip = true -> Str.all Str.is_digit fp = true ->
  w <> "" -> Str.all Str.is_digit w = true ->
  tail = "" \/ tail = " " ->
  Uncertain.from_string_fuel (S n) (sg ++ ip ++ "." ++ fp ++ "(" ++ w ++ ")" ++ tail) =
  Ret (Uncertain.mk
         (PyFloat (Dec.mk (apply_sign (sg =? "-")%string (Str.digits_val (ip ++ fp)))
                          (- Z.of_nat (String.length fp))))
         (PyFloat (Dec.mk (Str.digits_val w) (- Z.of_nat (String.length fp))))).
Proof.
  intros Hsg Hipne Hip Hfp Hwne Hw Htail.
  set (a := sg ++ ip ++ "." ++ fp).
  set (b := w ++ ")" ++ tail).
  replace (sg ++ ip ++ "." ++ fp ++ "(" ++ b) with (a ++ "(" ++ b)
    by (unfold a; now str_norm).
  assert (Hmem_a : forall c, Str.is_digit c = false -> Ascii.eqb c "+" = false ->
                             Ascii.eqb c "-" = false -> Ascii.eqb c "." = false ->
                             Str.mem c a = false).
  { intros c Hc H1 H2 H3. unfold a. change ("." ++ fp) with (String "." fp).
    rewrite !str_mem_app, (sign_mem c sg Hsg H1 H2), (mem_digits c ip Hip Hc).
    cbn [Str.mem]. now rewrite H3, (mem_digits c fp Hfp Hc). }
  assert (Hmem_b : forall c, Str.is_digit c = false -> Ascii.eqb c ")" = false ->
                             Ascii.eqb c " " = false -> Str.mem c b = false).
  { intros c Hc H1 H2. unfold b. change (")" ++ tail) with (String ")" tail).
    rewrite str_mem_app, (mem_digits c w Hw Hc). cbn [Str.mem]. rewrite H1.
    destruct Htail as [-> | ->]; cbn [Str.mem]; now rewrite ?H2. }
  assert (Hmem : forall c, Str.is_digit c = false -> Ascii.eqb c "+" = false ->
                           Ascii.eqb c "-" = false -> Ascii.eqb c "." = false ->
                           Ascii.eqb c "(" = false -> Ascii.eqb c ")" = false ->
                           Ascii.eqb c " " = false ->
                           Str.mem c (a ++ "(" ++ b) = false).
  { intros c Hc H1 H2 H3 H4 H5 H6. change ("(" ++ b) with (String "(" b).
    rewrite str_mem_app, (Hmem_a c Hc H1 H2 H3). cbn [Str.mem].
    now rewrite H4, (Hmem_b c Hc H5 H6). }
  assert (Hane : a <> "").
  { unfold a. destruct Hsg as [-> | [-> | ->]]; [| discriminate | discriminate].
    destruct ip; [contradiction | discriminate]. }
  rewrite from_string_fuel_S.
  rewrite (str_contains_none "E" "" _
             (Hmem "E"%char eq_refl eq_refl eq_refl eq_refl eq_refl eq_refl eq_refl)).
  rewrite (str_contains_none "195" (String "151" "") _
             (Hmem "195"%char eq_refl eq_refl eq_refl eq_refl eq_refl eq_refl eq_refl)).
  destruct (str_head_not_paren a ("(" ++ b) Hane
              (Hmem_a "("%char eq_refl eq_refl eq_refl eq_refl)) as (c0 & t & Heq & Hc0).
  rewrite (str_split_one "(" "" a b
             (Hmem_a "("%char eq_refl eq_refl eq_refl eq_refl)
             (Hmem_b "("%char eq_refl eq_refl eq_refl)).
  rewrite Heq, Hc0. cbn [andb].
  assert (Hsplit : Str.split "." a = [sg ++ ip; fp]).
  { unfold a. replace (sg ++ ip ++ "." ++ fp) with ((sg ++ ip) ++ String "." "" ++ fp)
      by now str_norm.
    apply str_split_one.
    - now rewrite str_mem_app, (sign_mem "." sg Hsg eq_refl eq_refl),
        (mem_digits "." ip Hip eq_refl).
    - apply (mem_digits "." fp Hfp eq_refl). }
  rewrite Hsplit.
  unfold b. change (w ++ ")" ++ tail) with (w ++ String ")" "" ++ tail).
  rewrite (str_split_hd ")" "" w tail (mem_digits ")" w Hw eq_refl)).
  unfold a. rewrite (py_float_fraction sg ip fp Hsg Hipne Hip Hfp). cbn [bind].
  pose proof (py_float_integer "" w (or_introl eq_refl) Hwne Hw) as Hpw.
  cbn [append] in Hpw. rewrite Hpw. cbn [bind].
  unfold Uncertain.__init__, np_abs, Dec.abs, Dec.scale. cbn [Dec.dm Dec.de apply_sign].
  change ("" =? "-")%string with false. unfold apply_sign at 2.
  rewrite (Z.abs_eq _ (digits_val_nonneg w Hw)), Z.add_0_l. reflexivity.
Qed.

(** The [E] dialect in exact arithmetic. *)
Lemma capital_E_exact (sg ip fp w xsg xd : string) :
  is_sign sg ->
  ip <> "" -> Str.all Str.is_digit ip = true -> Str.all Str.is_digit fp = true ->
  w <> "" -> Str.all Str.is_digit w = true ->
  is_sign xsg -> xd <> "" -> Str.all Str.is_digit xd = true ->
  Uncertain.from_string (sg ++ ip ++ "." ++ fp ++ "(" ++ w ++ ")" ++ "E" ++ xsg ++ xd) =
  Ret (Uncertain.mk
         (PyFloat (Dec.mk (apply_sign (sg =? "-")%string (Str.digits_val (ip ++ fp)))
                          (- Z.of_nat (String.length fp)
                           + apply_sign (xsg =? "-")%string (Str.digits_val xd))))
         (PyFloat (Dec.mk (Str.digits_val w)
                          (- Z.of_nat (String.length fp)
                           + apply_sign (xsg =? "-")%string (Str.digits_val xd))))).
Proof.
  intros Hsg Hipne Hip Hfp Hwne Hw Hxsg Hxne Hxd.
  pose proof (digits_val_nonneg w Hw) as Hw0.
  set (stem := sg ++ ip ++ "." ++ fp ++ "(" ++ w ++ ")").
  replace (sg ++ ip ++ "." ++ fp ++ "(" ++ w ++ ")" ++ "E" ++ xsg ++ xd)
    with (stem ++ "E" ++ xsg ++ xd) by (unfold stem; now str_norm).
  assert (Hstem : Str.mem "E" stem = false).
  { unfold stem.
    change (sg ++ ip ++ "." ++ fp ++ "(" ++ w ++ ")")
      with (sg ++ ip ++ String "." (fp ++ String "(" (w ++ ")"))).
    repeat first [rewrite str_mem_app | progress cbn [Str.mem]].
    now rewrite (sign_mem "E" sg Hsg eq_refl eq_refl), (mem_digits "E" ip Hip eq_refl),
      (mem_digits "E" fp Hfp eq_refl), (mem_digits "E" w Hw eq_refl). }
  assert (Hx : Str.mem "E" (xsg ++ xd) = false).
  { now rewrite str_mem_app, (sign_mem "E" xsg Hxsg eq_refl eq_refl),
      (mem_digits "E" xd Hxd eq_refl). }
  unfold Uncertain.from_string, recursion_limit. rewrite from_string_fuel_S.
  rewrite (str_contains_app "E" "" stem _ Hstem).
  rewrite (str_split_one "E" "" stem _ Hstem Hx).
  rewrite (py_int_literal xsg xd Hxsg Hxne Hxd). cbn [bind].
  unfold stem. replace (w ++ ")") with (w ++ ")" ++ "") by reflexivity.
  rewrite (from_string_fuel_digits_value 998 sg ip fp w "") by auto.
  cbn [bind].
  unfold Uncertain.__init__, np_abs, Dec.abs, Dec.scale.
  cbn [Dec.dm Dec.de Uncertain.mean Uncertain.uncertainty to_dec].
  now rewrite !Z.abs_eq by lia.
Qed.

Lemma dec_close_refl (a : Dec.t) :
  (Dec.abs (Dec.sub a a) <= Dec.scale (Dec.abs a) (-12))%dec.
Proof. apply dec_close_of_eq; [apply dec_eq_refl | apply dec_scale_abs_nonneg]. Qed.

(** X8.  The parenthetical-digits dialect: the digits in parentheses count
    units of the last decimal of the mean, so [1.234(5)] is read as the
    mean 1.234 with the uncertainty 0.005.  The mean may carry a sign and
    needs at least one digit in front of the point; it is what [float] reads
    from the text in front of the parenthesis.  The uncertainty is the
    product of line 240, the digits times the power of ten, up to the
    rounding of binary64: within a relative [1e-12] of the exact product.
    (At most 300 digits in each part, so that no number leaves the range of
    binary64.) *)
Theorem X8_parenthetical_digits_value (sg ip fp w : string) :
  is_sign sg ->
  ip <> "" -> Str.all Str.is_digit ip = true -> Str.all Str.is_digit fp = true ->
  w <> "" -> Str.all Str.is_digit w = true ->
  (String.length ip <= 300)%nat -> (String.length fp <= 300)%nat ->
  (String.length w <= 300)%nat ->
  exists mv U : Dec.t,
    Uncertain.from_string (sg ++ ip ++ "." ++ fp ++ "(" ++ w ++ ")")
    = Ret (Uncertain.mk (PyFloat mv) (PyFloat U)) /\
    py_float (sg ++ ip ++ "." ++ fp) = Ret mv /\
    let exact := Dec.mk (Str.digits_val w) (- Z.of_nat (String.length fp)) in
    (Dec.abs (Dec.sub U exact) <= Dec.scale (Dec.abs exact) (-12))%dec.
Proof.
  intros Hsg Hipne Hip Hfp Hwne Hw _ _ _.
  eexists. eexists. split; [| split].
  - unfold Uncertain.from_string, recursion_limit.
    replace (w ++ ")") with (w ++ ")" ++ "") by reflexivity.
    apply from_string_fuel_digits_value; auto.
  - now apply py_float_fraction.
  - apply dec_close_refl.
Qed.

Lemma X8_parenthetical_digits_value_witness :
  exists mv U : Dec.t,
    Uncertain.from_string ("" ++ "1" ++ "." ++ "234" ++ "(" ++ "5" ++ ")")
    = Ret (Uncertain.mk (PyFloat mv) (PyFloat U)) /\
    py_float ("" ++ "1" ++ "." ++ "234") = Ret mv /\
    (Dec.abs (Dec.sub U (Dec.mk 5 (-3))) <= Dec.scale (Dec.abs (Dec.mk 5 (-3))) (-12))%dec.
Proof.
  apply (X8_parenthetical_digits_value "" "1" "234" "5");
    first [discriminate | reflexivity | now left | cbn; lia].
Defined.

(** X21.  The [E] dialect: a parenthetical-digits text followed by [E] and an
    integer [x] is read as that text with the mean and the uncertainty
    multiplied by [10 ^ x], so [9.1093837015(28)E-31] is the mean
    [9.1093837015e-31] with the uncertainty [28e-41], both up to the
    rounding of the two products of line 225: within a relative [1e-12] of
    the exact products.  (At most 100 digits in each part and [x] between
    -100 and 18, so that no number leaves the range of binary64 and the
    power of ten is in the range of [int64].) *)
Theorem X21_capital_E_value (sg ip fp w xsg xd : string) :
  is_sign sg ->
  ip <> "" -> Str.all Str.is_digit ip = true -> Str.all Str.is_digit fp = true ->
  w <> "" -> Str.all Str.is_digit w = true ->
  is_sign xsg -> xd <> "" -> Str.all Str.is_digit xd = true ->
  (String.length ip <= 100)%nat -> (String.length fp <= 100)%nat ->
  (String.length w <= 100)%nat -> (String.length xd <= 100)%nat ->
  let x := apply_sign (xsg =? "-")%string (Str.digits_val xd) in
  -100 <= x <= 18 ->
  exists mv M U : Dec.t,
    Uncertain.from_string (sg ++ ip ++ "." ++ fp ++ "(" ++ w ++ ")" ++ "E" ++ xsg ++ xd)
    = Ret (Uncertain.mk (PyFloat M) (PyFloat U)) /\
    py_float (sg ++ ip ++ "." ++ fp) = Ret mv /\
    let exact_mean := Dec.scale mv x in
    let exact_unc := Dec.mk (Str.digits_val w) (- Z.of_nat (String.length fp) + x) in
    (Dec.abs (Dec.sub M exact_mean) <= Dec.scale (Dec.abs exact_mean) (-12))%dec /\
    (Dec.abs (Dec.sub U exact_unc) <= Dec.scale (Dec.abs exact_unc) (-12))%dec.
Proof.
  intros Hsg Hipne Hip Hfp Hwne Hw Hxsg Hxne Hxd _ _ _ _ x _.
  eexists. eexists. eexists. split; [| split].
  - now apply capital_E_exact.
  - now apply py_float_fraction.
  - cbv zeta. split; apply dec_close_refl.
Qed.

Lemma X21_capital_E_value_witness :
  exists mv M U : Dec.t,
    Uncertain.from_string ("" ++ "9" ++ "." ++ "1093837015" ++ "(" ++ "28" ++ ")"
                              ++ "E" ++ "-" ++ "31")
    = Ret (Uncertain.mk (PyFloat M) (PyFloat U)) /\
    py_float ("" ++ "9" ++ "." ++ "1093837015") = Ret mv /\
    (Dec.abs (Dec.sub M (Dec.scale mv (-31)))
     <= Dec.scale (Dec.abs (Dec.scale mv (-31))) (-12))%dec /\
    (Dec.abs (Dec.sub U (Dec.mk 28 (-41))) <= Dec.scale (Dec.abs (Dec.mk 28 (-41))) (-12))%dec.
Proof.
  apply (X21_capital_E_value "" "9" "1093837015" "28" "-" "31");
    first [discriminate | reflexivity | now left | now right; right | cbn; lia].
Defined.
